(** * AffiFlow: workspace-scoped authorization and resource lifecycle

    A shallow embedding of the API route handlers and of the routing
    middleware of the AffiFlow repository, with the properties of its
    specification stated and proved over them.

    Conventions of the embedding:
    - a Prisma table is the list of its rows, in insertion order;
    - a handler is a function from the store (and the request) to a
      response and the store after the request;
    - a JavaScript exception is the left injection of a sum, threaded
      through a small error monad;
    - [new Date()] is the parameter [now], the output of
      [Math.random().toString(36)] is the parameter [rnd], and the id
      Prisma draws for a created row is the parameter [newId];
    - strings are sequences of code units below 256. *)

From Stdlib Require Import String Ascii List ZArith Lia Bool Arith.
From Stdlib Require Import DecimalString.
Import ListNotations.

Local Open Scope string_scope.
Local Open Scope nat_scope.

(* ================================================================== *)
(** ** JavaScript values the handlers rely on *)

Module Js.

(** [s.includes(sub)]: case-sensitive substring test. *)
Fixpoint includes (s sub : string) : bool :=
  if prefix sub s then true
  else match s with
       | EmptyString => false
       | String _ rest => includes rest sub
       end.

(** [s.substring(a, b)] for [a <= b]. *)
Definition substring (s : string) (a b : nat) : string :=
  String.substring a (b - a) s.

(** A string in a boolean position: only the empty string is falsy. *)
Definition truthy (s : string) : bool :=
  match s with EmptyString => false | _ => true end.

(** [x || d] on an optional string: [undefined], [null] and the empty
    string all fall through to the default. *)
Definition orElse (x : option string) (d : string) : string :=
  match x with
  | Some s => if truthy s then s else d
  | None => d
  end.

Definition isLower (c : ascii) : bool :=
  let n := nat_of_ascii c in (97 <=? n) && (n <=? 122).
Definition isUpper (c : ascii) : bool :=
  let n := nat_of_ascii c in (65 <=? n) && (n <=? 90).
Definition isDigit (c : ascii) : bool :=
  let n := nat_of_ascii c in (48 <=? n) && (n <=? 57).

(** The regular-expression class [\w]. *)
Definition isWord (c : ascii) : bool :=
  isLower c || isUpper c || isDigit c || (nat_of_ascii c =? 95).

(** The regular-expression class [\s], which is also what [trim]
    removes, restricted to code units below 256. *)
Definition isSpace (c : ascii) : bool :=
  let n := nat_of_ascii c in
  ((9 <=? n) && (n <=? 13)) || (n =? 32) || (n =? 160).

(** [toLowerCase] on one code unit below 256. *)
Definition lowerChar (c : ascii) : ascii :=
  let n := nat_of_ascii c in
  if isUpper c then ascii_of_nat (n + 32)
  else if (192 <=? n) && (n <=? 222) && negb (n =? 215)
       then ascii_of_nat (n + 32)
       else c.

Fixpoint toLowerCase (s : string) : string :=
  match s with
  | EmptyString => EmptyString
  | String c rest => String (lowerChar c) (toLowerCase rest)
  end.

Fixpoint dropWhile (p : ascii -> bool) (s : string) : string :=
  match s with
  | EmptyString => EmptyString
  | String c rest => if p c then dropWhile p rest else s
  end.

Fixpoint rev_onto (s acc : string) : string :=
  match s with
  | EmptyString => acc
  | String c rest => rev_onto rest (String c acc)
  end.

Definition rev (s : string) : string := rev_onto s EmptyString.

Definition dropWhileEnd (p : ascii -> bool) (s : string) : string :=
  rev (dropWhile p (rev s)).

Definition trim (s : string) : string :=
  dropWhileEnd isSpace (dropWhile isSpace s).

(** [s.replace(/[^...]/g, "")]: delete every character outside [keep]. *)
Fixpoint removeUnless (keep : ascii -> bool) (s : string) : string :=
  match s with
  | EmptyString => EmptyString
  | String c rest =>
      if keep c then String c (removeUnless keep rest)
      else removeUnless keep rest
  end.

(** [s.replace(/[...]+/g, r)]: every maximal run of characters of the
    class [p] becomes one [r]; [inRun] tells that the previous
    character already belonged to the run being replaced. *)
Fixpoint collapseFrom (p : ascii -> bool) (r : ascii) (inRun : bool)
         (s : string) : string :=
  match s with
  | EmptyString => EmptyString
  | String c rest =>
      if p c then
        if inRun then collapseFrom p r true rest
        else String r (collapseFrom p r true rest)
      else String c (collapseFrom p r false rest)
  end.

Definition collapseRuns (p : ascii -> bool) (r : ascii) (s : string) : string :=
  collapseFrom p r false s.

End Js.

Module JsNumber.

(** Values of [parseInt] and of the arithmetic on them: an integer, or
    [None] for [NaN]. *)
Definition number := option Z.

Definition digitValue (c : ascii) : option Z :=
  let n := nat_of_ascii c in
  if Js.isDigit c then Some (Z.of_nat (n - 48))
  else if (97 <=? n) && (n <=? 102) then Some (Z.of_nat (n - 87))
  else if (65 <=? n) && (n <=? 70) then Some (Z.of_nat (n - 55))
  else None.

(** Reads the longest prefix of digits in [radix], most significant
    first; [seen] tells whether one digit was read already. *)
Fixpoint readDigits (radix : Z) (acc : Z) (seen : bool) (s : string) : number :=
  match s with
  | EmptyString => if seen then Some acc else None
  | String c rest =>
      match digitValue c with
      | Some d =>
          if (d <? radix)%Z then readDigits radix (radix * acc + d)%Z true rest
          else if seen then Some acc else None
      | None => if seen then Some acc else None
      end
  end.

Definition readUnsigned (s : string) : number :=
  if prefix "0x" s || prefix "0X" s
  then readDigits 16 0 false (Js.substring s 2 (String.length s))
  else readDigits 10 0 false s.

(** [parseInt(s)] without a radix: leading white space, an optional
    sign, then hexadecimal digits after [0x] or decimal digits. *)
Definition parseInt (s : string) : number :=
  match Js.dropWhile Js.isSpace s with
  | String "-" rest => option_map Z.opp (readUnsigned rest)
  | String "+" rest => readUnsigned rest
  | t => readUnsigned t
  end.

Definition sub (a b : number) : number :=
  match a, b with Some x, Some y => Some (x - y)%Z | _, _ => None end.

Definition mul (a b : number) : number :=
  match a, b with Some x, Some y => Some (x * y)%Z | _, _ => None end.

End JsNumber.

(* ================================================================== *)
(** ** Exceptions and responses *)

(** What a handler's [catch] block can receive: an [Error] with its
    message, or the error of a failed [Schema.parse]. *)
Inductive Thrown : Type :=
| JsError (message : string)
| ZodError.

Definition Result (A : Type) : Type := (Thrown + A)%type.

Definition ret {A} (a : A) : Result A := inr a.
Definition throw {A} (e : Thrown) : Result A := inl e.
Definition bind {A B} (m : Result A) (k : A -> Result B) : Result B :=
  match m with
  | inl e => inl e
  | inr a => k a
  end.

Notation "'let*' x ':=' m 'in' k" := (bind m (fun x => k))
  (at level 10, x pattern, m at level 200, k at level 200).

(** [NextResponse.json(body, { status })] with the body envelope
    [{ success, message, error, data }]; a field the handler leaves out
    is [None], and a left-out [success] is [false]. *)
Record Response (A : Type) : Type := mkResponse {
  status : nat;
  success : bool;
  error : option string;
  message : option string;
  data : option A
}.

Arguments mkResponse {A}.
Arguments status {A}.
Arguments success {A}.
Arguments error {A}.
Arguments message {A}.
Arguments data {A}.

Definition errorResponse {A} (code : nat) (msg : string) : Response A :=
  mkResponse code false (Some msg) None None.

Definition unauthorized {A} : Response A := errorResponse 401 "Unauthorized".

Definition internalServerError {A} : Response A :=
  errorResponse 500 "Internal server error".

Definition validationFailed {A} : Response A :=
  errorResponse 400 "Validation failed".

(** [session?.user]: the id and the platform role of the signed-in user. *)
Inductive UserRole : Type := USER | PLATFORM_ADMIN | SUPER_ADMIN.

Record SessionUser : Type := mkSessionUser {
  user_id : string;
  user_role : UserRole
}.

Definition Session : Type := option SessionUser.

(* ================================================================== *)
(** ** The persisted data model *)

Inductive WorkspaceRole : Type := MEMBER | ADMIN | OWNER.

Inductive VideoType : Type := YOUTUBE | TIKTOK | INSTAGRAM.

Record UserWorkspace : Type := mkUserWorkspace {
  uw_userId : string;
  uw_workspaceId : string;
  uw_role : WorkspaceRole
}.

Record Workspace : Type := mkWorkspace {
  ws_id : string;
  ws_name : string;
  ws_slug : string;
  ws_description : option string;
  ws_createdAt : Z;
  ws_updatedAt : Z;
  ws_deletedAt : option Z
}.

Record Post : Type := mkPost {
  post_id : string;
  post_workspaceId : string;
  post_title : string;
  post_content : option string;
  post_excerpt : option string;
  post_slug : string;
  post_videoUrl : option string;
  post_videoType : option VideoType;
  post_thumbnail : option string;
  post_isPublished : bool;
  post_publishedAt : option Z;
  post_createdAt : Z;
  post_deletedAt : option Z
}.

Record Product : Type := mkProduct {
  prod_id : string;
  prod_workspaceId : string;
  prod_name : string;
  prod_image : option string;
  prod_price : option Z;
  prod_currency : string;
  prod_platform : option string;
  prod_affiliateUrl : option string;
  prod_categoryId : option string;
  prod_activeAffiliateLinkId : option string
}.

Record Category : Type := mkCategory {
  cat_id : string;
  cat_workspaceId : string;
  cat_name : string;
  cat_description : option string;
  cat_color : option string
}.

Record AffiliateLink : Type := mkAffiliateLink {
  link_id : string;
  link_workspaceId : string;
  link_productId : string;
  link_name : string;
  link_originalUrl : string;
  link_affiliateUrl : string;
  link_platform : string;
  link_createdAt : Z
}.

Record PostProduct : Type := mkPostProduct {
  pp_postId : string;
  pp_productId : string;
  pp_timestamp : option Z
}.

Record Store : Type := mkStore {
  userWorkspaces : list UserWorkspace;
  workspaces : list Workspace;
  posts : list Post;
  products : list Product;
  categories : list Category;
  affiliateLinks : list AffiliateLink;
  postProducts : list PostProduct
}.

Definition with_workspaces (st : Store) (l : list Workspace) : Store :=
  mkStore (userWorkspaces st) l (posts st) (products st) (categories st)
          (affiliateLinks st) (postProducts st).

Definition with_userWorkspaces (st : Store) (l : list UserWorkspace) : Store :=
  mkStore l (workspaces st) (posts st) (products st) (categories st)
          (affiliateLinks st) (postProducts st).

Definition with_posts (st : Store) (l : list Post) : Store :=
  mkStore (userWorkspaces st) (workspaces st) l (products st) (categories st)
          (affiliateLinks st) (postProducts st).

Definition with_categories (st : Store) (l : list Category) : Store :=
  mkStore (userWorkspaces st) (workspaces st) (posts st) (products st) l
          (affiliateLinks st) (postProducts st).

Definition with_postProducts (st : Store) (l : list PostProduct) : Store :=
  mkStore (userWorkspaces st) (workspaces st) (posts st) (products st)
          (categories st) (affiliateLinks st) l.

Definition isNull {A} (x : option A) : bool :=
  match x with None => true | Some _ => false end.

(* ================================================================== *)
(** ** The Prisma client calls the handlers make *)

Module Prisma.

Section Table.
Context {Row : Type}.

Definition findFirst (where_ : Row -> bool) (rows : list Row) : option Row :=
  find where_ rows.

Definition findMany (where_ : Row -> bool) (rows : list Row) : list Row :=
  filter where_ rows.

Definition count (where_ : Row -> bool) (rows : list Row) : nat :=
  length (filter where_ rows).

(** [update({ where: unique, data })]: throws when no row matches. *)
Definition update (where_ : Row -> bool) (data_ : Row -> Row)
           (rows : list Row) : Result (list Row) :=
  if existsb where_ rows
  then ret (map (fun r => if where_ r then data_ r else r) rows)
  else throw (JsError "Record to update not found.").

(** [delete({ where: unique })]: throws when no row matches. *)
Definition delete (where_ : Row -> bool) (rows : list Row) : Result (list Row) :=
  if existsb where_ rows
  then ret (filter (fun r => negb (where_ r)) rows)
  else throw (JsError "Record to delete does not exist.").

Definition deleteMany (where_ : Row -> bool) (rows : list Row) : list Row :=
  filter (fun r => negb (where_ r)) rows.

(** [create({ data })] under a uniqueness constraint: throws when a
    stored row [conflicts] with the new one. *)
Definition create (conflicts : Row -> Row -> bool) (row : Row)
           (rows : list Row) : Result (list Row) :=
  if existsb (conflicts row) rows
  then throw (JsError "Unique constraint failed")
  else ret (rows ++ [row])%list.

(** [orderBy], as a stable insertion sort: [before r x] tells that
    [r] is to come strictly before [x]. *)
Fixpoint insertBy (before : Row -> Row -> bool) (r : Row) (sorted : list Row)
  : list Row :=
  match sorted with
  | [] => [r]
  | x :: rest =>
      if before r x then r :: sorted
      else x :: insertBy before r rest
  end.

Definition orderBy (before : Row -> Row -> bool) (rows : list Row) : list Row :=
  fold_right (insertBy before) [] rows.

(** [orderBy: { key: "desc" }] *)
Definition orderByDesc (key : Row -> Z) (rows : list Row) : list Row :=
  orderBy (fun r x => (key x <? key r)%Z) rows.

(** [orderBy: { key: "asc" }] on a nullable column, nulls last. *)
Definition orderByAscNullsLast (key : Row -> option Z) (rows : list Row)
  : list Row :=
  orderBy (fun r x =>
             match key r, key x with
             | Some a, Some b => (a <? b)%Z
             | Some _, None => true
             | None, _ => false
             end) rows.

(** [skip] and [take] of [findMany] on the ordered rows: a [NaN] or a
    negative [skip] is refused by the client; a negative [take]
    counts from the end of the ordered rows. *)
Definition page (skip take : JsNumber.number) (rows : list Row)
  : Result (list Row) :=
  match skip, take with
  | Some s, Some t =>
      if (s <? 0)%Z then throw (JsError "Invalid value for skip argument")
      else if (0 <=? t)%Z
           then ret (firstn (Z.to_nat t) (skipn (Z.to_nat s) rows))
           else ret (List.rev (firstn (Z.to_nat (- t))
                                      (skipn (Z.to_nat s) (List.rev rows))))
  | _, _ => throw (JsError "Invalid value for skip or take argument")
  end.

End Table.

(** [$transaction(async (tx) => ...)]: the outcome of the callback
    and the store afterwards; the writes of the callback are committed
    when it returns and rolled back when it throws. *)
Definition transaction {A} (st : Store) (callback : Store -> Result (A * Store))
  : Result A * Store :=
  match callback st with
  | inr (a, st') => (inr a, st')
  | inl e => (inl e, st)
  end.

End Prisma.

(* ================================================================== *)
(** ** lib/video-utils: slugs *)

Module VideoUtils.

Definition isHyphen (c : ascii) : bool := (nat_of_ascii c =? 45).

(** [generateSlug(title)]: lower case, trimmed, characters outside
    [[\w\s-]] removed, runs of [[\s_-]] turned into one hyphen, leading
    and trailing hyphens removed. *)
Definition generateSlug (title : string) : string :=
  let lowered := Js.trim (Js.toLowerCase title) in
  let kept :=
    Js.removeUnless (fun c => Js.isWord c || Js.isSpace c || isHyphen c) lowered in
  let hyphenated :=
    Js.collapseRuns
      (fun c => Js.isSpace c || (nat_of_ascii c =? 95) || isHyphen c) "-" kept in
  Js.dropWhileEnd isHyphen (Js.dropWhile isHyphen hyphenated).

Definition isSlugChar (c : ascii) : bool := Js.isLower c || Js.isDigit c.

(** The regular expression [/^[a-z0-9]+(?:-[a-z0-9]+)*$/];
    [afterAlnum] tells that the previous character was in [[a-z0-9]]. *)
Fixpoint slugRegexFrom (afterAlnum : bool) (s : string) : bool :=
  match s with
  | EmptyString => afterAlnum
  | String c rest =>
      if isSlugChar c then slugRegexFrom true rest
      else if isHyphen c && afterAlnum then slugRegexFrom false rest
      else false
  end.

Definition isValidSlug (slug : string) : bool :=
  slugRegexFrom false slug
  && (3 <=? String.length slug) && (String.length slug <=? 50).

(** [Math.random().toString(36).substring(2, 8)], from the rendering
    [rnd] of the random number in base 36. *)
Definition randomSuffix (rnd : string) : string := Js.substring rnd 2 8.

End VideoUtils.

(* ================================================================== *)
(** ** src/app/api/workspaces/[id]/route.ts *)

Module WorkspaceRoute.

Definition roleHierarchy (r : WorkspaceRole) : nat :=
  match r with
  | MEMBER => 0
  | ADMIN => 1
  | OWNER => 2
  end.

Definition whereMembership (workspaceId userId : string) (uw : UserWorkspace) : bool :=
  (uw_workspaceId uw =? workspaceId)%string && (uw_userId uw =? userId)%string.

Definition verifyWorkspaceAccess (st : Store) (workspaceId userId : string)
           (requiredRole : WorkspaceRole) : Result UserWorkspace :=
  match Prisma.findFirst (whereMembership workspaceId userId) (userWorkspaces st) with
  | None => throw (JsError "Workspace not found or access denied")
  | Some userWorkspace =>
      if roleHierarchy (uw_role userWorkspace) <? roleHierarchy requiredRole
      then throw (JsError "Insufficient permissions")
      else ret userWorkspace
  end.

End WorkspaceRoute.

(* ================================================================== *)
(** ** Posts as the post handlers return them *)

(** A post with [include: { products: { include: { product } },
    _count: { select: { products: true } } }].  The [product] relation
    is a required foreign key, so every association row of the database
    has its product; the [select] of the source projects the product to
    some of its columns. *)
Record PostView : Type := mkPostView {
  pv_post : Post;
  pv_products : list (PostProduct * Product);
  pv_count : nat
}.

Definition productsOfPost (st : Store) (postId : string)
  : list (PostProduct * Product) :=
  flat_map
    (fun pp =>
       map (fun p => (pp, p))
           (Prisma.findMany (fun p => (prod_id p =? pp_productId pp)%string)
                            (products st)))
    (Prisma.findMany (fun pp => (pp_postId pp =? postId)%string) (postProducts st)).

Definition viewPost (st : Store) (p : Post) : PostView :=
  mkPostView p (productsOfPost st (post_id p))
             (Prisma.count (fun pp => (pp_postId pp =? post_id p)%string)
                           (postProducts st)).

(** [new URL(request.url).searchParams] *)
Definition SearchParams : Type := list (string * string).

Definition searchParams_get (params : SearchParams) (key : string) : option string :=
  option_map snd (find (fun kv => (fst kv =? key)%string) params).

(** The fields of [CreatePostSchema] after a successful [parse]. *)
Record PostData : Type := mkPostData {
  pd_title : string;
  pd_content : option string;
  pd_excerpt : option string;
  pd_slug : option string;
  pd_videoUrl : option string;
  pd_videoType : option VideoType;
  pd_thumbnail : option string;
  pd_isPublished : bool;
  pd_publishedAt : option Z;
  pd_productIds : option (list string)
}.

(** [id: { in: productIds }, workspaceId] *)
Definition whereProductIn (productIds : list string) (workspaceId : string)
           (p : Product) : bool :=
  existsb (fun i => (i =? prod_id p)%string) productIds
  && (prod_workspaceId p =? workspaceId)%string.

(** Modelled from the spec: the Prisma schema is not among the sources;
    the specification lists a unique constraint on (workspace, slug) for
    posts, next to the primary key [id]. *)
Definition postConflicts (new old : Post) : bool :=
  (post_id old =? post_id new)%string
  || ((post_workspaceId old =? post_workspaceId new)%string
      && (post_slug old =? post_slug new)%string).

(* ================================================================== *)
(** ** GET and POST /api/workspaces/[id]/posts *)

Module PostsRoute.

Definition whereMembership (workspaceId userId : string) (uw : UserWorkspace) : bool :=
  (uw_workspaceId uw =? workspaceId)%string && (uw_userId uw =? userId)%string.

Definition verifyWorkspaceAccess (st : Store) (workspaceId userId : string)
  : Result UserWorkspace :=
  match Prisma.findFirst (whereMembership workspaceId userId) (userWorkspaces st) with
  | None => throw (JsError "Access denied to workspace")
  | Some userWorkspace => ret userWorkspace
  end.

(** [{ contains: search, mode: "insensitive" }] on a nullable column. *)
Definition containsInsensitive (field : option string) (search : string) : bool :=
  match field with
  | Some v => Js.includes (Js.toLowerCase v) (Js.toLowerCase search)
  | None => false
  end.

(** The [where] clause the handler builds from the query string. *)
Definition whereClause (workspaceId search : string) (published : option string)
           (p : Post) : bool :=
  (post_workspaceId p =? workspaceId)%string
  && isNull (post_deletedAt p)
  && (if Js.truthy search
      then containsInsensitive (Some (post_title p)) search
           || containsInsensitive (post_content p) search
           || containsInsensitive (post_excerpt p) search
      else true)
  && match published with
     | Some v => Bool.eqb (post_isPublished p) (v =? "true")%string
     | None => true
     end.

Record Pagination : Type := mkPagination {
  pg_page : JsNumber.number;
  pg_limit : JsNumber.number;
  pg_total : nat;
  pg_pages : JsNumber.number
}.

Record PostsPage : Type := mkPostsPage {
  pp_posts : list PostView;
  pp_pagination : Pagination
}.

(** [Math.ceil(total / limit)]; [None] when the quotient is not a
    finite number. *)
Definition pagesOf (total : nat) (limit : JsNumber.number) : JsNumber.number :=
  match limit with
  | Some l => if (l =? 0)%Z then None else Some (- ((- Z.of_nat total) / l))%Z
  | None => None
  end.

Definition handleError {A} (e : Thrown) : Response A :=
  match e with
  | JsError m =>
      if Js.includes m "Access denied" then errorResponse 403 m
      else internalServerError
  | ZodError => internalServerError
  end.

Definition GET (st : Store) (session : Session) (workspaceId : string)
           (params : SearchParams) : Response PostsPage :=
  match session with
  | None => unauthorized
  | Some user =>
      let outcome :=
        let* _ := verifyWorkspaceAccess st workspaceId (user_id user) in
        let page := JsNumber.parseInt (Js.orElse (searchParams_get params "page") "1") in
        let limit := JsNumber.parseInt (Js.orElse (searchParams_get params "limit") "20") in
        let search := Js.orElse (searchParams_get params "search") "" in
        let published := searchParams_get params "published" in
        let skip := JsNumber.mul (JsNumber.sub page (Some 1%Z)) limit in
        let where_ := whereClause workspaceId search published in
        let* rows :=
          Prisma.page skip limit
            (Prisma.orderByDesc post_createdAt (Prisma.findMany where_ (posts st))) in
        let total := Prisma.count where_ (posts st) in
        ret (mkPostsPage (map (viewPost st) rows)
                         (mkPagination page limit total (pagesOf total limit)))
      in
      match outcome with
      | inr result => mkResponse 200 true None None (Some result)
      | inl e => handleError e
      end
  end.

(** "Generate slug if not provided" *)
Definition desiredSlug (postData : PostData) : string :=
  Js.orElse (pd_slug postData) (VideoUtils.generateSlug (pd_title postData)).

(** "Check if slug is unique within workspace": the desired slug, with
    a random suffix when a live post of the workspace already has it. *)
Definition chooseSlug (st : Store) (workspaceId : string) (postData : PostData)
           (rnd : string) : string :=
  let slug := desiredSlug postData in
  match Prisma.findFirst
          (fun p => (post_workspaceId p =? workspaceId)%string
                    && (post_slug p =? slug)%string
                    && isNull (post_deletedAt p))
          (posts st) with
  | Some _ => slug ++ "-" ++ VideoUtils.randomSuffix rnd
  | None => slug
  end.

Definition newPost (newId workspaceId slug : string) (now : Z) (postData : PostData)
  : Post :=
  mkPost newId workspaceId (pd_title postData) (pd_content postData)
         (pd_excerpt postData) slug (pd_videoUrl postData) (pd_videoType postData)
         (pd_thumbnail postData) (pd_isPublished postData)
         (if pd_isPublished postData then Some now else None)
         now None.

(** The callback of [$transaction]. *)
Definition createInTransaction (workspaceId slug newId : string) (now : Z)
           (postData : PostData) (tx : Store) : Result (option PostView * Store) :=
  let post := newPost newId workspaceId slug now postData in
  let* rows := Prisma.create postConflicts post (posts tx) in
  let tx1 := with_posts tx rows in
  let* tx2 :=
    match pd_productIds postData with
    | Some ((_ :: _) as productIds) =>
        let found := Prisma.findMany (whereProductIn productIds workspaceId)
                                     (products tx1) in
        if negb (length found =? length productIds)
        then throw (JsError "Some products not found or access denied")
        else ret (with_postProducts tx1
                    (postProducts tx1
                     ++ map (fun productId => mkPostProduct (post_id post) productId None)
                            productIds)%list)
    | _ => ret tx1
    end in
  ret (option_map (viewPost tx2)
                  (Prisma.findFirst (fun p => (post_id p =? post_id post)%string)
                                    (posts tx2)),
       tx2).

Definition handleWriteError {A} (e : Thrown) : Response A :=
  match e with
  | ZodError => validationFailed
  | JsError m =>
      if Js.includes m "Access denied" then errorResponse 403 m
      else internalServerError
  end.

(** [body] is the outcome of [CreatePostSchema.parse(await request.json())]. *)
Definition POST (st : Store) (session : Session) (workspaceId : string)
           (body : Result PostData) (rnd newId : string) (now : Z)
  : Response (option PostView) * Store :=
  match session with
  | None => (unauthorized, st)
  | Some user =>
      match (let* _ := verifyWorkspaceAccess st workspaceId (user_id user) in body) with
      | inl e => (handleWriteError e, st)
      | inr postData =>
          let slug := chooseSlug st workspaceId postData rnd in
          match Prisma.transaction st
                  (createInTransaction workspaceId slug newId now postData) with
          | (inr result, st') =>
              (mkResponse 200 true None (Some "Post created successfully")
                          (Some result), st')
          | (inl e, st') => (handleWriteError e, st')
          end
      end
  end.

End PostsRoute.

(* ================================================================== *)
(** ** GET, PUT and DELETE /api/workspaces/[id]/posts/[postId] *)

Module PostRoute.

Definition whereMembership (workspaceId userId : string) (uw : UserWorkspace) : bool :=
  (uw_workspaceId uw =? workspaceId)%string && (uw_userId uw =? userId)%string.

(** [{ id: postId, workspaceId, deletedAt: null }] *)
Definition wherePost (workspaceId postId : string) (p : Post) : bool :=
  (post_id p =? postId)%string
  && (post_workspaceId p =? workspaceId)%string
  && isNull (post_deletedAt p).

Definition verifyPostAccess (st : Store) (workspaceId postId userId : string)
  : Result (UserWorkspace * Post) :=
  match Prisma.findFirst (whereMembership workspaceId userId) (userWorkspaces st) with
  | None => throw (JsError "Access denied to workspace")
  | Some userWorkspace =>
      match Prisma.findFirst (wherePost workspaceId postId) (posts st) with
      | None => throw (JsError "Post not found or access denied")
      | Some post => ret (userWorkspace, post)
      end
  end.

(** A post with its products ordered by [timestamp], its workspace
    and the number of its products. *)
Record PostDetail : Type := mkPostDetail {
  det_post : Post;
  det_products : list (PostProduct * Product);
  det_workspace : option Workspace;
  det_count : nat
}.

Definition detailOf (st : Store) (p : Post) : PostDetail :=
  mkPostDetail p
    (Prisma.orderByAscNullsLast (fun x => pp_timestamp (fst x))
                                (productsOfPost st (post_id p)))
    (Prisma.findFirst (fun w => (ws_id w =? post_workspaceId p)%string) (workspaces st))
    (Prisma.count (fun pp => (pp_postId pp =? post_id p)%string) (postProducts st)).

Definition handleError {A} (e : Thrown) : Response A :=
  match e with
  | JsError m =>
      if Js.includes m "Access denied" then errorResponse 403 m
      else internalServerError
  | ZodError => internalServerError
  end.

Definition handleWriteError {A} (e : Thrown) : Response A :=
  match e with
  | ZodError => validationFailed
  | JsError m =>
      if Js.includes m "Access denied" then errorResponse 403 m
      else internalServerError
  end.

Definition GET (st : Store) (session : Session) (workspaceId postId : string)
  : Response PostDetail :=
  match session with
  | None => unauthorized
  | Some user =>
      match verifyPostAccess st workspaceId postId (user_id user) with
      | inl e => handleError e
      | inr _ =>
          match Prisma.findFirst (wherePost workspaceId postId) (posts st) with
          | None => errorResponse 404 "Post not found"
          | Some post => mkResponse 200 true None None (Some (detailOf st post))
          end
      end
  end.

(** The fields of [UpdatePostSchema] after a successful [parse]; a
    field the request leaves out is [None]. *)
Record UpdateData : Type := mkUpdateData {
  ud_title : option string;
  ud_content : option string;
  ud_excerpt : option string;
  ud_slug : option string;
  ud_videoUrl : option string;
  ud_videoType : option VideoType;
  ud_thumbnail : option string;
  ud_isPublished : option bool;
  ud_publishedAt : option Z;
  ud_productIds : option (list string)
}.

Definition isTruthy (x : option string) : bool :=
  match x with Some s => Js.truthy s | None => false end.

(** [if (postData.title && !postData.slug) postData.slug = generateSlug(...)] *)
Definition regenerateSlug (postData : UpdateData) : option string :=
  match ud_title postData with
  | Some title =>
      if Js.truthy title && negb (isTruthy (ud_slug postData))
      then Some (VideoUtils.generateSlug title)
      else ud_slug postData
  | None => ud_slug postData
  end.

(** The uniqueness check on the slug being stored, the post itself
    excluded. *)
Definition disambiguateSlug (st : Store) (workspaceId postId : string)
           (slug : option string) (rnd : string) : option string :=
  match slug with
  | Some s =>
      if Js.truthy s then
        match Prisma.findFirst
                (fun p => (post_workspaceId p =? workspaceId)%string
                          && (post_slug p =? s)%string
                          && isNull (post_deletedAt p)
                          && negb (post_id p =? postId)%string)
                (posts st) with
        | Some _ => Some (s ++ "-" ++ VideoUtils.randomSuffix rnd)
        | None => Some s
        end
      else Some s
  | None => None
  end.

(** [publishedAt] after the "handle published status" step. *)
Definition publishedAtOf (postData : UpdateData) (now : Z) : option Z :=
  match ud_isPublished postData with
  | Some true =>
      match ud_publishedAt postData with
      | Some t => Some t
      | None => Some now
      end
  | Some false => None
  | None => ud_publishedAt postData
  end.

Definition orKeep {A} (new : option A) (old : A) : A :=
  match new with Some v => v | None => old end.

Definition orKeepOpt {A} (new : option A) (old : option A) : option A :=
  match new with Some v => Some v | None => old end.

(** [data: { ...postData, publishedAt }]: a field that is [undefined]
    keeps its stored value. *)
Definition applyUpdate (postData : UpdateData) (slug : option string)
           (publishedAt : option Z) (p : Post) : Post :=
  mkPost (post_id p) (post_workspaceId p)
         (orKeep (ud_title postData) (post_title p))
         (orKeepOpt (ud_content postData) (post_content p))
         (orKeepOpt (ud_excerpt postData) (post_excerpt p))
         (orKeep slug (post_slug p))
         (orKeepOpt (ud_videoUrl postData) (post_videoUrl p))
         (orKeepOpt (ud_videoType postData) (post_videoType p))
         (orKeepOpt (ud_thumbnail postData) (post_thumbnail p))
         (orKeep (ud_isPublished postData) (post_isPublished p))
         (orKeepOpt publishedAt (post_publishedAt p))
         (post_createdAt p) (post_deletedAt p).

(** [tx.post.update({ where: { id: postId }, data })] under the
    uniqueness constraint of [postConflicts]. *)
Definition updatePost (postId : string) (data_ : Post -> Post) (rows : list Post)
  : Result (list Post) :=
  if existsb (fun p => (post_id p =? postId)%string
                       && existsb (fun q => negb (post_id q =? postId)%string
                                            && postConflicts (data_ p) q) rows)
             rows
  then throw (JsError "Unique constraint failed")
  else Prisma.update (fun p => (post_id p =? postId)%string) data_ rows.

(** The callback of [$transaction]. *)
Definition updateInTransaction (workspaceId postId : string) (postData : UpdateData)
           (slug : option string) (publishedAt : option Z) (tx : Store)
  : Result (option PostDetail * Store) :=
  let* rows := updatePost postId (applyUpdate postData slug publishedAt) (posts tx) in
  let tx1 := with_posts tx rows in
  let* tx2 :=
    match ud_productIds postData with
    | Some productIds =>
        let tx' := with_postProducts tx1
                     (Prisma.deleteMany (fun pp => (pp_postId pp =? postId)%string)
                                        (postProducts tx1)) in
        match productIds with
        | _ :: _ =>
            let found := Prisma.findMany (whereProductIn productIds workspaceId)
                                         (products tx') in
            if negb (length found =? length productIds)
            then throw (JsError "Some products not found or access denied")
            else ret (with_postProducts tx'
                        (postProducts tx'
                         ++ map (fun productId => mkPostProduct postId productId None)
                                productIds)%list)
        | [] => ret tx'
        end
    | None => ret tx1
    end in
  ret (option_map (detailOf tx2)
                  (Prisma.findFirst (fun p => (post_id p =? postId)%string) (posts tx2)),
       tx2).

(** [body] is the outcome of [UpdatePostSchema.parse(await request.json())]. *)
Definition PUT (st : Store) (session : Session) (workspaceId postId : string)
           (body : Result UpdateData) (rnd : string) (now : Z)
  : Response (option PostDetail) * Store :=
  match session with
  | None => (unauthorized, st)
  | Some user =>
      match (let* _ := verifyPostAccess st workspaceId postId (user_id user) in body) with
      | inl e => (handleWriteError e, st)
      | inr postData =>
          let slug :=
            disambiguateSlug st workspaceId postId (regenerateSlug postData) rnd in
          let publishedAt := publishedAtOf postData now in
          match Prisma.transaction st
                  (updateInTransaction workspaceId postId postData slug publishedAt) with
          | (inr result, st') =>
              (mkResponse 200 true None (Some "Post updated successfully")
                          (Some result), st')
          | (inl e, st') => (handleWriteError e, st')
          end
      end
  end.

(** [data: { deletedAt: new Date() }] *)
Definition markDeleted (now : Z) (p : Post) : Post :=
  mkPost (post_id p) (post_workspaceId p) (post_title p) (post_content p)
         (post_excerpt p) (post_slug p) (post_videoUrl p) (post_videoType p)
         (post_thumbnail p) (post_isPublished p) (post_publishedAt p)
         (post_createdAt p) (Some now).

Definition DELETE (st : Store) (session : Session) (workspaceId postId : string)
           (now : Z) : Response unit * Store :=
  match session with
  | None => (unauthorized, st)
  | Some user =>
      let outcome :=
        let* _ := verifyPostAccess st workspaceId postId (user_id user) in
        Prisma.update (fun p => (post_id p =? postId)%string) (markDeleted now)
                      (posts st)
      in
      match outcome with
      | inr rows =>
          (mkResponse 200 true None (Some "Post deleted successfully") None,
           with_posts st rows)
      | inl e => (handleError e, st)
      end
  end.

End PostRoute.

(* ================================================================== *)
(** ** GET /api/workspaces/[id]/affiliate-links *)

Module AffiliateLinksRoute.

Definition whereMembership (workspaceId userId : string) (uw : UserWorkspace) : bool :=
  (uw_workspaceId uw =? workspaceId)%string && (uw_userId uw =? userId)%string.

Definition verifyWorkspaceAccess (st : Store) (workspaceId userId : string)
  : Result UserWorkspace :=
  match Prisma.findFirst (whereMembership workspaceId userId) (userWorkspaces st) with
  | None => throw (JsError "Access denied to workspace")
  | Some userWorkspace => ret userWorkspace
  end.

(** A link with its product, its active status and the mock counters. *)
Record LinkView : Type := mkLinkView {
  lv_link : AffiliateLink;
  lv_product : Product;
  lv_isActive : bool;
  lv_clicks : nat;
  lv_conversions : nat
}.

(** [affiliateLinks.map((link) => ...)]: [mock i] holds the two random
    draws made for the link at position [i]; reading [link.product] of
    a link without product throws. *)
Fixpoint withStats (st : Store) (mock : nat -> nat * nat) (i : nat)
         (links : list AffiliateLink) : Result (list LinkView) :=
  match links with
  | [] => ret []
  | link :: rest =>
      match Prisma.findFirst (fun p => (prod_id p =? link_productId link)%string)
                             (products st) with
      | None => throw (JsError "Cannot read properties of null")
      | Some product =>
          let* views := withStats st mock (S i) rest in
          ret (mkLinkView link product
                 (match prod_activeAffiliateLinkId product with
                  | Some active => (active =? link_id link)%string
                  | None => false
                  end)
                 (fst (mock i) mod 100) (snd (mock i) mod 10)
               :: views)
      end
  end.

Definition handleError {A} (e : Thrown) : Response A :=
  match e with
  | JsError m =>
      if Js.includes m "Access denied" then errorResponse 403 m
      else internalServerError
  | ZodError => internalServerError
  end.

Definition GET (st : Store) (session : Session) (workspaceId : string)
           (mock : nat -> nat * nat) : Response (list LinkView) :=
  match session with
  | None => unauthorized
  | Some user =>
      let outcome :=
        let* _ := verifyWorkspaceAccess st workspaceId (user_id user) in
        withStats st mock 0
          (Prisma.orderByDesc link_createdAt
             (Prisma.findMany (fun l => (link_workspaceId l =? workspaceId)%string)
                              (affiliateLinks st)))
      in
      match outcome with
      | inr views => mkResponse 200 true None None (Some views)
      | inl e => handleError e
      end
  end.

End AffiliateLinksRoute.

(* ================================================================== *)
(** ** DELETE /api/workspaces/[id]/categories/[categoryId] *)

Module CategoryRoute.

Definition whereMembership (workspaceId userId : string) (uw : UserWorkspace) : bool :=
  (uw_workspaceId uw =? workspaceId)%string && (uw_userId uw =? userId)%string.

Definition verifyCategoryAccess (st : Store) (workspaceId categoryId userId : string)
  : Result (UserWorkspace * Category) :=
  match Prisma.findFirst (whereMembership workspaceId userId) (userWorkspaces st) with
  | None => throw (JsError "Access denied to workspace")
  | Some userWorkspace =>
      match Prisma.findFirst
              (fun c => (cat_id c =? categoryId)%string
                        && (cat_workspaceId c =? workspaceId)%string)
              (categories st) with
      | None => throw (JsError "Category not found or access denied")
      | Some category => ret (userWorkspace, category)
      end
  end.

(** [where: { categoryId }] on products. *)
Definition whereCategory (categoryId : string) (p : Product) : bool :=
  match prod_categoryId p with
  | Some c => (c =? categoryId)%string
  | None => false
  end.

Definition showNat (n : nat) : string := NilZero.string_of_uint (Nat.to_uint n).

(** The response of the "category has products" branch. *)
Definition cannotDelete {A} (productCount : nat) : Response A :=
  mkResponse 400 false (Some "Cannot delete category")
    (Some ("Category has " ++ showNat productCount
           ++ " product(s). Remove products from category first."))
    None.

Definition handleError {A} (e : Thrown) : Response A :=
  match e with
  | JsError m =>
      if Js.includes m "Access denied" then errorResponse 403 m
      else internalServerError
  | ZodError => internalServerError
  end.

Definition DELETE (st : Store) (session : Session) (workspaceId categoryId : string)
  : Response unit * Store :=
  match session with
  | None => (unauthorized, st)
  | Some user =>
      match verifyCategoryAccess st workspaceId categoryId (user_id user) with
      | inl e => (handleError e, st)
      | inr _ =>
          let productCount := Prisma.count (whereCategory categoryId) (products st) in
          if 0 <? productCount then (cannotDelete productCount, st)
          else
            match Prisma.delete (fun c => (cat_id c =? categoryId)%string)
                                (categories st) with
            | inl e => (handleError e, st)
            | inr rows =>
                (mkResponse 200 true None (Some "Category deleted successfully") None,
                 with_categories st rows)
            end
      end
  end.

End CategoryRoute.

(* ================================================================== *)
(** ** GET and POST /api/workspaces *)

(** The database as a request finds it. *)
Inductive Connection : Type :=
| Connected (st : Store)
| Unreachable.

Module WorkspacesRoute.

(** A workspace with [include: { users, _count: { select: { posts } } }]. *)
Record WorkspaceView : Type := mkWorkspaceView {
  wv_workspace : Workspace;
  wv_users : list UserWorkspace;
  wv_postCount : nat
}.

Definition viewWorkspace (st : Store) (w : Workspace) : WorkspaceView :=
  mkWorkspaceView w
    (Prisma.findMany (fun uw => (uw_workspaceId uw =? ws_id w)%string) (userWorkspaces st))
    (Prisma.count (fun p => (post_workspaceId p =? ws_id w)%string) (posts st)).

(** [{ users: { some: { userId } }, deletedAt: null }] *)
Definition whereMemberOf (st : Store) (userId : string) (w : Workspace) : bool :=
  existsb (fun uw => (uw_workspaceId uw =? ws_id w)%string
                     && (uw_userId uw =? userId)%string)
          (userWorkspaces st)
  && isNull (ws_deletedAt w).

Definition GET (db : Connection) (session : Session) : Response (list WorkspaceView) :=
  match session with
  | None => unauthorized
  | Some user =>
      match db with
      | Unreachable => internalServerError
      | Connected st =>
          mkResponse 200 true None None
            (Some (map (viewWorkspace st)
                       (Prisma.orderByDesc ws_createdAt
                          (Prisma.findMany (whereMemberOf st (user_id user))
                                           (workspaces st)))))
      end
  end.

(** The fields of [CreateWorkspaceSchema] after a successful [parse]. *)
Record WorkspaceData : Type := mkWorkspaceData {
  wd_name : string;
  wd_description : option string;
  wd_slug : option string
}.

(** "Generate or validate slug" *)
Definition desiredSlug (body : WorkspaceData) : string :=
  let slug := Js.orElse (wd_slug body) (VideoUtils.generateSlug (wd_name body)) in
  if negb (VideoUtils.isValidSlug slug) then VideoUtils.generateSlug (wd_name body)
  else slug.

(** "Check if slug is unique", with [findUnique({ where: { slug } })]. *)
Definition chooseSlug (st : Store) (body : WorkspaceData) (rnd : string) : string :=
  let slug := desiredSlug body in
  match Prisma.findFirst (fun w => (ws_slug w =? slug)%string) (workspaces st) with
  | Some _ => slug ++ "-" ++ VideoUtils.randomSuffix rnd
  | None => slug
  end.

(** The primary key [id] and the unique column [slug] that
    [findUnique({ where: { slug } })] relies on. *)
Definition workspaceConflicts (new old : Workspace) : bool :=
  (ws_id old =? ws_id new)%string || (ws_slug old =? ws_slug new)%string.

Definition handleError {A} (e : Thrown) : Response A :=
  match e with
  | ZodError => validationFailed
  | JsError _ => internalServerError
  end.

(** [body] is the outcome of [CreateWorkspaceSchema.parse(await request.json())]. *)
Definition POST (st : Store) (session : Session) (body : Result WorkspaceData)
           (rnd newId : string) (now : Z) : Response WorkspaceView * Store :=
  match session with
  | None => (unauthorized, st)
  | Some user =>
      let outcome :=
        let* data_ := body in
        let slug := chooseSlug st data_ rnd in
        let workspace :=
          mkWorkspace newId (wd_name data_) slug (wd_description data_) now now None in
        let* rows := Prisma.create workspaceConflicts workspace (workspaces st) in
        let st' :=
          with_userWorkspaces (with_workspaces st rows)
            (userWorkspaces st ++ [mkUserWorkspace (user_id user) newId OWNER])%list in
        ret (viewWorkspace st' workspace, st')
      in
      match outcome with
      | inr (view, st') =>
          (mkResponse 200 true None (Some "Workspace created successfully") (Some view),
           st')
      | inl e => (handleError e, st)
      end
  end.

End WorkspacesRoute.

(* ================================================================== *)
(** ** src/middleware.ts *)

Module Middleware.

(** [response.json()] and its [data] field. *)
Inductive JsonBody : Type :=
| JsonThrows
| JsonData (data : option (list WorkspacesRoute.WorkspaceView)).

(** The outcome of [fetch("/api/workspaces")]. *)
Inductive FetchOutcome : Type :=
| FetchThrows
| FetchResponse (ok : bool) (body : JsonBody).

Inductive Outcome : Type :=
| Redirect (path : string)
| Next.

Definition publicRoutes : list string := ["/"; "/auth/signin"; "/auth/signup"].

Definition slugOf (v : WorkspacesRoute.WorkspaceView) : string :=
  ws_slug (WorkspacesRoute.wv_workspace v).

(** [lastWorkspace ? workspaces.find(...) || workspaces[0] : workspaces[0]]
    on a non-empty array. *)
Definition targetWorkspace (lastWorkspace : option string)
           (first : WorkspacesRoute.WorkspaceView)
           (rest : list WorkspacesRoute.WorkspaceView)
  : WorkspacesRoute.WorkspaceView :=
  match lastWorkspace with
  | Some l =>
      if Js.truthy l then
        match find (fun w => (slugOf w =? l)%string) (first :: rest) with
        | Some w => w
        | None => first
        end
      else first
  | None => first
  end.

(** The "dashboard redirect logic" block: [Some path] when it
    redirects, [None] when control falls through it. *)
Definition dashboardRedirect (lastWorkspace : option string) (fetched : FetchOutcome)
  : option string :=
  match fetched with
  | FetchResponse true (JsonData (Some (first :: rest))) =>
      Some ("/" ++ slugOf (targetWorkspace lastWorkspace first rest) ++ "/dashboard")
  | _ => None
  end.

Definition isAdminRole (r : UserRole) : bool :=
  match r with
  | PLATFORM_ADMIN | SUPER_ADMIN => true
  | USER => false
  end.

(** [lastWorkspace] is the value of the [affiflow_last_workspace]
    cookie and [fetched] what the internal request yields when the
    middleware makes it. *)
Definition middleware (session : Session) (pathname : string)
           (lastWorkspace : option string) (fetched : FetchOutcome) : Outcome :=
  let isPublicRoute := existsb (fun r => (r =? pathname)%string) publicRoutes in
  match session with
  | None => if isPublicRoute then Next else Redirect "/auth/signin"
  | Some user =>
      if (pathname =? "/auth/signin")%string || (pathname =? "/auth/signup")%string
      then Redirect "/dashboard"
      else
        match (if (pathname =? "/dashboard")%string
               then dashboardRedirect lastWorkspace fetched
               else None) with
        | Some path => Redirect path
        | None =>
            if prefix "/admin" pathname && negb (isAdminRole (user_role user))
            then Redirect "/dashboard"
            else Next
        end
  end.

(** The internal request answered by the workspaces route. *)
Definition fetchWorkspaces (db : Connection) (session : Session) : FetchOutcome :=
  let response := WorkspacesRoute.GET db session in
  FetchResponse ((200 <=? status response) && (status response <=? 299))
                (JsonData (data response)).

End Middleware.

(* ================================================================== *)
(** ** GET, PUT and DELETE /api/workspaces/[id] *)

Definition with_products (st : Store) (l : list Product) : Store :=
  mkStore (userWorkspaces st) (workspaces st) (posts st) l (categories st)
          (affiliateLinks st) (postProducts st).

Definition with_affiliateLinks (st : Store) (l : list AffiliateLink) : Store :=
  mkStore (userWorkspaces st) (workspaces st) (posts st) (products st)
          (categories st) l (postProducts st).

Module WorkspaceItem.

(** [{ deletedAt: null }] on posts of the workspace. *)
Definition whereLivePost (workspaceId : string) (p : Post) : bool :=
  (post_workspaceId p =? workspaceId)%string && isNull (post_deletedAt p).

(** The workspace with its members, its five newest live posts and the
    number of its live posts. *)
Record WorkspaceDetail : Type := mkWorkspaceDetail {
  wdet_workspace : Workspace;
  wdet_users : list UserWorkspace;
  wdet_posts : list Post;
  wdet_postCount : nat
}.

Definition detailOf (st : Store) (w : Workspace) : WorkspaceDetail :=
  mkWorkspaceDetail w
    (Prisma.findMany (fun uw => (uw_workspaceId uw =? ws_id w)%string) (userWorkspaces st))
    (firstn 5 (Prisma.orderByDesc post_createdAt
                 (Prisma.findMany (whereLivePost (ws_id w)) (posts st))))
    (Prisma.count (whereLivePost (ws_id w)) (posts st)).

(** The [catch] block of GET looks for "access denied". *)
Definition handleReadError {A} (e : Thrown) : Response A :=
  match e with
  | JsError m =>
      if Js.includes m "access denied" then errorResponse 403 m
      else internalServerError
  | ZodError => internalServerError
  end.

Definition GET (st : Store) (session : Session) (workspaceId : string)
  : Response WorkspaceDetail :=
  match session with
  | None => unauthorized
  | Some user =>
      match WorkspaceRoute.verifyWorkspaceAccess st workspaceId (user_id user) MEMBER with
      | inl e => handleReadError e
      | inr _ =>
          match Prisma.findFirst
                  (fun w => (ws_id w =? workspaceId)%string && isNull (ws_deletedAt w))
                  (workspaces st) with
          | None => errorResponse 404 "Workspace not found"
          | Some workspace => mkResponse 200 true None None (Some (detailOf st workspace))
          end
      end
  end.

(** The fields of [UpdateWorkspaceSchema] that the rows of the model
    carry, after a successful [parse]; a field the request leaves out
    is [None]. *)
Record UpdateData : Type := mkUpdateData {
  ud_name : option string;
  ud_description : option string;
  ud_slug : option string
}.

(** The [catch] blocks of PUT and DELETE look for "permissions". *)
Definition handleWriteError {A} (e : Thrown) : Response A :=
  match e with
  | ZodError => validationFailed
  | JsError m =>
      if Js.includes m "permissions" then errorResponse 403 m
      else internalServerError
  end.

Definition handleDeleteError {A} (e : Thrown) : Response A :=
  match e with
  | JsError m =>
      if Js.includes m "permissions" then errorResponse 403 m
      else internalServerError
  | ZodError => internalServerError
  end.

(** [data: updateData]: a field that is [undefined] keeps its stored
    value; [updatedAt] follows every write of the row ([updatedAt
    DateTime @updatedAt] in the database rules of the repository, a
    column without default in the migrations). *)
Definition applyUpdate (updateData : UpdateData) (now : Z) (w : Workspace) : Workspace :=
  mkWorkspace (ws_id w)
              (match ud_name updateData with Some v => v | None => ws_name w end)
              (match ud_slug updateData with Some v => v | None => ws_slug w end)
              (match ud_description updateData with
               | Some v => Some v
               | None => ws_description w
               end)
              (ws_createdAt w) now (ws_deletedAt w).

(** [prisma.workspace.update({ where: { id }, data })] under the unique
    column [slug]. *)
Definition updateWorkspace (workspaceId : string) (data_ : Workspace -> Workspace)
           (rows : list Workspace) : Result (list Workspace) :=
  if existsb (fun w => (ws_id w =? workspaceId)%string
                       && existsb (fun q => negb (ws_id q =? workspaceId)%string
                                            && (ws_slug q =? ws_slug (data_ w))%string)
                                  rows)
             rows
  then throw (JsError "Unique constraint failed")
  else Prisma.update (fun w => (ws_id w =? workspaceId)%string) data_ rows.

(** "Handle slug update": [Some response] when the handler returns
    early. *)
Definition checkSlug {A} (st : Store) (workspaceId : string) (slug : option string)
  : option (Response A) :=
  match slug with
  | Some s =>
      if Js.truthy s then
        if negb (VideoUtils.isValidSlug s) then Some (errorResponse 400 "Invalid slug format")
        else
          match Prisma.findFirst
                  (fun w => (ws_slug w =? s)%string && negb (ws_id w =? workspaceId)%string)
                  (workspaces st) with
          | Some _ => Some (errorResponse 400 "Slug already exists")
          | None => None
          end
      else None
  | None => None
  end.

(** [body] is the outcome of [UpdateWorkspaceSchema.parse(await request.json())]. *)
Definition PUT (st : Store) (session : Session) (workspaceId : string)
           (body : Result UpdateData) (now : Z)
  : Response (Workspace * list UserWorkspace) * Store :=
  match session with
  | None => (unauthorized, st)
  | Some user =>
      match (let* _ := WorkspaceRoute.verifyWorkspaceAccess st workspaceId (user_id user) ADMIN
             in body) with
      | inl e => (handleWriteError e, st)
      | inr updateData =>
          match checkSlug st workspaceId (ud_slug updateData) with
          | Some response => (response, st)
          | None =>
              match updateWorkspace workspaceId (applyUpdate updateData now)
                                    (workspaces st) with
              | inl e => (handleWriteError e, st)
              | inr rows =>
                  (mkResponse 200 true None (Some "Workspace updated successfully")
                     (option_map
                        (fun w =>
                           (w, Prisma.findMany
                                 (fun uw => (uw_workspaceId uw =? ws_id w)%string)
                                 (userWorkspaces st)))
                        (Prisma.findFirst (fun w => (ws_id w =? workspaceId)%string) rows)),
                   with_workspaces st rows)
              end
          end
      end
  end.

(** [data: { deletedAt: new Date() }], with [updatedAt] following the
    write as in [applyUpdate]. *)
Definition markDeleted (now : Z) (w : Workspace) : Workspace :=
  mkWorkspace (ws_id w) (ws_name w) (ws_slug w) (ws_description w)
              (ws_createdAt w) now (Some now).

Definition DELETE (st : Store) (session : Session) (workspaceId : string) (now : Z)
  : Response unit * Store :=
  match session with
  | None => (unauthorized, st)
  | Some user =>
      match (let* _ := WorkspaceRoute.verifyWorkspaceAccess st workspaceId (user_id user) OWNER
             in Prisma.update (fun w => (ws_id w =? workspaceId)%string)
                              (markDeleted now) (workspaces st)) with
      | inr rows =>
          (mkResponse 200 true None (Some "Workspace deleted successfully") None,
           with_workspaces st rows)
      | inl e => (handleDeleteError e, st)
      end
  end.

End WorkspaceItem.

(* ================================================================== *)
(** ** GET /api/workspaces/by-slug/[slug] *)

Module BySlugRoute.

Record WorkspaceSummary : Type := mkWorkspaceSummary {
  sum_id : string;
  sum_name : string;
  sum_slug : string;
  sum_description : option string;
  sum_createdAt : Z;
  sum_updatedAt : Z;
  sum_role : option WorkspaceRole;
  sum_memberCount : nat;
  sum_postCount : nat
}.

(** [{ slug, deletedAt: null, users: { some: { userId } } }] *)
Definition whereSlug (st : Store) (slug userId : string) (w : Workspace) : bool :=
  (ws_slug w =? slug)%string
  && isNull (ws_deletedAt w)
  && existsb (fun uw => (uw_workspaceId uw =? ws_id w)%string
                        && (uw_userId uw =? userId)%string)
             (userWorkspaces st).

Definition summaryOf (st : Store) (userId : string) (w : Workspace) : WorkspaceSummary :=
  let users :=
    Prisma.findMany (fun uw => (uw_workspaceId uw =? ws_id w)%string) (userWorkspaces st) in
  mkWorkspaceSummary (ws_id w) (ws_name w) (ws_slug w) (ws_description w)
    (ws_createdAt w) (ws_updatedAt w)
    (option_map uw_role (find (fun uw => (uw_userId uw =? userId)%string) users))
    (length users)
    (Prisma.count (WorkspaceItem.whereLivePost (ws_id w)) (posts st)).

Definition GET (st : Store) (session : Session) (slug : string)
  : Response WorkspaceSummary :=
  match session with
  | None => unauthorized
  | Some user =>
      match Prisma.findFirst (whereSlug st slug (user_id user)) (workspaces st) with
      | None => errorResponse 404 "Workspace not found"
      | Some workspace =>
          mkResponse 200 true None None (Some (summaryOf st (user_id user) workspace))
      end
  end.

End BySlugRoute.

(* ================================================================== *)
(** ** POST and DELETE /api/workspaces/[id]/affiliate-links/[linkId]/set-active *)

Module SetActiveRoute.

Definition whereMembership (workspaceId userId : string) (uw : UserWorkspace) : bool :=
  (uw_workspaceId uw =? workspaceId)%string && (uw_userId uw =? userId)%string.

(** The link of the workspace with [include: { product: true }]. *)
Definition verifyLinkAccess (st : Store) (workspaceId linkId userId : string)
  : Result (UserWorkspace * (AffiliateLink * option Product)) :=
  match Prisma.findFirst (whereMembership workspaceId userId) (userWorkspaces st) with
  | None => throw (JsError "Access denied to workspace")
  | Some userWorkspace =>
      match Prisma.findFirst
              (fun l => (link_id l =? linkId)%string
                        && (link_workspaceId l =? workspaceId)%string)
              (affiliateLinks st) with
      | None => throw (JsError "Affiliate link not found or access denied")
      | Some affiliateLink =>
          ret (userWorkspace,
               (affiliateLink,
                Prisma.findFirst (fun p => (prod_id p =? link_productId affiliateLink)%string)
                                 (products st)))
      end
  end.

Definition setActive (active : option string) (p : Product) : Product :=
  mkProduct (prod_id p) (prod_workspaceId p) (prod_name p) (prod_image p)
            (prod_price p) (prod_currency p) (prod_platform p) (prod_affiliateUrl p)
            (prod_categoryId p) active.

Definition handleError {A} (e : Thrown) : Response A :=
  match e with
  | JsError m =>
      if Js.includes m "Access denied" then errorResponse 403 m
      else internalServerError
  | ZodError => internalServerError
  end.

(** The updated product and the link. *)
Definition POST (st : Store) (session : Session) (workspaceId linkId : string)
  : Response (option Product * AffiliateLink) * Store :=
  match session with
  | None => (unauthorized, st)
  | Some user =>
      match verifyLinkAccess st workspaceId linkId (user_id user) with
      | inl e => (handleError e, st)
      | inr (_, (affiliateLink, _)) =>
          match Prisma.update
                  (fun p => (prod_id p =? link_productId affiliateLink)%string)
                  (setActive (Some linkId)) (products st) with
          | inl e => (handleError e, st)
          | inr rows =>
              (mkResponse 200 true None
                          (Some "Affiliate link set as active successfully")
                          (Some (Prisma.findFirst
                                   (fun p => (prod_id p =? link_productId affiliateLink)%string)
                                   rows,
                                 affiliateLink)),
               with_products st rows)
          end
      end
  end.

Definition DELETE (st : Store) (session : Session) (workspaceId linkId : string)
  : Response unit * Store :=
  match session with
  | None => (unauthorized, st)
  | Some user =>
      match verifyLinkAccess st workspaceId linkId (user_id user) with
      | inl e => (handleError e, st)
      | inr (_, (affiliateLink, None)) =>
          (handleError (JsError "Cannot read properties of null"), st)
      | inr (_, (affiliateLink, Some product)) =>
          let done {A} (st' : Store) : Response A * Store :=
            (mkResponse 200 true None (Some "Active status removed successfully") None, st')
          in
          match prod_activeAffiliateLinkId product with
          | Some active =>
              if (active =? linkId)%string then
                match Prisma.update
                        (fun p => (prod_id p =? link_productId affiliateLink)%string)
                        (setActive None) (products st) with
                | inl e => (handleError e, st)
                | inr rows => done (with_products st rows)
                end
              else done st
          | None => done st
          end
      end
  end.

End SetActiveRoute.

(* ================================================================== *)
(** ** POST /api/workspaces/[id]/affiliate-links *)

Module AffiliateLinkCreate.

(** The fields of [CreateAffiliateLinkSchema] that the rows of the
    model carry, after a successful [parse]. *)
Record LinkData : Type := mkLinkData {
  ld_name : string;
  ld_originalUrl : string;
  ld_affiliateUrl : string;
  ld_platform : string;
  ld_productId : string
}.

(** The primary key [affiliate_links_pkey], the one unique index the
    migrations declare on affiliate links. *)
Definition linkConflicts (new old : AffiliateLink) : bool :=
  (link_id old =? link_id new)%string.

Definition handleError {A} (e : Thrown) : Response A :=
  match e with
  | ZodError => validationFailed
  | JsError m =>
      if Js.includes m "Access denied" then errorResponse 403 m
      else internalServerError
  end.

(** [body] is the outcome of
    [CreateAffiliateLinkSchema.parse(await request.json())]; the response
    carries the link with both counters at 0. *)
Definition POST (st : Store) (session : Session) (workspaceId : string)
           (body : Result LinkData) (newId : string) (now : Z)
  : Response AffiliateLink * Store :=
  match session with
  | None => (unauthorized, st)
  | Some user =>
      match (let* _ := AffiliateLinksRoute.verifyWorkspaceAccess st workspaceId (user_id user)
             in body) with
      | inl e => (handleError e, st)
      | inr validatedData =>
          match Prisma.findFirst
                  (fun p => (prod_id p =? ld_productId validatedData)%string
                            && (prod_workspaceId p =? workspaceId)%string)
                  (products st) with
          | None => (errorResponse 404 "Product not found or access denied", st)
          | Some _ =>
              match Prisma.findFirst
                      (fun l => (link_productId l =? ld_productId validatedData)%string
                                && (link_affiliateUrl l =? ld_affiliateUrl validatedData)%string)
                      (affiliateLinks st) with
              | Some _ =>
                  (errorResponse 400 "Affiliate URL already exists for this product", st)
              | None =>
                  let link :=
                    mkAffiliateLink newId workspaceId (ld_productId validatedData)
                      (ld_name validatedData) (ld_originalUrl validatedData)
                      (ld_affiliateUrl validatedData) (ld_platform validatedData) now in
                  match Prisma.create linkConflicts link (affiliateLinks st) with
                  | inl e => (handleError e, st)
                  | inr rows =>
                      (mkResponse 200 true None
                                  (Some "Affiliate link created successfully") (Some link),
                       with_affiliateLinks st rows)
                  end
              end
          end
      end
  end.

End AffiliateLinkCreate.

(* ================================================================== *)
(** ** GET /api/workspaces/[id]/products/[productId]/affiliate-links *)

Module ProductLinksRoute.

Definition verifyWorkspaceAccess (st : Store) (workspaceId userId : string)
  : Result UserWorkspace :=
  match Prisma.findFirst (SetActiveRoute.whereMembership workspaceId userId)
                         (userWorkspaces st) with
  | None => throw (JsError "Access denied to workspace")
  | Some userWorkspace => ret userWorkspace
  end.

Definition verifyProductAccess (st : Store) (productId workspaceId : string)
  : Result Product :=
  match Prisma.findFirst
          (fun p => (prod_id p =? productId)%string
                    && (prod_workspaceId p =? workspaceId)%string)
          (products st) with
  | None => throw (JsError "Product not found or access denied")
  | Some product => ret product
  end.

(** The [catch] block looks for "Access denied", then for "not found". *)
Definition handleError {A} (e : Thrown) : Response A :=
  match e with
  | JsError m =>
      if Js.includes m "Access denied" then errorResponse 403 m
      else if Js.includes m "not found" then errorResponse 404 m
      else internalServerError
  | ZodError => internalServerError
  end.

(** The links with [include: { product }], a required relation. *)
Definition GET (st : Store) (session : Session) (workspaceId productId : string)
  : Response (list (AffiliateLink * Product)) :=
  match session with
  | None => unauthorized
  | Some user =>
      match (let* _ := verifyWorkspaceAccess st workspaceId (user_id user)
             in verifyProductAccess st productId workspaceId) with
      | inl e => handleError e
      | inr _ =>
          mkResponse 200 true None None
            (Some (flat_map
                     (fun l =>
                        map (fun p => (l, p))
                            (Prisma.findMany
                               (fun p => (prod_id p =? link_productId l)%string)
                               (products st)))
                     (Prisma.orderByDesc link_createdAt
                        (Prisma.findMany
                           (fun l => (link_productId l =? productId)%string
                                     && (link_workspaceId l =? workspaceId)%string)
                           (affiliateLinks st)))))
      end
  end.

End ProductLinksRoute.

(* ================================================================== *)
(** ** POST /api/workspaces/[id]/categories and
       PUT /api/workspaces/[id]/categories/[categoryId] *)

Module CategoryWrite.

(** The fields of [CreateCategorySchema] after a successful [parse]. *)
Record CategoryData : Type := mkCategoryData {
  cd_name : string;
  cd_description : option string;
  cd_color : option string
}.

(** The fields of [UpdateCategorySchema] after a successful [parse]. *)
Record UpdateData : Type := mkUpdateData {
  ud_name : option string;
  ud_description : option string;
  ud_color : option string
}.

(** The primary key [categories_pkey], the one unique index the
    migrations declare on categories: the names are kept distinct by
    the checks of the handlers alone. *)
Definition categoryConflicts (new old : Category) : bool :=
  (cat_id old =? cat_id new)%string.

Definition handleError {A} (e : Thrown) : Response A :=
  match e with
  | ZodError => validationFailed
  | JsError m =>
      if Js.includes m "Access denied" then errorResponse 403 m
      else internalServerError
  end.

Definition verifyWorkspaceAccess (st : Store) (workspaceId userId : string)
  : Result UserWorkspace :=
  match Prisma.findFirst (CategoryRoute.whereMembership workspaceId userId)
                         (userWorkspaces st) with
  | None => throw (JsError "Access denied to workspace")
  | Some userWorkspace => ret userWorkspace
  end.

(** The created category and the number of its products. *)
Definition POST (st : Store) (session : Session) (workspaceId : string)
           (body : Result CategoryData) (newId : string)
  : Response (Category * nat) * Store :=
  match session with
  | None => (unauthorized, st)
  | Some user =>
      match (let* _ := verifyWorkspaceAccess st workspaceId (user_id user) in body) with
      | inl e => (handleError e, st)
      | inr validatedData =>
          match Prisma.findFirst
                  (fun c => (cat_workspaceId c =? workspaceId)%string
                            && (cat_name c =? cd_name validatedData)%string)
                  (categories st) with
          | Some _ => (errorResponse 400 "Category name already exists", st)
          | None =>
              let category :=
                mkCategory newId workspaceId (cd_name validatedData)
                           (cd_description validatedData) (cd_color validatedData) in
              match Prisma.create categoryConflicts category (categories st) with
              | inl e => (handleError e, st)
              | inr rows =>
                  (mkResponse 200 true None (Some "Category created successfully")
                     (Some (category,
                            Prisma.count (CategoryRoute.whereCategory newId) (products st))),
                   with_categories st rows)
              end
          end
      end
  end.

Definition applyUpdate (validatedData : UpdateData) (c : Category) : Category :=
  mkCategory (cat_id c) (cat_workspaceId c)
             (match ud_name validatedData with Some v => v | None => cat_name c end)
             (match ud_description validatedData with
              | Some v => Some v
              | None => cat_description c
              end)
             (match ud_color validatedData with Some v => Some v | None => cat_color c end).

(** [prisma.category.update({ where: { id }, data })]: the update
    leaves the primary key as it is, so no unique index can refuse it. *)
Definition updateCategory (categoryId : string) (data_ : Category -> Category)
           (rows : list Category) : Result (list Category) :=
  Prisma.update (fun c => (cat_id c =? categoryId)%string) data_ rows.

Definition PUT (st : Store) (session : Session) (workspaceId categoryId : string)
           (body : Result UpdateData) : Response (option (Category * nat)) * Store :=
  match session with
  | None => (unauthorized, st)
  | Some user =>
      match (let* _ := CategoryRoute.verifyCategoryAccess st workspaceId categoryId
                                                          (user_id user)
             in body) with
      | inl e => (handleError e, st)
      | inr validatedData =>
          let taken :=
            match ud_name validatedData with
            | Some name =>
                if Js.truthy name then
                  Prisma.findFirst
                    (fun c => (cat_workspaceId c =? workspaceId)%string
                              && (cat_name c =? name)%string
                              && negb (cat_id c =? categoryId)%string)
                    (categories st)
                else None
            | None => None
            end in
          match taken with
          | Some _ => (errorResponse 400 "Category name already exists", st)
          | None =>
              match updateCategory categoryId (applyUpdate validatedData) (categories st) with
              | inl e => (handleError e, st)
              | inr rows =>
                  (mkResponse 200 true None (Some "Category updated successfully")
                     (Some (option_map
                              (fun c => (c, Prisma.count (CategoryRoute.whereCategory categoryId)
                                                         (products st)))
                              (Prisma.findFirst (fun c => (cat_id c =? categoryId)%string)
                                                rows))),
                   with_categories st rows)
              end
          end
      end
  end.

End CategoryWrite.

(* ================================================================== *)
(** ** DELETE /api/workspaces/[id]/products/[productId] *)

Module ProductRoute.

Definition verifyProductAccess (st : Store) (workspaceId productId userId : string)
  : Result (UserWorkspace * Product) :=
  match Prisma.findFirst (SetActiveRoute.whereMembership workspaceId userId)
                         (userWorkspaces st) with
  | None => throw (JsError "Access denied to workspace")
  | Some userWorkspace =>
      match Prisma.findFirst
              (fun p => (prod_id p =? productId)%string
                        && (prod_workspaceId p =? workspaceId)%string)
              (products st) with
      | None => throw (JsError "Product not found or access denied")
      | Some product => ret (userWorkspace, product)
      end
  end.

(** [detectPlatform(url)] *)
Definition detectPlatform (url : string) : string :=
  if Js.includes url "shopee.vn" || Js.includes url "shopee.com" then "shopee"
  else if Js.includes url "lazada.vn" || Js.includes url "lazada.com" then "lazada"
  else if Js.includes url "tiki.vn" then "tiki"
  else if Js.includes url "amazon.com" || Js.includes url "amazon.vn" then "amazon"
  else if Js.includes url "sendo.vn" then "sendo"
  else "other".

(** The response of the "product is used in posts" branch. *)
Definition cannotDelete {A} (postCount : nat) : Response A :=
  mkResponse 400 false (Some "Cannot delete product")
    (Some ("Product is used in " ++ CategoryRoute.showNat postCount
           ++ " post(s). Remove from posts first."))
    None.

Definition handleError {A} (e : Thrown) : Response A :=
  match e with
  | JsError m =>
      if Js.includes m "Access denied" then errorResponse 403 m
      else internalServerError
  | ZodError => internalServerError
  end.

(** [deleteProduct] is [prisma.product.delete({ where: { id } })]: what
    it does to the links of the product is set by the referential
    actions of the schema, which is not among the sources. *)
Definition DELETE (deleteProduct : Store -> string -> Result Store)
           (st : Store) (session : Session) (workspaceId productId : string)
  : Response unit * Store :=
  match session with
  | None => (unauthorized, st)
  | Some user =>
      match verifyProductAccess st workspaceId productId (user_id user) with
      | inl e => (handleError e, st)
      | inr _ =>
          let postCount :=
            Prisma.count (fun pp => (pp_productId pp =? productId)%string)
                         (postProducts st) in
          if 0 <? postCount then (cannotDelete postCount, st)
          else
            match deleteProduct st productId with
            | inl e => (handleError e, st)
            | inr st' =>
                (mkResponse 200 true None (Some "Product deleted successfully") None, st')
            end
      end
  end.

End ProductRoute.

(* ================================================================== *)
(** ** The foreign keys and unique indexes of the migrations

    The references the handlers below write unchecked are checked by
    the database: a write that names a row which is not stored, or that
    repeats a value under a unique index, throws. *)

(** [affiliate_links_productId_fkey] *)
Definition hasProduct (st : Store) (productId : string) : bool :=
  existsb (fun p => (prod_id p =? productId)%string) (products st).

(** [products_categoryId_fkey] *)
Definition hasCategory (st : Store) (categoryId : option string) : bool :=
  match categoryId with
  | Some c => existsb (fun x => (cat_id x =? c)%string) (categories st)
  | None => true
  end.

(** [products_activeAffiliateLinkId_fkey] *)
Definition hasLink (st : Store) (linkId : option string) : bool :=
  match linkId with
  | Some l => existsb (fun x => (link_id x =? l)%string) (affiliateLinks st)
  | None => true
  end.

(** [products_activeAffiliateLinkId_key]: no product other than
    [productId] has the link as its active link. *)
Definition activeLinkFree (st : Store) (productId : string) (linkId : option string)
  : bool :=
  match linkId with
  | Some l =>
      negb (existsb (fun p => negb (prod_id p =? productId)%string
                              && match prod_activeAffiliateLinkId p with
                                 | Some a => (a =? l)%string
                                 | None => false
                                 end)
                    (products st))
  | None => true
  end.

(** [!x] is false on an optional string: the field is kept; else it is
    deleted from the data before the write. *)
Definition keepTruthy (x : option string) : option string :=
  match x with
  | Some s => if Js.truthy s then Some s else None
  | None => None
  end.

(* ================================================================== *)
(** ** PUT and DELETE /api/workspaces/[id]/affiliate-links/[linkId] *)

Module LinkRoute.

(** The fields of [UpdateAffiliateLinkSchema] that the rows of the
    model carry, after a successful [parse]; a field the request
    leaves out is [None]. *)
Record UpdateData : Type := mkUpdateData {
  ud_name : option string;
  ud_originalUrl : option string;
  ud_affiliateUrl : option string;
  ud_platform : option string;
  ud_productId : option string
}.

Definition verifyLinkAccess (st : Store) (workspaceId linkId userId : string)
  : Result (UserWorkspace * AffiliateLink) :=
  match Prisma.findFirst (SetActiveRoute.whereMembership workspaceId userId)
                         (userWorkspaces st) with
  | None => throw (JsError "Access denied to workspace")
  | Some userWorkspace =>
      match Prisma.findFirst
              (fun l => (link_id l =? linkId)%string
                        && (link_workspaceId l =? workspaceId)%string)
              (affiliateLinks st) with
      | None => throw (JsError "Affiliate link not found or access denied")
      | Some affiliateLink => ret (userWorkspace, affiliateLink)
      end
  end.

Definition handleError {A} (e : Thrown) : Response A :=
  match e with
  | JsError m =>
      if Js.includes m "Access denied" then errorResponse 403 m
      else internalServerError
  | ZodError => internalServerError
  end.

Definition handleWriteError {A} (e : Thrown) : Response A :=
  match e with
  | ZodError => validationFailed
  | JsError m =>
      if Js.includes m "Access denied" then errorResponse 403 m
      else internalServerError
  end.

(** [data: validatedData]: a field that is [undefined] keeps its stored
    value; the id and the workspace of the link are not among the
    fields, its product is. *)
Definition applyUpdate (validatedData : UpdateData) (l : AffiliateLink)
  : AffiliateLink :=
  mkAffiliateLink (link_id l) (link_workspaceId l)
    (match ud_productId validatedData with Some v => v | None => link_productId l end)
    (match ud_name validatedData with Some v => v | None => link_name l end)
    (match ud_originalUrl validatedData with Some v => v | None => link_originalUrl l end)
    (match ud_affiliateUrl validatedData with Some v => v | None => link_affiliateUrl l end)
    (match ud_platform validatedData with Some v => v | None => link_platform l end)
    (link_createdAt l).

(** [prisma.affiliateLink.update({ where: { id: linkId }, data })]: the
    row must exist, and so must the product the data names. *)
Definition updateLink (st : Store) (linkId : string) (validatedData : UpdateData)
  : Result (list AffiliateLink) :=
  let* rows := Prisma.update (fun l => (link_id l =? linkId)%string)
                             (applyUpdate validatedData) (affiliateLinks st) in
  match ud_productId validatedData with
  | Some productId =>
      if hasProduct st productId then ret rows
      else throw (JsError "Foreign key constraint failed")
  | None => ret rows
  end.

(** [body] is the outcome of
    [UpdateAffiliateLinkSchema.parse(await request.json())] and [mock]
    the two random draws of the response, which carries the updated
    link and the two mock counters. *)
Definition PUT (st : Store) (session : Session) (workspaceId linkId : string)
           (body : Result UpdateData) (mock : nat * nat)
  : Response (option AffiliateLink * (nat * nat)) * Store :=
  match session with
  | None => (unauthorized, st)
  | Some user =>
      match (let* _ := verifyLinkAccess st workspaceId linkId (user_id user) in body) with
      | inl e => (handleWriteError e, st)
      | inr validatedData =>
          let existingLink :=
            match ud_affiliateUrl validatedData with
            | Some url =>
                if Js.truthy url then
                  Prisma.findFirst
                    (fun l => (link_workspaceId l =? workspaceId)%string
                              && (link_affiliateUrl l =? url)%string
                              && negb (link_id l =? linkId)%string)
                    (affiliateLinks st)
                else None
            | None => None
            end in
          match existingLink with
          | Some _ => (errorResponse 400 "Affiliate URL already exists", st)
          | None =>
              match updateLink st linkId validatedData with
              | inl e => (handleWriteError e, st)
              | inr rows =>
                  (mkResponse 200 true None (Some "Affiliate link updated successfully")
                     (Some (Prisma.findFirst (fun l => (link_id l =? linkId)%string) rows,
                            (fst mock mod 100, snd mock mod 10))),
                   with_affiliateLinks st rows)
              end
          end
      end
  end.

(** [prisma.affiliateLink.delete({ where: { id: linkId } })]: the
    products that have the link as their active link lose it (ON DELETE
    SET NULL of [products_activeAffiliateLinkId_fkey]). *)
Definition deleteLink (st : Store) (linkId : string) : Result Store :=
  let* rows := Prisma.delete (fun l => (link_id l =? linkId)%string)
                             (affiliateLinks st) in
  ret (with_products
         (with_affiliateLinks st rows)
         (map (fun p => match prod_activeAffiliateLinkId p with
                        | Some a => if (a =? linkId)%string
                                    then SetActiveRoute.setActive None p else p
                        | None => p
                        end)
              (products st))).

Definition DELETE (st : Store) (session : Session) (workspaceId linkId : string)
  : Response unit * Store :=
  match session with
  | None => (unauthorized, st)
  | Some user =>
      match (let* _ := verifyLinkAccess st workspaceId linkId (user_id user) in
             deleteLink st linkId) with
      | inl e => (handleError e, st)
      | inr st' =>
          (mkResponse 200 true None (Some "Affiliate link deleted successfully") None,
           st')
      end
  end.

End LinkRoute.

(* ================================================================== *)
(** ** POST /api/workspaces/[id]/products *)

Module ProductsRoute.

(** The fields of [CreateProductSchema] that the rows of the model
    carry, after a successful [parse]. *)
Record ProductData : Type := mkProductData {
  np_name : string;
  np_image : option string;
  np_price : option Z;
  np_currency : string;
  np_categoryId : option string;
  np_activeAffiliateLinkId : option string
}.

Definition verifyWorkspaceAccess (st : Store) (workspaceId userId : string)
  : Result UserWorkspace :=
  match Prisma.findFirst (SetActiveRoute.whereMembership workspaceId userId)
                         (userWorkspaces st) with
  | None => throw (JsError "Access denied to workspace")
  | Some userWorkspace => ret userWorkspace
  end.

Definition handleError {A} (e : Thrown) : Response A :=
  match e with
  | ZodError => validationFailed
  | JsError m =>
      if Js.includes m "Access denied" then errorResponse 403 m
      else internalServerError
  end.

(** [{ ...validatedData, workspaceId }], an empty [categoryId] or
    [activeAffiliateLinkId] deleted. *)
Definition newProduct (newId workspaceId : string) (validatedData : ProductData)
  : Product :=
  mkProduct newId workspaceId (np_name validatedData) (np_image validatedData)
            (np_price validatedData) (np_currency validatedData) None None
            (keepTruthy (np_categoryId validatedData))
            (keepTruthy (np_activeAffiliateLinkId validatedData)).

(** [prisma.product.create({ data: productData })] under the primary
    key, the two foreign keys and the unique index of the active
    link. *)
Definition createProduct (st : Store) (product : Product) : Result (list Product) :=
  if hasCategory st (prod_categoryId product)
     && hasLink st (prod_activeAffiliateLinkId product)
  then
    if activeLinkFree st (prod_id product) (prod_activeAffiliateLinkId product)
    then Prisma.create (fun new old => (prod_id old =? prod_id new)%string)
                       product (products st)
    else throw (JsError "Unique constraint failed")
  else throw (JsError "Foreign key constraint failed").

(** The created product and the number of its posts. *)
Definition POST (st : Store) (session : Session) (workspaceId : string)
           (body : Result ProductData) (newId : string)
  : Response (Product * nat) * Store :=
  match session with
  | None => (unauthorized, st)
  | Some user =>
      match (let* _ := verifyWorkspaceAccess st workspaceId (user_id user) in body) with
      | inl e => (handleError e, st)
      | inr validatedData =>
          let product := newProduct newId workspaceId validatedData in
          match createProduct st product with
          | inl e => (handleError e, st)
          | inr rows =>
              (mkResponse 200 true None (Some "Product created successfully")
                 (Some (product,
                        Prisma.count (fun pp => (pp_productId pp =? newId)%string)
                                     (postProducts st))),
               with_products st rows)
          end
      end
  end.

End ProductsRoute.

(* ================================================================== *)
(** ** GET and PUT /api/workspaces/[id]/products/[productId], and the
       delete call of its DELETE *)

Module ProductItem.

(** A product with [include: { posts: { include: { post } }, _count }]:
    its tags, each with its post, and their number.  The [post]
    relation is a required foreign key; the [select] of the source
    projects the post to some of its columns, [deletedAt] not among
    them, and the [include] has no [where]. *)
Record ProductDetail : Type := mkProductDetail {
  pdet_product : Product;
  pdet_posts : list (PostProduct * Post);
  pdet_count : nat
}.

Definition postsOfProduct (st : Store) (productId : string)
  : list (PostProduct * Post) :=
  flat_map
    (fun pp =>
       map (fun p => (pp, p))
           (Prisma.findMany (fun p => (post_id p =? pp_postId pp)%string) (posts st)))
    (Prisma.findMany (fun pp => (pp_productId pp =? productId)%string)
                     (postProducts st)).

Definition detailOf (st : Store) (p : Product) : ProductDetail :=
  mkProductDetail p (postsOfProduct st (prod_id p))
    (Prisma.count (fun pp => (pp_productId pp =? prod_id p)%string) (postProducts st)).

Definition GET (st : Store) (session : Session) (workspaceId productId : string)
  : Response ProductDetail :=
  match session with
  | None => unauthorized
  | Some user =>
      match ProductRoute.verifyProductAccess st workspaceId productId (user_id user) with
      | inl e => ProductRoute.handleError e
      | inr _ =>
          match Prisma.findFirst
                  (fun p => (prod_id p =? productId)%string
                            && (prod_workspaceId p =? workspaceId)%string)
                  (products st) with
          | None => errorResponse 404 "Product not found"
          | Some product => mkResponse 200 true None None (Some (detailOf st product))
          end
      end
  end.

(** The fields of [UpdateProductSchema] that the rows of the model
    carry, after a successful [parse]; a field the request leaves out
    is [None]. *)
Record UpdateData : Type := mkUpdateData {
  ud_name : option string;
  ud_image : option string;
  ud_price : option Z;
  ud_currency : option string;
  ud_affiliateUrl : option string;
  ud_platform : option string;
  ud_categoryId : option string;
  ud_activeAffiliateLinkId : option string
}.

Definition handleWriteError {A} (e : Thrown) : Response A :=
  match e with
  | ZodError => validationFailed
  | JsError m =>
      if Js.includes m "Access denied" then errorResponse 403 m
      else internalServerError
  end.

(** "Auto-detect platform if affiliateUrl is being updated" *)
Definition platformOf (validatedData : UpdateData) : option string :=
  match keepTruthy (ud_affiliateUrl validatedData),
        keepTruthy (ud_platform validatedData) with
  | Some url, None => Some (ProductRoute.detectPlatform url)
  | _, _ => ud_platform validatedData
  end.

(** [data: updateData]: a field that is [undefined] keeps its stored
    value; the id and the workspace of the product are not among the
    fields. *)
Definition applyUpdate (validatedData : UpdateData) (p : Product) : Product :=
  let orKeep {A} (new : option A) (old : option A) : option A :=
    match new with Some v => Some v | None => old end in
  mkProduct (prod_id p) (prod_workspaceId p)
            (match ud_name validatedData with Some v => v | None => prod_name p end)
            (orKeep (ud_image validatedData) (prod_image p))
            (orKeep (ud_price validatedData) (prod_price p))
            (match ud_currency validatedData with Some v => v | None => prod_currency p end)
            (orKeep (platformOf validatedData) (prod_platform p))
            (orKeep (ud_affiliateUrl validatedData) (prod_affiliateUrl p))
            (orKeep (keepTruthy (ud_categoryId validatedData)) (prod_categoryId p))
            (orKeep (keepTruthy (ud_activeAffiliateLinkId validatedData))
                    (prod_activeAffiliateLinkId p)).

(** [prisma.product.update({ where: { id: productId }, data })] under
    the two foreign keys and the unique index of the active link. *)
Definition updateProduct (st : Store) (productId : string) (validatedData : UpdateData)
  : Result (list Product) :=
  let* rows := Prisma.update (fun p => (prod_id p =? productId)%string)
                             (applyUpdate validatedData) (products st) in
  if hasCategory st (keepTruthy (ud_categoryId validatedData))
     && hasLink st (keepTruthy (ud_activeAffiliateLinkId validatedData))
  then
    if activeLinkFree st productId (keepTruthy (ud_activeAffiliateLinkId validatedData))
    then ret rows
    else throw (JsError "Unique constraint failed")
  else throw (JsError "Foreign key constraint failed").

(** [body] is the outcome of [UpdateProductSchema.parse(await request.json())]. *)
Definition PUT (st : Store) (session : Session) (workspaceId productId : string)
           (body : Result UpdateData) : Response (option ProductDetail) * Store :=
  match session with
  | None => (unauthorized, st)
  | Some user =>
      match (let* _ := ProductRoute.verifyProductAccess st workspaceId productId
                                                        (user_id user)
             in body) with
      | inl e => (handleWriteError e, st)
      | inr validatedData =>
          match updateProduct st productId validatedData with
          | inl e => (handleWriteError e, st)
          | inr rows =>
              let st' := with_products st rows in
              (mkResponse 200 true None (Some "Product updated successfully")
                 (Some (option_map (detailOf st')
                          (Prisma.findFirst (fun p => (prod_id p =? productId)%string)
                                            rows))),
               st')
          end
      end
  end.

(** [prisma.product.delete({ where: { id: productId } })]: the links
    and the tags of the product go with it (ON DELETE CASCADE of
    [affiliate_links_productId_fkey] and [post_products_productId_fkey]),
    and a product that has one of those links as its active link loses
    it (ON DELETE SET NULL of [products_activeAffiliateLinkId_fkey]). *)
Definition deleteProduct (st : Store) (productId : string) : Result Store :=
  let* rows := Prisma.delete (fun p => (prod_id p =? productId)%string) (products st) in
  let gone (l : AffiliateLink) : bool := (link_productId l =? productId)%string in
  ret (mkStore (userWorkspaces st) (workspaces st) (posts st)
         (map (fun p => match prod_activeAffiliateLinkId p with
                        | Some a =>
                            if existsb (fun l => gone l && (link_id l =? a)%string)
                                       (affiliateLinks st)
                            then SetActiveRoute.setActive None p else p
                        | None => p
                        end)
              rows)
         (categories st)
         (Prisma.deleteMany gone (affiliateLinks st))
         (Prisma.deleteMany (fun pp => (pp_productId pp =? productId)%string)
                            (postProducts st))).

End ProductItem.
(* ================================================================== *)
(** ** Sequences of requests

    Requests reach the handlers one after the other; the store a
    request finds is the store the previous one left.  Every handler
    of the API that writes is a request below; the handlers of GET
    write nothing, so a read that is not listed leaves the store as it
    is, like the reads that are. *)

Inductive Request : Type :=
| ListPosts (session : Session) (workspaceId : string) (params : SearchParams)
| CreatePost (session : Session) (workspaceId : string) (body : Result PostData)
             (rnd newId : string) (now : Z)
| ReadPost (session : Session) (workspaceId postId : string)
| UpdatePost (session : Session) (workspaceId postId : string)
             (body : Result PostRoute.UpdateData) (rnd : string) (now : Z)
| DeletePost (session : Session) (workspaceId postId : string) (now : Z)
| ListAffiliateLinks (session : Session) (workspaceId : string)
| DeleteCategory (session : Session) (workspaceId categoryId : string)
| ListWorkspaces (session : Session)
| CreateWorkspace (session : Session) (body : Result WorkspacesRoute.WorkspaceData)
                  (rnd newId : string) (now : Z)
| UpdateWorkspace (session : Session) (workspaceId : string)
                  (body : Result WorkspaceItem.UpdateData) (now : Z)
| DeleteWorkspace (session : Session) (workspaceId : string) (now : Z)
| CreateCategory (session : Session) (workspaceId : string)
                 (body : Result CategoryWrite.CategoryData) (newId : string)
| UpdateCategory (session : Session) (workspaceId categoryId : string)
                 (body : Result CategoryWrite.UpdateData)
| CreateAffiliateLink (session : Session) (workspaceId : string)
                      (body : Result AffiliateLinkCreate.LinkData) (newId : string)
                      (now : Z)
| UpdateAffiliateLink (session : Session) (workspaceId linkId : string)
                      (body : Result LinkRoute.UpdateData) (mock : nat * nat)
| DeleteAffiliateLink (session : Session) (workspaceId linkId : string)
| SetActiveLink (session : Session) (workspaceId linkId : string)
| ClearActiveLink (session : Session) (workspaceId linkId : string)
| CreateProduct (session : Session) (workspaceId : string)
                (body : Result ProductsRoute.ProductData) (newId : string)
| UpdateProduct (session : Session) (workspaceId productId : string)
                (body : Result ProductItem.UpdateData)
| DeleteProduct (session : Session) (workspaceId productId : string).

(** The store after one request. *)
Definition serve (st : Store) (r : Request) : Store :=
  match r with
  | ListPosts _ _ _ => st
  | CreatePost session workspaceId body rnd newId now =>
      snd (PostsRoute.POST st session workspaceId body rnd newId now)
  | ReadPost _ _ _ => st
  | UpdatePost session workspaceId postId body rnd now =>
      snd (PostRoute.PUT st session workspaceId postId body rnd now)
  | DeletePost session workspaceId postId now =>
      snd (PostRoute.DELETE st session workspaceId postId now)
  | ListAffiliateLinks _ _ => st
  | DeleteCategory session workspaceId categoryId =>
      snd (CategoryRoute.DELETE st session workspaceId categoryId)
  | ListWorkspaces _ => st
  | CreateWorkspace session body rnd newId now =>
      snd (WorkspacesRoute.POST st session body rnd newId now)
  | UpdateWorkspace session workspaceId body now =>
      snd (WorkspaceItem.PUT st session workspaceId body now)
  | DeleteWorkspace session workspaceId now =>
      snd (WorkspaceItem.DELETE st session workspaceId now)
  | CreateCategory session workspaceId body newId =>
      snd (CategoryWrite.POST st session workspaceId body newId)
  | UpdateCategory session workspaceId categoryId body =>
      snd (CategoryWrite.PUT st session workspaceId categoryId body)
  | CreateAffiliateLink session workspaceId body newId now =>
      snd (AffiliateLinkCreate.POST st session workspaceId body newId now)
  | UpdateAffiliateLink session workspaceId linkId body mock =>
      snd (LinkRoute.PUT st session workspaceId linkId body mock)
  | DeleteAffiliateLink session workspaceId linkId =>
      snd (LinkRoute.DELETE st session workspaceId linkId)
  | SetActiveLink session workspaceId linkId =>
      snd (SetActiveRoute.POST st session workspaceId linkId)
  | ClearActiveLink session workspaceId linkId =>
      snd (SetActiveRoute.DELETE st session workspaceId linkId)
  | CreateProduct session workspaceId body newId =>
      snd (ProductsRoute.POST st session workspaceId body newId)
  | UpdateProduct session workspaceId productId body =>
      snd (ProductItem.PUT st session workspaceId productId body)
  | DeleteProduct session workspaceId productId =>
      snd (ProductRoute.DELETE ProductItem.deleteProduct st session workspaceId productId)
  end.

Definition serveAll (st : Store) (requests : list Request) : Store :=
  fold_left serve requests st.

(* ================================================================== *)
(** ** A small store used by the examples

    Two workspaces, [wsA] and [wsB]; [alice] is a member of both, [bob]
    administers [wsA] only. *)

Module Sample.

Definition alice : SessionUser := mkSessionUser "alice" USER.
Definition bob : SessionUser := mkSessionUser "bob" USER.

Definition aliceInA : UserWorkspace := mkUserWorkspace "alice" "wsA" OWNER.
Definition aliceInB : UserWorkspace := mkUserWorkspace "alice" "wsB" MEMBER.
Definition bobInA : UserWorkspace := mkUserWorkspace "bob" "wsA" ADMIN.

Definition workspaceA : Workspace :=
  mkWorkspace "wsA" "Odecor" "odecor" None 100 900 None.
Definition workspaceB : Workspace :=
  mkWorkspace "wsB" "Garden" "garden" None 200 300 None.

Definition post1 : Post :=
  mkPost "p1" "wsA" "Lamp review" None None "lamp-review" None None None
         true (Some 110%Z) 110 None.
Definition post2 : Post :=
  mkPost "p2" "wsB" "Lamp review" None None "lamp-review" None None None
         false None 210 None.
Definition post3 : Post :=
  mkPost "p3" "wsA" "Desk tour" None None "desk-tour" None None None
         false None 120 None.

Definition lighting : Category := mkCategory "c1" "wsA" "Lighting" None None.
Definition seating : Category := mkCategory "c2" "wsA" "Seating" None None.

Definition lampX : Product :=
  mkProduct "prodA" "wsA" "Lamp X" None None "USD" None None (Some "c1") (Some "l1").
Definition hoseY : Product :=
  mkProduct "prodB" "wsB" "Hose Y" None None "USD" None None None None.

Definition link1 : AffiliateLink :=
  mkAffiliateLink "l1" "wsA" "prodA" "Shopee" "https://lamp.example"
                  "https://shopee.vn/lamp" "shopee" 130.
Definition link2 : AffiliateLink :=
  mkAffiliateLink "l2" "wsB" "prodB" "Lazada" "https://hose.example"
                  "https://lazada.vn/hose" "lazada" 230.

Definition store : Store :=
  mkStore [aliceInA; aliceInB; bobInA]
          [workspaceA; workspaceB]
          [post1; post2; post3]
          [lampX; hoseY]
          [lighting; seating]
          [link1; link2]
          [mkPostProduct "p1" "prodA" None].

End Sample.

(* ================================================================== *)
(** ** Vocabulary of the properties *)

(** The rows of id [postId] exist and all carry the delete timestamp [t]. *)
Definition deletedAs (postId : string) (t : Z) (rows : list Post) : Prop :=
  (exists p, In p rows /\ post_id p = postId)
  /\ (forall p, In p rows -> post_id p = postId -> post_deletedAt p = Some t).

(** The keys and foreign keys of the tables a post read joins, and the
    scoping that the handlers which look up the products they are given
    keep: a post and the products tagged in it, a link and its product,
    are of one workspace.  The update of an affiliate link stores its
    product unchecked and does not keep it. *)
Record Scoped (st : Store) : Prop := mkScoped {
  scoped_product_key : NoDup (map prod_id (products st));
  scoped_post_key : NoDup (map post_id (posts st));
  scoped_tag_post :
    forall pp, In pp (postProducts st) ->
               exists post, In post (posts st) /\ post_id post = pp_postId pp;
  scoped_tags :
    forall pp post prod,
      In pp (postProducts st) -> In post (posts st) -> In prod (products st) ->
      post_id post = pp_postId pp -> prod_id prod = pp_productId pp ->
      prod_workspaceId prod = post_workspaceId post;
  scoped_links :
    forall l prod,
      In l (affiliateLinks st) -> In prod (products st) ->
      prod_id prod = link_productId l ->
      prod_workspaceId prod = link_workspaceId l
}.

Fixpoint allChars (p : ascii -> bool) (s : string) : bool :=
  match s with
  | EmptyString => true
  | String c rest => p c && allChars p rest
  end.

(** The pattern [^<base>-[a-z0-9]{6}$] on a stored slug. *)
Definition matchesSuffixed (base slug : string) : bool :=
  prefix (base ++ "-") slug
  && (String.length slug =? String.length base + 7)
  && allChars VideoUtils.isSlugChar
              (String.substring (String.length base + 1) 6 slug).

(** The products tagged in a request pass the workspace check of the
    post handlers. *)
Definition productsCheckPasses (st : Store) (workspaceId : string)
           (productIds : option (list string)) : bool :=
  match productIds with
  | Some ((_ :: _) as ids) =>
      length (Prisma.findMany (whereProductIn ids workspaceId) (products st))
      =? length ids
  | _ => true
  end.

(** The membership lookup of the routing middleware failed: the
    internal request threw, its response was not OK, or its body could
    not be read. *)
Inductive LookupFailed : Middleware.FetchOutcome -> Prop :=
| lookup_threw : LookupFailed Middleware.FetchThrows
| lookup_not_ok (body : Middleware.JsonBody) :
    LookupFailed (Middleware.FetchResponse false body)
| lookup_unreadable : LookupFailed (Middleware.FetchResponse true Middleware.JsonThrows).

Module Claimed.

(** The selection of the target workspace in the words of the
    specification: the workspace of the cookie when the user has it,
    else the most recently updated one, else the first returned. *)
Definition mostRecentlyUpdated (first : WorkspacesRoute.WorkspaceView)
           (rest : list WorkspacesRoute.WorkspaceView)
  : WorkspacesRoute.WorkspaceView :=
  fold_left
    (fun best w =>
       if (ws_updatedAt (WorkspacesRoute.wv_workspace best)
           <? ws_updatedAt (WorkspacesRoute.wv_workspace w))%Z
       then w else best)
    rest first.

Definition targetWorkspace (lastWorkspace : option string)
           (first : WorkspacesRoute.WorkspaceView)
           (rest : list WorkspacesRoute.WorkspaceView)
  : WorkspacesRoute.WorkspaceView :=
  match lastWorkspace with
  | Some l =>
      match find (fun w => (Middleware.slugOf w =? l)%string) (first :: rest) with
      | Some w => w
      | None => mostRecentlyUpdated first rest
      end
  | None => mostRecentlyUpdated first rest
  end.

(** A rendering of a number of [[0, 1)] in base 36: ["0"], or ["0."]
    followed by digits of [[0-9a-z]]. *)
Definition isDraw (rnd : string) : bool :=
  (rnd =? "0")%string
  || (prefix "0." rnd && (3 <=? String.length rnd)
      && allChars VideoUtils.isSlugChar
                  (String.substring 2 (String.length rnd - 2) rnd)).

(** The slug claim in the words of the specification, for workspaces:
    whatever the draw, a create whose desired slug is already stored
    succeeds and stores a slug of the pattern, different from the
    stored one. *)
Definition workspaceSlugClaim : Prop :=
  forall (st : Store) (user : SessionUser) (body : WorkspacesRoute.WorkspaceData)
         (rnd newId : string) (now : Z) (first : Workspace),
    isDraw rnd = true ->
    In first (workspaces st) ->
    ws_slug first = WorkspacesRoute.desiredSlug body ->
    (forall w, In w (workspaces st) -> ws_id w <> newId) ->
    let answer := WorkspacesRoute.POST st (Some user) (ret body) rnd newId now in
    status (fst answer) = 200
    /\ exists second,
         workspaces (snd answer) = (workspaces st ++ [second])%list
         /\ ws_slug second <> ws_slug first
         /\ matchesSuffixed (WorkspacesRoute.desiredSlug body) (ws_slug second) = true.

End Claimed.

(** Closes a goal whose premise reads the [data] of an error response. *)
Ltac no_data :=
  cbn;
  repeat match goal with
         | |- context [if ?b then _ else _] => destruct b
         end;
  cbn; discriminate.

(* ================================================================== *)
(** ** Vocabulary of the further properties *)

(** Characters of [[a-z0-9]] and hyphens, no hyphen following a hyphen;
    [prev] tells that the previous character was a hyphen. *)
Fixpoint hyphenated (prev : bool) (s : string) : bool :=
  match s with
  | EmptyString => true
  | String c rest =>
      if VideoUtils.isSlugChar c then hyphenated false rest
      else VideoUtils.isHyphen c && negb prev && hyphenated true rest
  end.

(** The two character classes of [generateSlug]: [[\w\s-]] and [[\s_-]]. *)
Definition slugKeeps (c : ascii) : bool :=
  Js.isWord c || Js.isSpace c || VideoUtils.isHyphen c.

Definition slugSeparates (c : ascii) : bool :=
  Js.isSpace c || (nat_of_ascii c =? 95) || VideoUtils.isHyphen c.

(** The answer of the workspace-scoped handlers to a user who is not
    a member of the workspace. *)
Definition accessDenied {A} : Response A :=
  errorResponse 403 "Access denied to workspace".

(** The user has no membership row in the workspace. *)
Definition notMember (st : Store) (workspaceId userId : string) : Prop :=
  forall m, In m (userWorkspaces st) ->
            ~ (uw_workspaceId m = workspaceId /\ uw_userId m = userId).

(** The user has a membership row of role [role] in the workspace, and
    it is the row the membership lookup finds. *)
Definition memberAs (st : Store) (workspaceId userId : string) (role : WorkspaceRole)
  : Prop :=
  exists m,
    Prisma.findFirst (WorkspaceRoute.whereMembership workspaceId userId)
                     (userWorkspaces st) = Some m
    /\ uw_role m = role.

(** Closes the goal of a handler whose membership lookup finds no row. *)
Ltac lookup_fails Hnone :=
  unfold PostsRoute.verifyWorkspaceAccess, PostRoute.verifyPostAccess,
    AffiliateLinksRoute.verifyWorkspaceAccess, CategoryRoute.verifyCategoryAccess,
    CategoryWrite.verifyWorkspaceAccess, SetActiveRoute.verifyLinkAccess,
    ProductLinksRoute.verifyWorkspaceAccess, ProductRoute.verifyProductAccess,
    WorkspaceRoute.verifyWorkspaceAccess;
  unfold PostsRoute.whereMembership, PostRoute.whereMembership,
    AffiliateLinksRoute.whereMembership, CategoryRoute.whereMembership,
    SetActiveRoute.whereMembership, WorkspaceRoute.whereMembership;
  rewrite Hnone; reflexivity.

(** Decides a fact about one character by going through the 256 of them. *)
Ltac by_cases_on_char c :=
  destruct c as [[] [] [] [] [] [] [] []]; vm_compute; intros;
  try discriminate; repeat split; reflexivity.

(** No two categories of a workspace have the same name. *)
Definition categoryNamesUnique (st : Store) : Prop :=
  forall a b,
    In a (categories st) -> In b (categories st) ->
    cat_workspaceId a = cat_workspaceId b -> cat_name a = cat_name b ->
    cat_id a = cat_id b.

(** Rewrites the membership lookup of a handler with the row it finds. *)
Ltac lookup_succeeds Hfound :=
  unfold PostsRoute.verifyWorkspaceAccess, PostRoute.verifyPostAccess,
    AffiliateLinksRoute.verifyWorkspaceAccess, CategoryRoute.verifyCategoryAccess,
    CategoryWrite.verifyWorkspaceAccess, SetActiveRoute.verifyLinkAccess,
    ProductLinksRoute.verifyWorkspaceAccess, ProductRoute.verifyProductAccess;
  unfold PostsRoute.whereMembership, PostRoute.whereMembership,
    AffiliateLinksRoute.whereMembership, CategoryRoute.whereMembership,
    SetActiveRoute.whereMembership;
  rewrite Hfound.

(** The rows come with their keys in descending order. *)
Fixpoint descending {Row} (key : Row -> Z) (rows : list Row) : Prop :=
  match rows with
  | [] => True
  | r :: rest => (forall x, In x rest -> (key x <= key r)%Z) /\ descending key rest
  end.

(* ================================================================== *)
(** * Properties *)

(** ** Shared facts about the tables *)

Lemma whereMembership_iff (workspaceId userId : string) (uw : UserWorkspace) :
  WorkspaceRoute.whereMembership workspaceId userId uw = true
  <-> uw_workspaceId uw = workspaceId /\ uw_userId uw = userId.
Proof.
  unfold WorkspaceRoute.whereMembership.
  rewrite andb_true_iff, !String.eqb_eq. tauto.
Qed.

Lemma findFirst_none {Row} (where_ : Row -> bool) (rows : list Row) :
  Prisma.findFirst where_ rows = None
  <-> (forall r, In r rows -> where_ r = false).
Proof.
  unfold Prisma.findFirst. split.
  - intros H r Hr. exact (find_none _ _ H r Hr).
  - induction rows as [|x rows IH]; intros H; simpl.
    + reflexivity.
    + rewrite (H x (or_introl eq_refl)). apply IH.
      intros r Hr. apply H. right. exact Hr.
Qed.

Lemma findFirst_some {Row} (where_ : Row -> bool) (rows : list Row) (r : Row) :
  Prisma.findFirst where_ rows = Some r -> In r rows /\ where_ r = true.
Proof. apply find_some. Qed.

(** ** Access control *)

(** C1. The authorization check of the workspace route, on every
    (workspace, user, required role): the ranks are MEMBER 0, ADMIN 1,
    OWNER 2; without a membership row for the pair the check throws
    "not found or access denied"; a returned row is a stored membership
    of the pair whose rank reaches the required one; and when [m] is the
    membership of the pair, the check throws "Insufficient permissions"
    if the rank of [m] is strictly below the required rank and returns
    [m] otherwise. *)
Theorem verifyWorkspaceAccess_decides
        (st : Store) (workspaceId userId : string) (requiredRole : WorkspaceRole) :
  let check := WorkspaceRoute.verifyWorkspaceAccess st workspaceId userId requiredRole in
  let rank := WorkspaceRoute.roleHierarchy in
  let member m := uw_workspaceId m = workspaceId /\ uw_userId m = userId in
  (rank MEMBER = 0 /\ rank ADMIN = 1 /\ rank OWNER = 2)
  /\ ((forall m, In m (userWorkspaces st) -> ~ member m)
      <-> check = throw (JsError "Workspace not found or access denied"))
  /\ (forall m, check = ret m ->
        In m (userWorkspaces st) /\ member m
        /\ rank requiredRole <= rank (uw_role m))
  /\ (forall m,
        In m (userWorkspaces st) -> member m ->
        (forall m', In m' (userWorkspaces st) -> member m' -> m' = m) ->
        (rank (uw_role m) < rank requiredRole ->
         check = throw (JsError "Insufficient permissions"))
        /\ (rank requiredRole <= rank (uw_role m) -> check = ret m)).
Proof.
  intros check rank member. subst check rank.
  unfold WorkspaceRoute.verifyWorkspaceAccess, ret, throw.
  split; [repeat split|].
  destruct (Prisma.findFirst (WorkspaceRoute.whereMembership workspaceId userId)
                             (userWorkspaces st)) as [found|] eqn:Hfind.
  - apply findFirst_some in Hfind. destruct Hfind as [Hin Hwhere].
    apply whereMembership_iff in Hwhere.
    split; [|split].
    + split.
      * intros Hnone. exfalso. exact (Hnone found Hin Hwhere).
      * destruct (WorkspaceRoute.roleHierarchy (uw_role found)
                <? WorkspaceRoute.roleHierarchy requiredRole);
          intros Habs; discriminate Habs.
    + intros m Hm.
      destruct (WorkspaceRoute.roleHierarchy (uw_role found)
                <? WorkspaceRoute.roleHierarchy requiredRole) eqn:Hlt;
        [discriminate|].
      injection Hm as <-. apply Nat.ltb_ge in Hlt. auto.
    + intros m Hin' Hmem Huniq.
      rewrite (Huniq found Hin Hwhere).
      split; intros Hrank.
      * apply Nat.ltb_lt in Hrank. rewrite Hrank. reflexivity.
      * apply Nat.ltb_ge in Hrank. rewrite Hrank. reflexivity.
  - split; [|split].
    + split; [reflexivity|].
      intros _ m Hin Hmem.
      apply whereMembership_iff in Hmem.
      rewrite findFirst_none in Hfind. rewrite (Hfind m Hin) in Hmem. discriminate.
    + intros m Hm. discriminate.
    + intros m Hin Hmem _.
      apply whereMembership_iff in Hmem.
      rewrite findFirst_none in Hfind. rewrite (Hfind m Hin) in Hmem. discriminate.
Qed.

(** On the sample store: bob, ADMIN of [wsA], passes the ADMIN check
    and fails the OWNER check. *)
Lemma verifyWorkspaceAccess_decides_witness :
  WorkspaceRoute.verifyWorkspaceAccess Sample.store "wsA" "bob" ADMIN = ret Sample.bobInA
  /\ WorkspaceRoute.verifyWorkspaceAccess Sample.store "wsA" "bob" OWNER
     = throw (JsError "Insufficient permissions").
Proof.
  assert (Hin : In Sample.bobInA (userWorkspaces Sample.store))
    by (simpl; auto).
  assert (Hmem : uw_workspaceId Sample.bobInA = "wsA" /\ uw_userId Sample.bobInA = "bob")
    by (split; reflexivity).
  assert (Huniq : forall m', In m' (userWorkspaces Sample.store) ->
                             uw_workspaceId m' = "wsA" /\ uw_userId m' = "bob" ->
                             m' = Sample.bobInA).
  { intros m' Hm' [Hw Hu]. simpl in Hm'.
    destruct Hm' as [<-|[<-|[<-|[]]]]; try reflexivity; discriminate. }
  split.
  - apply (proj2 (proj2 (proj2
             (verifyWorkspaceAccess_decides Sample.store "wsA" "bob" ADMIN)))
             Sample.bobInA Hin Hmem Huniq).
    simpl. lia.
  - apply (proj2 (proj2 (proj2
             (verifyWorkspaceAccess_decides Sample.store "wsA" "bob" OWNER)))
             Sample.bobInA Hin Hmem Huniq).
    simpl. lia.
Defined.

(** ** Workspace isolation *)

Lemma insertBy_In {Row} (before : Row -> Row -> bool) (r x : Row) (sorted : list Row) :
  In x (Prisma.insertBy before r sorted) <-> x = r \/ In x sorted.
Proof.
  induction sorted as [|y sorted IH]; simpl.
  - intuition.
  - destruct (before r y); simpl; [intuition|].
    rewrite IH. intuition.
Qed.

Lemma orderBy_In {Row} (before : Row -> Row -> bool) (x : Row) (rows : list Row) :
  In x (Prisma.orderBy before rows) <-> In x rows.
Proof.
  unfold Prisma.orderBy.
  induction rows as [|r rows IH]; simpl; [tauto|].
  rewrite insertBy_In, IH. intuition.
Qed.

Lemma firstn_skipn_In {Row} (n k : nat) (x : Row) (rows : list Row) :
  In x (firstn n (skipn k rows)) -> In x rows.
Proof.
  intros H.
  rewrite <- (firstn_skipn k rows). apply in_or_app. right.
  rewrite <- (firstn_skipn n (skipn k rows)). apply in_or_app. left. exact H.
Qed.

Lemma page_In {Row} (skip take : JsNumber.number) (rows window : list Row) (x : Row) :
  Prisma.page skip take rows = ret window -> In x window -> In x rows.
Proof.
  unfold Prisma.page, ret, throw.
  destruct skip as [s|]; [|discriminate].
  destruct take as [t|]; [|discriminate].
  destruct (s <? 0)%Z; [discriminate|].
  destruct (0 <=? t)%Z; intros Heq; injection Heq as <-; intros Hin.
  - eapply firstn_skipn_In; eassumption.
  - apply in_rev in Hin. apply firstn_skipn_In in Hin.
    apply in_rev. exact Hin.
Qed.

Lemma whereClause_scope (workspaceId search : string) (published : option string)
      (p : Post) :
  PostsRoute.whereClause workspaceId search published p = true ->
  post_workspaceId p = workspaceId /\ post_deletedAt p = None.
Proof.
  unfold PostsRoute.whereClause.
  rewrite !andb_true_iff. intros [[[Hws Hdel] _] _].
  apply String.eqb_eq in Hws.
  destruct (post_deletedAt p); [discriminate|]. auto.
Qed.

(** Every post of a successful listing is a stored, live post of the
    workspace of the request. *)
Lemma listed_post_scope (st : Store) (session : Session) (workspaceId : string)
      (params : SearchParams) (result : PostsRoute.PostsPage) (v : PostView) :
  data (PostsRoute.GET st session workspaceId params) = Some result ->
  In v (PostsRoute.pp_posts result) ->
  In (pv_post v) (posts st)
  /\ post_workspaceId (pv_post v) = workspaceId
  /\ post_deletedAt (pv_post v) = None.
Proof.
  unfold PostsRoute.GET.
  destruct session as [user|]; [|no_data].
  destruct (PostsRoute.verifyWorkspaceAccess st workspaceId (user_id user)) as [e|uw];
    simpl.
  - destruct e as [m|]; no_data.
  - match goal with
    | |- context [Prisma.page ?s ?t ?rows] =>
        destruct (Prisma.page s t rows) as [e|window] eqn:Hpage
    end; simpl.
    + destruct e as [m|]; no_data.
    + intros Hdata. injection Hdata as <-. simpl.
      rewrite in_map_iff. intros [p [<- Hp]]. simpl.
      apply (page_In _ _ _ _ _ Hpage) in Hp.
      apply orderBy_In in Hp.
      apply filter_In in Hp. destruct Hp as [Hstored Hwhere].
      apply whereClause_scope in Hwhere. tauto.
Qed.

Lemma withStats_In (st : Store) (mock : nat -> nat * nat) (links : list AffiliateLink) :
  forall (i : nat) (views : list AffiliateLinksRoute.LinkView)
         (v : AffiliateLinksRoute.LinkView),
    AffiliateLinksRoute.withStats st mock i links = ret views ->
    In v views -> In (AffiliateLinksRoute.lv_link v) links.
Proof.
  induction links as [|link rest IH]; intros i views v; simpl.
  - intros Heq. injection Heq as <-. intros [].
  - destruct (Prisma.findFirst _ (products st)) as [product|]; [|discriminate].
    destruct (AffiliateLinksRoute.withStats st mock (S i) rest) as [e|tl] eqn:Htl;
      simpl; [discriminate|].
    intros Heq. injection Heq as <-. intros [<-|Hin].
    + left. reflexivity.
    + right. eapply IH; eassumption.
Qed.

Lemma listed_link_scope (st : Store) (session : Session) (workspaceId : string)
      (mock : nat -> nat * nat) (views : list AffiliateLinksRoute.LinkView)
      (v : AffiliateLinksRoute.LinkView) :
  data (AffiliateLinksRoute.GET st session workspaceId mock) = Some views ->
  In v views ->
  In (AffiliateLinksRoute.lv_link v) (affiliateLinks st)
  /\ link_workspaceId (AffiliateLinksRoute.lv_link v) = workspaceId.
Proof.
  unfold AffiliateLinksRoute.GET.
  destruct session as [user|]; [|no_data].
  destruct (AffiliateLinksRoute.verifyWorkspaceAccess st workspaceId (user_id user))
    as [e|uw]; simpl.
  - destruct e as [m|]; no_data.
  - match goal with
    | |- context [AffiliateLinksRoute.withStats st mock 0 ?links] =>
        destruct (AffiliateLinksRoute.withStats st mock 0 links) as [e|vs] eqn:Hvs
    end; simpl.
    + destruct e as [m|]; no_data.
    + intros Hdata. injection Hdata as <-. intros Hin.
      apply (withStats_In _ _ _ _ _ _ Hvs) in Hin.
      apply orderBy_In in Hin. apply filter_In in Hin.
      destruct Hin as [Hstored Hws]. apply String.eqb_eq in Hws. auto.
Qed.

Lemma wherePost_iff (workspaceId postId : string) (p : Post) :
  PostRoute.wherePost workspaceId postId p = true
  <-> post_id p = postId /\ post_workspaceId p = workspaceId /\ post_deletedAt p = None.
Proof.
  unfold PostRoute.wherePost. rewrite !andb_true_iff, !String.eqb_eq.
  destruct (post_deletedAt p); simpl; intuition discriminate.
Qed.

Lemma read_post_scope (st : Store) (session : Session) (workspaceId postId : string)
      (d : PostRoute.PostDetail) :
  data (PostRoute.GET st session workspaceId postId) = Some d ->
  In (PostRoute.det_post d) (posts st)
  /\ post_id (PostRoute.det_post d) = postId
  /\ post_workspaceId (PostRoute.det_post d) = workspaceId
  /\ post_deletedAt (PostRoute.det_post d) = None.
Proof.
  unfold PostRoute.GET.
  destruct session as [user|]; [|no_data].
  destruct (PostRoute.verifyPostAccess st workspaceId postId (user_id user)) as [e|ok].
  - destruct e as [m|]; no_data.
  - destruct (Prisma.findFirst (PostRoute.wherePost workspaceId postId) (posts st))
      as [post|] eqn:Hfind; [|no_data].
    simpl. intros Hdata. injection Hdata as <-. simpl.
    apply findFirst_some in Hfind. destruct Hfind as [Hin Hwhere].
    apply wherePost_iff in Hwhere. tauto.
Qed.


(** ** Nested rows of the reads *)

Lemma productsOfPost_In (st : Store) (postId : string) (pp : PostProduct) (prod : Product) :
  In (pp, prod) (productsOfPost st postId) ->
  In pp (postProducts st) /\ pp_postId pp = postId
  /\ In prod (products st) /\ prod_id prod = pp_productId pp.
Proof.
  unfold productsOfPost, Prisma.findMany. rewrite in_flat_map.
  intros [pp' [Hpp Hpair]].
  apply filter_In in Hpp. destruct Hpp as [Hin Hid]. apply String.eqb_eq in Hid.
  apply in_map_iff in Hpair. destruct Hpair as [p [Heq Hp]].
  injection Heq as <- <-.
  apply filter_In in Hp. destruct Hp as [Hprod Hpid]. apply String.eqb_eq in Hpid.
  auto.
Qed.

Lemma tagged_product_scope (st : Store) (post : Post) (pp : PostProduct) (prod : Product) :
  Scoped st -> In post (posts st) ->
  In (pp, prod) (productsOfPost st (post_id post)) ->
  prod_workspaceId prod = post_workspaceId post.
Proof.
  intros Hsc Hpost Hin.
  apply productsOfPost_In in Hin. destruct Hin as [Hpp [Hid [Hprod Hpid]]].
  apply (scoped_tags st Hsc pp post prod); auto.
Qed.

Lemma withStats_product (st : Store) (mock : nat -> nat * nat) (links : list AffiliateLink) :
  forall (i : nat) (views : list AffiliateLinksRoute.LinkView)
         (v : AffiliateLinksRoute.LinkView),
    AffiliateLinksRoute.withStats st mock i links = ret views ->
    In v views ->
    In (AffiliateLinksRoute.lv_product v) (products st)
    /\ prod_id (AffiliateLinksRoute.lv_product v)
       = link_productId (AffiliateLinksRoute.lv_link v).
Proof.
  induction links as [|link rest IH]; intros i views v; simpl.
  - intros Heq. injection Heq as <-. intros [].
  - destruct (Prisma.findFirst _ (products st)) as [product|] eqn:Hfind; [|discriminate].
    destruct (AffiliateLinksRoute.withStats st mock (S i) rest) as [e|tl] eqn:Htl;
      simpl; [discriminate|].
    intros Heq. injection Heq as <-. intros [<-|Hin].
    + simpl. apply findFirst_some in Hfind. destruct Hfind as [Hp Hid].
      apply String.eqb_eq in Hid. auto.
    + eapply IH; eassumption.
Qed.

(** In a scoped store the products a read returns inside a post or a
    link are of the workspace of the request too. *)
Lemma nested_rows_scope (st : Store) (session : Session) (workspaceId : string) :
  Scoped st ->
  (forall params result v pp prod,
      data (PostsRoute.GET st session workspaceId params) = Some result ->
      In v (PostsRoute.pp_posts result) -> In (pp, prod) (pv_products v) ->
      prod_workspaceId prod = workspaceId)
  /\ (forall mock views v,
         data (AffiliateLinksRoute.GET st session workspaceId mock) = Some views ->
         In v views ->
         prod_workspaceId (AffiliateLinksRoute.lv_product v) = workspaceId)
  /\ (forall postId d pp prod,
         data (PostRoute.GET st session workspaceId postId) = Some d ->
         In (pp, prod) (PostRoute.det_products d) ->
         prod_workspaceId prod = workspaceId).
Proof.
  intros Hsc. split; [|split].
  - intros params result v pp prod Hdata Hv Hnested.
    destruct (listed_post_scope _ _ _ _ _ _ Hdata Hv) as [Hstored [Hws _]].
    rewrite <- Hws.
    assert (Hview : pv_products v = productsOfPost st (post_id (pv_post v))).
    { revert Hdata Hv. unfold PostsRoute.GET.
      destruct session as [user|]; [|no_data].
      destruct (PostsRoute.verifyWorkspaceAccess st workspaceId (user_id user))
        as [e|uw]; simpl; [destruct e; no_data|].
      match goal with
      | |- context [Prisma.page ?s ?t ?rows] =>
          destruct (Prisma.page s t rows) as [e|window]
      end; simpl; [destruct e; no_data|].
      intros Hd. injection Hd as <-. simpl.
      rewrite in_map_iff. intros [p [<- _]]. reflexivity. }
    rewrite Hview in Hnested.
    exact (tagged_product_scope st (pv_post v) pp prod Hsc Hstored Hnested).
  - intros mock views v Hdata Hv.
    destruct (listed_link_scope _ _ _ _ _ _ Hdata Hv) as [Hstored Hws].
    rewrite <- Hws.
    assert (Hprod : In (AffiliateLinksRoute.lv_product v) (products st)
                    /\ prod_id (AffiliateLinksRoute.lv_product v)
                       = link_productId (AffiliateLinksRoute.lv_link v)).
    { revert Hdata Hv. unfold AffiliateLinksRoute.GET.
      destruct session as [user|]; [|no_data].
      destruct (AffiliateLinksRoute.verifyWorkspaceAccess st workspaceId (user_id user))
        as [e|uw]; simpl; [destruct e; no_data|].
      match goal with
      | |- context [AffiliateLinksRoute.withStats st mock 0 ?links] =>
          destruct (AffiliateLinksRoute.withStats st mock 0 links) as [e|vs] eqn:Hvs
      end; simpl; [destruct e; no_data|].
      intros Hd. injection Hd as <-. intros Hin.
      exact (withStats_product _ _ _ _ _ _ Hvs Hin). }
    destruct Hprod as [Hp Hid].
    exact (scoped_links st Hsc _ _ Hstored Hp Hid).
  - intros postId d pp prod Hdata Hnested.
    destruct (read_post_scope _ _ _ _ _ Hdata) as [Hstored [_ [Hws _]]].
    rewrite <- Hws.
    assert (Hview : PostRoute.det_products d
                    = Prisma.orderByAscNullsLast
                        (fun x => pp_timestamp (fst x))
                        (productsOfPost st (post_id (PostRoute.det_post d)))).
    { revert Hdata. unfold PostRoute.GET.
      destruct session as [user|]; [|no_data].
      destruct (PostRoute.verifyPostAccess st workspaceId postId (user_id user))
        as [e|ok]; [destruct e; no_data|].
      destruct (Prisma.findFirst (PostRoute.wherePost workspaceId postId) (posts st));
        [|no_data].
      simpl. intros Hd. injection Hd as <-. reflexivity. }
    rewrite Hview in Hnested. apply orderBy_In in Hnested.
    exact (tagged_product_scope st _ pp prod Hsc Hstored Hnested).
Qed.

(** ** What the post handlers do to the store *)

Lemma verifyPostAccess_ok (st : Store) (workspaceId postId userId : string)
      (uw : UserWorkspace) (post : Post) :
  PostRoute.verifyPostAccess st workspaceId postId userId = ret (uw, post) ->
  In post (posts st)
  /\ post_id post = postId
  /\ post_workspaceId post = workspaceId
  /\ post_deletedAt post = None.
Proof.
  unfold PostRoute.verifyPostAccess, ret, throw.
  destruct (Prisma.findFirst _ (userWorkspaces st)); [|discriminate].
  destruct (Prisma.findFirst _ (posts st)) as [found|] eqn:Hfind; [|discriminate].
  intros Heq. injection Heq as _ <-.
  apply findFirst_some in Hfind. destruct Hfind as [Hin Hwhere].
  apply wherePost_iff in Hwhere. tauto.
Qed.

(** Without a live post of that id in the workspace, a member's access
    check throws the "not found" error. *)
Lemma verifyPostAccess_absent (st : Store) (workspaceId postId userId : string) :
  (exists m, In m (userWorkspaces st)
             /\ uw_workspaceId m = workspaceId /\ uw_userId m = userId) ->
  (forall p, In p (posts st) ->
             ~ (post_id p = postId /\ post_workspaceId p = workspaceId
                /\ post_deletedAt p = None)) ->
  PostRoute.verifyPostAccess st workspaceId postId userId
  = throw (JsError "Post not found or access denied").
Proof.
  intros [m [Hin [Hw Hu]]] Hnone.
  unfold PostRoute.verifyPostAccess.
  destruct (Prisma.findFirst (PostRoute.whereMembership workspaceId userId)
                             (userWorkspaces st)) eqn:Hmem.
  - destruct (Prisma.findFirst (PostRoute.wherePost workspaceId postId) (posts st))
      as [p|] eqn:Hpost; [|reflexivity].
    apply findFirst_some in Hpost. destruct Hpost as [Hp Hwhere].
    apply wherePost_iff in Hwhere. destruct (Hnone p Hp Hwhere).
  - rewrite findFirst_none in Hmem. specialize (Hmem m Hin).
    unfold PostRoute.whereMembership in Hmem.
    rewrite Hw, Hu, !String.eqb_refl in Hmem. discriminate.
Qed.

(** A successful DELETE passed the access check and stamped the rows of
    that id. *)
Lemma DELETE_ok (st : Store) (session : Session) (workspaceId postId : string) (now : Z) :
  status (fst (PostRoute.DELETE st session workspaceId postId now)) = 200 ->
  exists user uw post,
    session = Some user
    /\ PostRoute.verifyPostAccess st workspaceId postId (user_id user) = ret (uw, post)
    /\ snd (PostRoute.DELETE st session workspaceId postId now)
       = with_posts st
           (map (fun p => if (post_id p =? postId)%string
                          then PostRoute.markDeleted now p else p)
                (posts st)).
Proof.
  unfold PostRoute.DELETE.
  destruct session as [user|]; [|cbn; discriminate].
  destruct (PostRoute.verifyPostAccess st workspaceId postId (user_id user))
    as [e|[uw post]] eqn:Hverify; cbn.
  - destruct e as [m|]; cbn; [destruct (Js.includes m "Access denied")|];
      cbn; discriminate.
  - unfold Prisma.update.
    destruct (existsb _ (posts st)); cbn.
    + intros _. exists user, uw, post. auto.
    + discriminate.
Qed.

(** A DELETE that does not answer 200 leaves the store as it was. *)
Lemma DELETE_failed (st : Store) (session : Session) (workspaceId postId : string)
      (now : Z) :
  status (fst (PostRoute.DELETE st session workspaceId postId now)) <> 200 ->
  snd (PostRoute.DELETE st session workspaceId postId now) = st.
Proof.
  unfold PostRoute.DELETE.
  destruct session as [user|]; [|reflexivity].
  destruct (PostRoute.verifyPostAccess st workspaceId postId (user_id user))
    as [e|[uw post]]; cbn; [reflexivity|].
  unfold Prisma.update.
  destruct (existsb _ (posts st)); cbn; [|reflexivity].
  intros H. destruct (H eq_refl).
Qed.

Lemma deletedAs_after_DELETE (st : Store) (session : Session)
      (workspaceId postId : string) (now : Z) :
  status (fst (PostRoute.DELETE st session workspaceId postId now)) = 200 ->
  deletedAs postId now (posts (snd (PostRoute.DELETE st session workspaceId postId now))).
Proof.
  intros Hok.
  destruct (DELETE_ok _ _ _ _ _ Hok) as [user [uw [post [_ [Hverify ->]]]]].
  apply verifyPostAccess_ok in Hverify. destruct Hverify as [Hin [Hid _]].
  split; simpl.
  - exists (PostRoute.markDeleted now post). split; [|exact Hid].
    apply in_map_iff. exists post. split; [|exact Hin].
    rewrite <- Hid, String.eqb_refl. reflexivity.
  - intros p Hp Hpid. apply in_map_iff in Hp. destruct Hp as [q [Hq Hqin]].
    destruct (post_id q =? postId)%string eqn:Heq.
    + subst p. reflexivity.
    + subst p. apply String.eqb_neq in Heq. contradiction.
Qed.

(** POST stores at most one new row, of a fresh id. *)
Lemma POST_posts (st : Store) (session : Session) (workspaceId : string)
      (body : Result PostData) (rnd newId : string) (now : Z) :
  let st' := snd (PostsRoute.POST st session workspaceId body rnd newId now) in
  posts st' = posts st
  \/ exists post,
       post_id post = newId
       /\ (forall p, In p (posts st) -> post_id p <> newId)
       /\ posts st' = (posts st ++ [post])%list.
Proof.
  unfold PostsRoute.POST.
  destruct session as [user|]; [|left; reflexivity].
  destruct (PostsRoute.verifyWorkspaceAccess st workspaceId (user_id user)) as [e|uw];
    [left; reflexivity|].
  destruct body as [e|postData]; [left; reflexivity|].
  cbn -[PostsRoute.chooseSlug PostsRoute.newPost].
  unfold Prisma.transaction, PostsRoute.createInTransaction, Prisma.create.
  set (post := PostsRoute.newPost newId workspaceId _ now postData).
  destruct (existsb (postConflicts post) (posts st)) eqn:Hconflict;
    [left; reflexivity|].
  assert (Hfresh : forall p, In p (posts st) -> post_id p <> newId).
  { intros p Hp Hid.
    assert (Hnone : postConflicts post p = false).
    { destruct (postConflicts post p) eqn:Hc; [|reflexivity].
      assert (Hex : existsb (postConflicts post) (posts st) = true)
        by (apply existsb_exists; exists p; auto).
      rewrite Hex in Hconflict. discriminate. }
    unfold postConflicts in Hnone. apply orb_false_iff in Hnone.
    destruct Hnone as [Hne _]. apply String.eqb_neq in Hne.
    apply Hne. rewrite Hid. reflexivity. }
  cbn -[post].
  destruct (pd_productIds postData) as [[|i ids]|]; cbn -[post];
    try (right; exists post; repeat split; auto; fail).
  match goal with
  | |- context [negb ?b] => destruct b
  end; cbn -[post].
  - right. exists post. repeat split; auto.
  - left. reflexivity.
Qed.

Lemma applyUpdate_keeps (postData : PostRoute.UpdateData) (slug : option string)
      (publishedAt : option Z) (p : Post) :
  post_id (PostRoute.applyUpdate postData slug publishedAt p) = post_id p
  /\ post_workspaceId (PostRoute.applyUpdate postData slug publishedAt p)
     = post_workspaceId p
  /\ post_deletedAt (PostRoute.applyUpdate postData slug publishedAt p)
     = post_deletedAt p.
Proof. repeat split. Qed.

(** PUT either leaves the posts as they were or rewrites the rows of
    that id, keeping their id, workspace and delete timestamp. *)
Lemma PUT_posts (st : Store) (session : Session) (workspaceId postId : string)
      (body : Result PostRoute.UpdateData) (rnd : string) (now : Z) :
  let st' := snd (PostRoute.PUT st session workspaceId postId body rnd now) in
  posts st' = posts st
  \/ exists f,
       (forall p, post_id (f p) = post_id p
                  /\ post_workspaceId (f p) = post_workspaceId p
                  /\ post_deletedAt (f p) = post_deletedAt p)
       /\ posts st' = map (fun p => if (post_id p =? postId)%string then f p else p)
                          (posts st).
Proof.
  unfold PostRoute.PUT.
  destruct session as [user|]; [|left; reflexivity].
  destruct (PostRoute.verifyPostAccess st workspaceId postId (user_id user)) as [e|ok];
    [left; reflexivity|].
  destruct body as [e|postData]; [left; reflexivity|].
  cbn -[PostRoute.disambiguateSlug PostRoute.regenerateSlug PostRoute.publishedAtOf
        PostRoute.applyUpdate].
  unfold Prisma.transaction, PostRoute.updateInTransaction, PostRoute.updatePost,
    Prisma.update.
  set (f := PostRoute.applyUpdate postData _ _).
  match goal with
  | |- context [if ?b then throw _ else _] => destruct b
  end; [left; reflexivity|].
  destruct (existsb _ (posts st)); [|left; reflexivity].
  cbn -[f].
  destruct (PostRoute.ud_productIds postData) as [[|i ids]|]; cbn -[f];
    try (right; exists f; split; [intros p; apply applyUpdate_keeps|reflexivity]; fail).
  match goal with
  | |- context [negb ?b] => destruct b
  end; cbn -[f].
  - right. exists f. split; [intros p; apply applyUpdate_keeps|reflexivity].
  - left. reflexivity.
Qed.

(** ** The post handlers keep a scoped store scoped *)

Lemma key_unique {Row} (key : Row -> string) (rows : list Row) (a b : Row) :
  NoDup (map key rows) -> In a rows -> In b rows -> key a = key b -> a = b.
Proof.
  induction rows as [|r rows IH]; simpl; intros Hnd Ha Hb Hkey; [destruct Ha|].
  inversion Hnd as [|? ? Hnotin Hrest]; subst.
  destruct Ha as [<-|Ha], Hb as [<-|Hb].
  - reflexivity.
  - exfalso. apply Hnotin. rewrite Hkey. apply in_map. exact Hb.
  - exfalso. apply Hnotin. rewrite <- Hkey. apply in_map. exact Ha.
  - apply IH; assumption.
Qed.

Lemma NoDup_map_filter {A B} (f : A -> B) (keep : A -> bool) (l : list A) :
  NoDup (map f l) -> NoDup (map f (filter keep l)).
Proof.
  induction l as [|x l IH]; simpl; intros H; [constructor|].
  inversion H as [|? ? Hnotin Hrest]; subst.
  destruct (keep x); simpl; [|auto].
  constructor; [|auto].
  intros Hin. apply Hnotin.
  apply in_map_iff in Hin. destruct Hin as [y [Hy Hyin]].
  apply filter_In in Hyin. apply in_map_iff. exists y. tauto.
Qed.

(** When the counting check passes on a table keyed by [id], every
    requested id has its product in the workspace. *)
Lemma count_check_all_valid (rows : list Product) (productIds : list string)
      (workspaceId : string) :
  NoDup (map prod_id rows) ->
  length (Prisma.findMany (whereProductIn productIds workspaceId) rows)
  = length productIds ->
  forall i, In i productIds ->
            exists p, In p rows /\ prod_id p = i /\ prod_workspaceId p = workspaceId.
Proof.
  intros Hkey Hlen i Hi. unfold Prisma.findMany in Hlen.
  set (found := filter (whereProductIn productIds workspaceId) rows) in *.
  assert (Hincl : incl (map prod_id found) productIds).
  { intros j Hj. apply in_map_iff in Hj. destruct Hj as [p [<- Hp]].
    apply filter_In in Hp. destruct Hp as [_ Hwhere].
    unfold whereProductIn in Hwhere. apply andb_true_iff in Hwhere.
    destruct Hwhere as [Hreq _]. apply existsb_exists in Hreq.
    destruct Hreq as [k [Hk Hkp]]. apply String.eqb_eq in Hkp. subst k. exact Hk. }
  assert (Hback : incl productIds (map prod_id found)).
  { apply NoDup_length_incl.
    - apply NoDup_map_filter. exact Hkey.
    - rewrite length_map, Hlen. apply Nat.le_refl.
    - exact Hincl. }
  specialize (Hback i Hi). apply in_map_iff in Hback. destruct Hback as [p [Hid Hp]].
  apply filter_In in Hp. destruct Hp as [Hin Hwhere].
  unfold whereProductIn in Hwhere. apply andb_true_iff in Hwhere.
  destruct Hwhere as [_ Hws]. apply String.eqb_eq in Hws.
  exists p. auto.
Qed.

Lemma Scoped_same_tables (st st' : Store) :
  posts st' = posts st -> products st' = products st ->
  postProducts st' = postProducts st -> affiliateLinks st' = affiliateLinks st ->
  Scoped st -> Scoped st'.
Proof.
  intros Hposts Hprods Htags Hlinks [H1 H2 H3 H4 H5].
  constructor; rewrite ?Hposts, ?Hprods, ?Htags, ?Hlinks; assumption.
Qed.

Lemma map_keeping_ids (f : Post -> Post) (rows : list Post) :
  (forall p, post_id (f p) = post_id p) ->
  map post_id (map f rows) = map post_id rows.
Proof.
  intros Hid. rewrite map_map. apply map_ext. exact Hid.
Qed.

(** Rewriting posts without touching their id and workspace keeps the
    store scoped, whatever the new tags of one post are, as long as
    they name products of its workspace. *)
Lemma Scoped_rewrite (st : Store) (f : Post -> Post) (tags : list PostProduct) :
  (forall p, post_id (f p) = post_id p /\ post_workspaceId (f p) = post_workspaceId p) ->
  (forall pp, In pp tags ->
              In pp (postProducts st)
              \/ exists post p,
                   In post (posts st) /\ post_id post = pp_postId pp
                   /\ In p (products st) /\ prod_id p = pp_productId pp
                   /\ prod_workspaceId p = post_workspaceId post) ->
  Scoped st ->
  Scoped (with_postProducts (with_posts st (map f (posts st))) tags).
Proof.
  intros Hf Htags [Hpk Hqk Htp Hts Hls].
  constructor; simpl.
  - exact Hpk.
  - rewrite map_keeping_ids; [exact Hqk|]. intros p. apply Hf.
  - intros pp Hpp. destruct (Htags pp Hpp) as [Hold|[post [p [Hpost [Hid _]]]]].
    + destruct (Htp pp Hold) as [post [Hpost Hid]].
      exists (f post). split; [apply in_map; exact Hpost|].
      rewrite (proj1 (Hf post)). exact Hid.
    + exists (f post). split; [apply in_map; exact Hpost|].
      rewrite (proj1 (Hf post)). exact Hid.
  - intros pp post' prod Hpp Hpost' Hprod Hid Hpid.
    apply in_map_iff in Hpost'. destruct Hpost' as [post [<- Hpost]].
    destruct (Hf post) as [Hfid Hfws]. rewrite Hfid in Hid. rewrite Hfws.
    destruct (Htags pp Hpp) as [Hold|[post0 [p [Hpost0 [Hid0 [Hp [Hpid0 Hws0]]]]]]].
    + exact (Hts pp post prod Hold Hpost Hprod Hid Hpid).
    + assert (post0 = post)
        by (apply (key_unique post_id (posts st)); auto; congruence).
      assert (p = prod)
        by (apply (key_unique prod_id (products st)); auto; congruence).
      subst. exact Hws0.
  - exact Hls.
Qed.

Lemma Scoped_rewritten (st st' : Store) (f : Post -> Post) :
  (forall p, post_id (f p) = post_id p /\ post_workspaceId (f p) = post_workspaceId p) ->
  posts st' = map f (posts st) ->
  products st' = products st ->
  affiliateLinks st' = affiliateLinks st ->
  (forall pp, In pp (postProducts st') ->
              In pp (postProducts st)
              \/ exists post p,
                   In post (posts st) /\ post_id post = pp_postId pp
                   /\ In p (products st) /\ prod_id p = pp_productId pp
                   /\ prod_workspaceId p = post_workspaceId post) ->
  Scoped st -> Scoped st'.
Proof.
  intros Hf Hposts Hprods Hlinks Htags Hsc.
  apply (Scoped_same_tables
           (with_postProducts (with_posts st (map f (posts st))) (postProducts st')));
    simpl; auto.
  apply Scoped_rewrite; assumption.
Qed.

(** Storing one post of a fresh id, tagged with products of its
    workspace, keeps the store scoped. *)
Lemma Scoped_appended (st st' : Store) (post : Post) (productIds : list string) :
  (forall p, In p (posts st) -> post_id p <> post_id post) ->
  posts st' = (posts st ++ [post])%list ->
  products st' = products st ->
  affiliateLinks st' = affiliateLinks st ->
  postProducts st'
  = (postProducts st
     ++ map (fun productId => mkPostProduct (post_id post) productId None) productIds)%list ->
  (forall i, In i productIds ->
             exists p, In p (products st) /\ prod_id p = i
                       /\ prod_workspaceId p = post_workspaceId post) ->
  Scoped st -> Scoped st'.
Proof.
  intros Hfresh Hposts Hprods Hlinks Htags Hvalid [Hpk Hqk Htp Hts Hls].
  constructor; rewrite ?Hposts, ?Hprods, ?Htags, ?Hlinks.
  - exact Hpk.
  - rewrite map_app. simpl.
    apply NoDup_rev in Hqk. rewrite <- (rev_involutive (map post_id (posts st) ++ _)).
    apply NoDup_rev. rewrite rev_app_distr. simpl. constructor; [|exact Hqk].
    intros Hin. apply in_rev in Hin. apply in_map_iff in Hin.
    destruct Hin as [p [Hid Hp]]. exact (Hfresh p Hp Hid).
  - intros pp Hpp. apply in_app_or in Hpp. destruct Hpp as [Hold|Hnew].
    + destruct (Htp pp Hold) as [q [Hq Hid]].
      exists q. split; [apply in_or_app; left; exact Hq|exact Hid].
    + apply in_map_iff in Hnew. destruct Hnew as [i [<- _]].
      exists post. split; [apply in_or_app; right; left; reflexivity|reflexivity].
  - intros pp q prod Hpp Hq Hprod Hid Hpid.
    apply in_app_or in Hpp. apply in_app_or in Hq.
    destruct Hpp as [Hold|Hnew], Hq as [Hq|[<-|[]]].
    + exact (Hts pp q prod Hold Hq Hprod Hid Hpid).
    + exfalso. destruct (Htp pp Hold) as [q [Hq Hqid]].
      apply (Hfresh q Hq). congruence.
    + exfalso. apply in_map_iff in Hnew. destruct Hnew as [i [<- _]].
      exact (Hfresh q Hq Hid).
    + apply in_map_iff in Hnew. destruct Hnew as [i [<- Hi]]. simpl in Hpid.
      destruct (Hvalid i Hi) as [p [Hp [Hpi Hpws]]].
      assert (p = prod)
        by (apply (key_unique prod_id (products st)); auto; congruence).
      subst. exact Hpws.
  - exact Hls.
Qed.

Lemma POST_scoped (st : Store) (session : Session) (workspaceId : string)
      (body : Result PostData) (rnd newId : string) (now : Z) :
  Scoped st -> Scoped (snd (PostsRoute.POST st session workspaceId body rnd newId now)).
Proof.
  intros Hsc. unfold PostsRoute.POST.
  destruct session as [user|]; [|exact Hsc].
  destruct (PostsRoute.verifyWorkspaceAccess st workspaceId (user_id user)) as [e|uw];
    [exact Hsc|].
  destruct body as [e|postData]; [exact Hsc|].
  cbn -[PostsRoute.chooseSlug PostsRoute.newPost].
  unfold Prisma.transaction, PostsRoute.createInTransaction, Prisma.create.
  set (post := PostsRoute.newPost newId workspaceId _ now postData).
  destruct (existsb (postConflicts post) (posts st)) eqn:Hconflict; [exact Hsc|].
  assert (Hfresh : forall p, In p (posts st) -> post_id p <> post_id post).
  { intros p Hp Hid.
    assert (Hex : existsb (postConflicts post) (posts st) = true).
    { apply existsb_exists. exists p. split; [exact Hp|].
      unfold postConflicts. rewrite Hid, String.eqb_refl. reflexivity. }
    rewrite Hex in Hconflict. discriminate. }
  cbn -[post whereProductIn Datatypes.length].
  destruct (pd_productIds postData) as [[|i ids]|];
    cbn -[post whereProductIn Datatypes.length].
  - apply (Scoped_appended st _ post []); simpl; auto.
    + rewrite app_nil_r. reflexivity.
    + intros i [].
  - match goal with
    | |- context [negb (?x =? ?y)] => destruct (x =? y) eqn:Hcount
    end; cbn -[post whereProductIn]; [|exact Hsc].
    apply Nat.eqb_eq in Hcount.
    apply (Scoped_appended st _ post (i :: ids)); auto.
    exact (count_check_all_valid (products st) (i :: ids) workspaceId
                                 (scoped_product_key st Hsc) Hcount).
  - apply (Scoped_appended st _ post []); simpl; auto.
    + rewrite app_nil_r. reflexivity.
    + intros i [].
Qed.

Lemma PUT_scoped (st : Store) (session : Session) (workspaceId postId : string)
      (body : Result PostRoute.UpdateData) (rnd : string) (now : Z) :
  Scoped st -> Scoped (snd (PostRoute.PUT st session workspaceId postId body rnd now)).
Proof.
  intros Hsc. unfold PostRoute.PUT.
  destruct session as [user|]; [|exact Hsc].
  destruct (PostRoute.verifyPostAccess st workspaceId postId (user_id user))
    as [e|[uw post]] eqn:Hverify; [exact Hsc|].
  apply verifyPostAccess_ok in Hverify. destruct Hverify as [Hpost [Hid [Hws _]]].
  destruct body as [e|postData]; [exact Hsc|].
  cbn -[PostRoute.disambiguateSlug PostRoute.regenerateSlug PostRoute.publishedAtOf
        PostRoute.applyUpdate].
  unfold Prisma.transaction, PostRoute.updateInTransaction, PostRoute.updatePost,
    Prisma.update.
  set (f := PostRoute.applyUpdate postData _ _).
  set (g := fun p : Post => if (post_id p =? postId)%string then f p else p).
  assert (Hg : forall p, post_id (g p) = post_id p
                         /\ post_workspaceId (g p) = post_workspaceId p).
  { intros p. unfold g. destruct (post_id p =? postId)%string; split; reflexivity. }
  match goal with
  | |- context [if ?b then throw _ else _] => destruct b
  end; [exact Hsc|].
  destruct (existsb _ (posts st)); [|exact Hsc].
  cbn -[f g whereProductIn Datatypes.length].
  destruct (PostRoute.ud_productIds postData) as [[|i ids]|];
    cbn -[f g whereProductIn Datatypes.length].
  - apply (Scoped_rewritten st _ g Hg); simpl; auto.
    intros pp Hpp. left. unfold Prisma.deleteMany in Hpp.
    apply filter_In in Hpp. tauto.
  - match goal with
    | |- context [negb (?x =? ?y)] => destruct (x =? y) eqn:Hcount
    end; cbn -[f g whereProductIn]; [|exact Hsc].
    apply Nat.eqb_eq in Hcount.
    apply (Scoped_rewritten st _ g Hg); simpl; auto.
    intros pp Hpp. apply in_app_or in Hpp. destruct Hpp as [Hold|Hnew].
    + left. unfold Prisma.deleteMany in Hold. apply filter_In in Hold. tauto.
    + right.
      change (In pp (map (fun productId => mkPostProduct postId productId None)
                         (i :: ids))) in Hnew.
      apply in_map_iff in Hnew. destruct Hnew as [j [<- Hj]].
      destruct (count_check_all_valid (products st) (i :: ids) workspaceId
                                      (scoped_product_key st Hsc) Hcount j Hj)
        as [p [Hp [Hpid Hpws]]].
      exists post, p. simpl. repeat split; auto. congruence.
  - apply (Scoped_rewritten st _ g Hg); simpl; auto.
Qed.

Lemma DELETE_scoped (st : Store) (session : Session) (workspaceId postId : string)
      (now : Z) :
  Scoped st -> Scoped (snd (PostRoute.DELETE st session workspaceId postId now)).
Proof.
  intros Hsc.
  destruct (Nat.eq_dec
              (status (fst (PostRoute.DELETE st session workspaceId postId now))) 200)
    as [Hok|Hfail].
  - destruct (DELETE_ok _ _ _ _ _ Hok) as [user [uw [post [_ [_ ->]]]]].
    apply (Scoped_rewritten st _
             (fun p => if (post_id p =? postId)%string
                       then PostRoute.markDeleted now p else p));
      simpl; auto.
    intros p. destruct (post_id p =? postId)%string; split; reflexivity.
  - rewrite (DELETE_failed _ _ _ _ _ Hfail). exact Hsc.
Qed.

(** ** The sample store is scoped *)

Lemma sample_store_scoped : Scoped Sample.store.
Proof.
  constructor; simpl.
  - repeat constructor; simpl; intuition discriminate.
  - repeat constructor; simpl; intuition discriminate.
  - intros pp [<-|[]]. exists Sample.post1. simpl. auto.
  - intros pp post prod [<-|[]] [<-|[<-|[<-|[]]]] [<-|[<-|[]]] Hid Hpid;
      try discriminate; reflexivity.
  - intros l prod [<-|[<-|[]]] [<-|[<-|[]]] Hid; try discriminate; reflexivity.
Qed.


Lemma category_DELETE_posts (st : Store) (session : Session)
      (workspaceId categoryId : string) :
  posts (snd (CategoryRoute.DELETE st session workspaceId categoryId)) = posts st.
Proof.
  unfold CategoryRoute.DELETE.
  destruct session as [user|]; [|reflexivity].
  destruct (CategoryRoute.verifyCategoryAccess st workspaceId categoryId (user_id user));
    [reflexivity|].
  cbv zeta. destruct (0 <? _); [reflexivity|].
  destruct (Prisma.delete _ (categories st)); reflexivity.
Qed.

Lemma workspaces_POST_posts (st : Store) (session : Session)
      (body : Result WorkspacesRoute.WorkspaceData) (rnd newId : string) (now : Z) :
  posts (snd (WorkspacesRoute.POST st session body rnd newId now)) = posts st.
Proof.
  unfold WorkspacesRoute.POST.
  destruct session as [user|]; [|reflexivity].
  destruct body as [e|data_]; [reflexivity|].
  cbn -[WorkspacesRoute.chooseSlug].
  destruct (Prisma.create _ _ (workspaces st)); reflexivity.
Qed.

(** The handlers of the other resources do not write posts. *)
Lemma other_writers_keep_posts (st : Store) (session : Session) (workspaceId : string) :
  (forall body now,
      posts (snd (WorkspaceItem.PUT st session workspaceId body now)) = posts st)
  /\ (forall now, posts (snd (WorkspaceItem.DELETE st session workspaceId now)) = posts st)
  /\ (forall body newId,
         posts (snd (CategoryWrite.POST st session workspaceId body newId)) = posts st)
  /\ (forall categoryId body,
         posts (snd (CategoryWrite.PUT st session workspaceId categoryId body))
         = posts st)
  /\ (forall body newId now,
         posts (snd (AffiliateLinkCreate.POST st session workspaceId body newId now))
         = posts st)
  /\ (forall linkId body mock,
         posts (snd (LinkRoute.PUT st session workspaceId linkId body mock)) = posts st)
  /\ (forall linkId,
         posts (snd (LinkRoute.DELETE st session workspaceId linkId)) = posts st)
  /\ (forall linkId,
         posts (snd (SetActiveRoute.POST st session workspaceId linkId)) = posts st)
  /\ (forall linkId,
         posts (snd (SetActiveRoute.DELETE st session workspaceId linkId)) = posts st)
  /\ (forall body newId,
         posts (snd (ProductsRoute.POST st session workspaceId body newId)) = posts st)
  /\ (forall productId body,
         posts (snd (ProductItem.PUT st session workspaceId productId body)) = posts st)
  /\ (forall productId,
         posts (snd (ProductRoute.DELETE ProductItem.deleteProduct st session
                                         workspaceId productId)) = posts st).
Proof.
  destruct session as [user|]; [|repeat split; reflexivity].
  split; [|split; [|split; [|split; [|split; [|split; [|split; [|split; [|split;
    [|split; [|split]]]]]]]]]].
  - intros body now. unfold WorkspaceItem.PUT.
    destruct (let* _ := WorkspaceRoute.verifyWorkspaceAccess st workspaceId
                          (user_id user) ADMIN in body) as [e|updateData];
      [reflexivity|].
    destruct (WorkspaceItem.checkSlug st workspaceId _); [reflexivity|].
    destruct (WorkspaceItem.updateWorkspace _ _ _); reflexivity.
  - intros now. unfold WorkspaceItem.DELETE.
    destruct (let* _ := WorkspaceRoute.verifyWorkspaceAccess st workspaceId
                          (user_id user) OWNER in _); reflexivity.
  - intros body newId. unfold CategoryWrite.POST.
    destruct (let* _ := CategoryWrite.verifyWorkspaceAccess st workspaceId (user_id user)
              in body) as [e|validatedData]; [reflexivity|].
    destruct (Prisma.findFirst _ (categories st)); [reflexivity|].
    destruct (Prisma.create _ _ (categories st)); reflexivity.
  - intros categoryId body. unfold CategoryWrite.PUT.
    destruct (let* _ := CategoryRoute.verifyCategoryAccess st workspaceId categoryId
                                                           (user_id user)
              in body) as [e|validatedData]; [reflexivity|].
    cbv zeta.
    match goal with
    | |- context [match ?taken with Some _ => (errorResponse 400 _, st) | None => _ end] =>
        destruct taken; [reflexivity|]
    end.
    destruct (CategoryWrite.updateCategory _ _ (categories st)); reflexivity.
  - intros body newId now. unfold AffiliateLinkCreate.POST.
    destruct (let* _ := AffiliateLinksRoute.verifyWorkspaceAccess st workspaceId
                          (user_id user) in body) as [e|validatedData]; [reflexivity|].
    destruct (Prisma.findFirst _ (products st)); [|reflexivity].
    destruct (Prisma.findFirst _ (affiliateLinks st)); [reflexivity|].
    destruct (Prisma.create _ _ (affiliateLinks st)); reflexivity.
  - intros linkId body mock. unfold LinkRoute.PUT.
    destruct (let* _ := LinkRoute.verifyLinkAccess st workspaceId linkId (user_id user)
              in body) as [e|validatedData]; [reflexivity|].
    cbv zeta.
    match goal with
    | |- context [match ?taken with Some _ => (errorResponse 400 _, st) | None => _ end] =>
        destruct taken; [reflexivity|]
    end.
    destruct (LinkRoute.updateLink st linkId validatedData); reflexivity.
  - intros linkId. unfold LinkRoute.DELETE.
    destruct (LinkRoute.verifyLinkAccess st workspaceId linkId (user_id user));
      [reflexivity|].
    cbn [bind]. unfold LinkRoute.deleteLink.
    destruct (Prisma.delete _ (affiliateLinks st)); reflexivity.
  - intros linkId. unfold SetActiveRoute.POST.
    destruct (SetActiveRoute.verifyLinkAccess st workspaceId linkId (user_id user))
      as [e|[m [link product]]]; [reflexivity|].
    destruct (Prisma.update _ _ (products st)); reflexivity.
  - intros linkId. unfold SetActiveRoute.DELETE.
    destruct (SetActiveRoute.verifyLinkAccess st workspaceId linkId (user_id user))
      as [e|[m [link product]]]; [reflexivity|].
    destruct product as [product|]; [|reflexivity].
    destruct (prod_activeAffiliateLinkId product) as [active|]; [|reflexivity].
    destruct (active =? linkId)%string; [|reflexivity].
    destruct (Prisma.update _ _ (products st)); reflexivity.
  - intros body newId. unfold ProductsRoute.POST.
    destruct (let* _ := ProductsRoute.verifyWorkspaceAccess st workspaceId (user_id user)
              in body) as [e|validatedData]; [reflexivity|].
    cbv zeta. destruct (ProductsRoute.createProduct st _); reflexivity.
  - intros productId body. unfold ProductItem.PUT.
    destruct (let* _ := ProductRoute.verifyProductAccess st workspaceId productId
                                                         (user_id user)
              in body) as [e|validatedData]; [reflexivity|].
    destruct (ProductItem.updateProduct st productId validatedData); reflexivity.
  - intros productId. unfold ProductRoute.DELETE.
    destruct (ProductRoute.verifyProductAccess st workspaceId productId (user_id user));
      [reflexivity|].
    cbv zeta. destruct (0 <? _); [reflexivity|].
    unfold ProductItem.deleteProduct.
    destruct (Prisma.delete _ (products st)); reflexivity.
Qed.

(** No request clears or moves a delete timestamp. *)
Lemma serve_deletedAs (postId : string) (t : Z) (st : Store) (r : Request) :
  deletedAs postId t (posts st) -> deletedAs postId t (posts (serve st r)).
Proof.
  intros [[witness [Hw Hwid]] Hall].
  destruct r; simpl; try (split; [exists witness; auto|exact Hall]);
    try (destruct (other_writers_keep_posts st session workspaceId)
           as [K1 [K2 [K3 [K4 [K5 [K6 [K7 [K8 [K9 [K10 [K11 K12]]]]]]]]]]];
         rewrite ?K1, ?K2, ?K3, ?K4, ?K5, ?K6, ?K7, ?K8, ?K9, ?K10, ?K11, ?K12;
         split; [exists witness; auto|exact Hall]; fail).
  - (* CreatePost *)
    destruct (POST_posts st session workspaceId body rnd newId now)
      as [->|[post [Hid [Hfresh ->]]]].
    + split; [exists witness; auto|exact Hall].
    + split.
      * exists witness. split; [apply in_or_app; left; exact Hw|exact Hwid].
      * intros p Hp Hpid. apply in_app_or in Hp. destruct Hp as [Hp|[<-|[]]].
        -- apply Hall; assumption.
        -- exfalso. apply (Hfresh witness Hw). congruence.
  - (* UpdatePost *)
    destruct (PUT_posts st session workspaceId postId0 body rnd now)
      as [->|[f [Hf ->]]].
    + split; [exists witness; auto|exact Hall].
    + split.
      * exists (if (post_id witness =? postId0)%string then f witness else witness).
        split.
        -- apply in_map_iff. exists witness. auto.
        -- destruct (post_id witness =? postId0)%string; [|exact Hwid].
           rewrite (proj1 (Hf witness)). exact Hwid.
      * intros p Hp Hpid. apply in_map_iff in Hp. destruct Hp as [q [<- Hq]].
        destruct (post_id q =? postId0)%string.
        -- destruct (Hf q) as [Hi [_ Hd]]. rewrite Hd. apply Hall; congruence.
        -- apply Hall; assumption.
  - (* DeletePost *)
    destruct (Nat.eq_dec
                (status (fst (PostRoute.DELETE st session workspaceId postId0 now))) 200)
      as [Hok|Hfail].
    + destruct (DELETE_ok _ _ _ _ _ Hok) as [user [uw [post [_ [Hverify ->]]]]].
      apply verifyPostAccess_ok in Hverify.
      destruct Hverify as [Hin [Hid [_ Hlive]]].
      assert (Hne : postId0 <> postId).
      { intros ->. rewrite (Hall post Hin Hid) in Hlive. discriminate. }
      simpl. split.
      * exists witness. split; [|exact Hwid].
        apply in_map_iff. exists witness. split; [|exact Hw].
        destruct (post_id witness =? postId0)%string eqn:Heq; [|reflexivity].
        apply String.eqb_eq in Heq. congruence.
      * intros p Hp Hpid. apply in_map_iff in Hp. destruct Hp as [q [<- Hq]].
        destruct (post_id q =? postId0)%string eqn:Heq.
        -- apply String.eqb_eq in Heq. simpl in Hpid. congruence.
        -- apply Hall; assumption.
    + rewrite (DELETE_failed _ _ _ _ _ Hfail).
      split; [exists witness; auto|exact Hall].
  - (* DeleteCategory *)
    rewrite category_DELETE_posts. split; [exists witness; auto|exact Hall].
  - (* CreateWorkspace *)
    rewrite workspaces_POST_posts. split; [exists witness; auto|exact Hall].
Qed.

Lemma serveAll_deletedAs (postId : string) (t : Z) (requests : list Request) :
  forall st, deletedAs postId t (posts st) ->
             deletedAs postId t (posts (serveAll st requests)).
Proof.
  unfold serveAll.
  induction requests as [|r requests IH]; intros st H; simpl.
  - exact H.
  - apply IH. apply serve_deletedAs. exact H.
Qed.

(** Once the rows of [postId] carry a delete timestamp, the access
    check of every post request on [postId] throws. *)
Lemma verifyPostAccess_deleted (postId : string) (t : Z) (st : Store)
      (workspaceId userId : string) :
  deletedAs postId t (posts st) ->
  exists e, PostRoute.verifyPostAccess st workspaceId postId userId = throw e.
Proof.
  intros [_ Hall]. unfold PostRoute.verifyPostAccess.
  destruct (Prisma.findFirst _ (userWorkspaces st)); [|eexists; reflexivity].
  destruct (Prisma.findFirst (PostRoute.wherePost workspaceId postId) (posts st))
    as [p|] eqn:Hfind; [|eexists; reflexivity].
  apply findFirst_some in Hfind. destruct Hfind as [Hin Hwhere].
  apply wherePost_iff in Hwhere. destruct Hwhere as [Hid [_ Hlive]].
  rewrite (Hall p Hin Hid) in Hlive. discriminate.
Qed.

Lemma handleError_not_200 {A} (e : Thrown) :
  status (@PostRoute.handleError A e) <> 200
  /\ success (@PostRoute.handleError A e) = false
  /\ data (@PostRoute.handleError A e) = None.
Proof.
  destruct e as [m|]; cbn; [destruct (Js.includes m "Access denied")|];
    cbn; repeat split; discriminate.
Qed.

(** ** Absent posts *)

(** The [catch] blocks of the post handlers look for "Access denied",
    with a capital A, which the message of the missing-post error does
    not contain. *)
Lemma DELETE_absent_post (st : Store) (user : SessionUser)
      (workspaceId postId : string) (now : Z) :
  (exists m, In m (userWorkspaces st)
             /\ uw_workspaceId m = workspaceId /\ uw_userId m = user_id user) ->
  (forall p, In p (posts st) ->
             ~ (post_id p = postId /\ post_workspaceId p = workspaceId
                /\ post_deletedAt p = None)) ->
  PostRoute.DELETE st (Some user) workspaceId postId now = (internalServerError, st).
Proof.
  intros Hmember Habsent.
  unfold PostRoute.DELETE.
  rewrite (verifyPostAccess_absent st workspaceId postId (user_id user) Hmember Habsent).
  reflexivity.
Qed.

(** C7. What the post handlers answer to a member of the workspace when
    no live post of that id is in the workspace (the id is unknown, the
    post is soft-deleted, or it belongs to another workspace): the
    access check throws "Post not found or access denied", which the
    [catch] blocks do not recognise, so GET, PUT and DELETE all answer
    500 and leave the store unchanged; none of them answers 404. *)
Theorem absent_post_is_answered_500
        (st : Store) (user : SessionUser) (workspaceId postId : string)
        (Hmember : exists m, In m (userWorkspaces st)
                             /\ uw_workspaceId m = workspaceId
                             /\ uw_userId m = user_id user)
        (Habsent : forall p, In p (posts st) ->
                             ~ (post_id p = postId /\ post_workspaceId p = workspaceId
                                /\ post_deletedAt p = None)) :
  PostRoute.GET st (Some user) workspaceId postId = internalServerError
  /\ (forall body rnd now,
         PostRoute.PUT st (Some user) workspaceId postId body rnd now
         = (internalServerError, st))
  /\ (forall now,
         PostRoute.DELETE st (Some user) workspaceId postId now
         = (internalServerError, st)).
Proof.
  pose proof (verifyPostAccess_absent st workspaceId postId (user_id user)
                                      Hmember Habsent) as Hthrow.
  unfold PostRoute.GET, PostRoute.PUT, PostRoute.DELETE.
  rewrite Hthrow. repeat split.
Qed.

(** On the sample store alice, a member of [wsA], asks [wsA] for the
    post [p2] of [wsB], and for an id that no post has. *)
Lemma absent_post_is_answered_500_witness :
  status (PostRoute.GET Sample.store (Some Sample.alice) "wsA" "p2") = 500
  /\ status (fst (PostRoute.DELETE Sample.store (Some Sample.alice) "wsA" "nope" 7)) = 500.
Proof.
  assert (Hmember : exists m, In m (userWorkspaces Sample.store)
                              /\ uw_workspaceId m = "wsA"
                              /\ uw_userId m = user_id Sample.alice).
  { exists Sample.aliceInA. simpl. auto. }
  split.
  - rewrite (proj1 (absent_post_is_answered_500
                      Sample.store Sample.alice "wsA" "p2" Hmember
                      ltac:(simpl; intros p [<-|[<-|[<-|[]]]] [Hid [Hws _]];
                            discriminate))).
    reflexivity.
  - rewrite (proj2 (proj2 (absent_post_is_answered_500
                      Sample.store Sample.alice "wsA" "nope" Hmember
                      ltac:(simpl; intros p [<-|[<-|[<-|[]]]] [Hid _];
                            discriminate))) 7%Z).
    reflexivity.
Defined.

(** ** Soft deletion *)






(** The read of a product is outside the exclusion: the tags of the
    product come with their posts whatever the delete timestamp, the
    [include] of the posts having no [where].  After a successful soft
    delete of a post, every successful read of a product the post is
    tagged with returns the post, marked as deleted. *)
Lemma product_read_returns_deleted_post
      (st : Store) (session : Session) (workspaceId postId : string) (now : Z) :
  status (fst (PostRoute.DELETE st session workspaceId postId now)) = 200 ->
  let st1 := snd (PostRoute.DELETE st session workspaceId postId now) in
  forall reader scope productId detail pp,
    data (ProductItem.GET st1 reader scope productId) = Some detail ->
    In pp (postProducts st) -> pp_postId pp = postId -> pp_productId pp = productId ->
    exists p, In (pp, p) (ProductItem.pdet_posts detail)
              /\ post_id p = postId /\ post_deletedAt p = Some now.
Proof.
  intros Hok st1 reader scope productId detail pp Hdata Hpp Hpost Hprod.
  pose proof (deletedAs_after_DELETE _ _ _ _ _ Hok) as [[p [Hp Hid]] Hall].
  fold st1 in Hp, Hall.
  assert (Htags : postProducts st1 = postProducts st).
  { subst st1. destruct (DELETE_ok _ _ _ _ _ Hok) as [user [uw [post [_ [_ ->]]]]].
    reflexivity. }
  exists p. split; [|split; [exact Hid|exact (Hall p Hp Hid)]].
  revert Hdata. unfold ProductItem.GET.
  destruct reader as [r|]; [|no_data].
  destruct (ProductRoute.verifyProductAccess st1 scope productId (user_id r)) as [e|ok].
  { destruct e as [m|]; no_data. }
  destruct (Prisma.findFirst _ (products st1)) as [product|] eqn:Hproduct; [|no_data].
  cbn [data]. intros Hd. injection Hd as <-.
  apply findFirst_some in Hproduct. destruct Hproduct as [_ Hmatch].
  apply andb_true_iff in Hmatch. destruct Hmatch as [Hpid _].
  apply String.eqb_eq in Hpid.
  cbn [ProductItem.detailOf ProductItem.pdet_posts].
  unfold ProductItem.postsOfProduct, Prisma.findMany.
  apply in_flat_map. exists pp. split.
  - apply filter_In. rewrite Htags. split; [exact Hpp|].
    apply String.eqb_eq. congruence.
  - apply in_map. apply filter_In. split; [exact Hp|].
    apply String.eqb_eq. congruence.
Qed.

(** On the sample store, once alice has deleted [p1], bob's read of the
    lamp of [wsA] returns [p1]. *)
Lemma product_read_returns_deleted_post_example :
  let st1 := snd (PostRoute.DELETE Sample.store (Some Sample.alice) "wsA" "p1" 500) in
  option_map (fun d => map (fun x => (post_id (snd x), post_deletedAt (snd x)))
                           (ProductItem.pdet_posts d))
             (data (ProductItem.GET st1 (Some Sample.bob) "wsA" "prodA"))
  = Some [("p1", Some 500%Z)].
Proof. reflexivity. Qed.

(** C10. After a successful soft delete, a second DELETE of the same
    post by the same caller answers the error status 500 and writes
    nothing; no later DELETE of that post, by any caller and through
    any workspace, answers 200; and after any sequence of later
    requests the rows of the post still carry the timestamp of the
    first deletion. *)
Theorem soft_delete_is_not_idempotent
        (st : Store) (session : Session) (workspaceId postId : string) (now : Z)
        (Hdeleted : status (fst (PostRoute.DELETE st session workspaceId postId now)) = 200) :
  let st1 := snd (PostRoute.DELETE st session workspaceId postId now) in
  (forall again,
      PostRoute.DELETE st1 session workspaceId postId again = (internalServerError, st1))
  /\ (forall requests caller scope again,
         let st2 := serveAll st1 requests in
         status (fst (PostRoute.DELETE st2 caller scope postId again)) <> 200
         /\ success (fst (PostRoute.DELETE st2 caller scope postId again)) = false
         /\ snd (PostRoute.DELETE st2 caller scope postId again) = st2)
  /\ (forall requests p,
         In p (posts (serveAll st1 requests)) -> post_id p = postId ->
         post_deletedAt p = Some now).
Proof.
  intros st1.
  pose proof (deletedAs_after_DELETE _ _ _ _ _ Hdeleted) as Hdel. fold st1 in Hdel.
  split; [|split].
  - intros again.
    destruct (DELETE_ok _ _ _ _ _ Hdeleted) as [user [uw [post [-> [Hverify Hst1]]]]].
    assert (Hmember : exists m, In m (userWorkspaces st1)
                                /\ uw_workspaceId m = workspaceId
                                /\ uw_userId m = user_id user).
    { unfold st1. rewrite Hst1. simpl.
      unfold PostRoute.verifyPostAccess in Hverify.
      destruct (Prisma.findFirst (PostRoute.whereMembership workspaceId (user_id user))
                                 (userWorkspaces st)) as [m|] eqn:Hm; [|discriminate].
      apply findFirst_some in Hm. destruct Hm as [Hin Hwhere].
      unfold PostRoute.whereMembership in Hwhere.
      apply andb_true_iff in Hwhere. rewrite !String.eqb_eq in Hwhere.
      exists m. tauto. }
    apply DELETE_absent_post; [exact Hmember|].
    intros p Hp [Hid [_ Hlive]].
    rewrite (proj2 Hdel p Hp Hid) in Hlive. discriminate.
  - intros requests caller scope again st2.
    assert (Hdel2 : deletedAs postId now (posts st2))
      by (apply serveAll_deletedAs; exact Hdel).
    unfold PostRoute.DELETE.
    destruct caller as [user|]; [|cbn; repeat split; discriminate].
    destruct (verifyPostAccess_deleted postId now st2 scope (user_id user) Hdel2)
      as [e ->].
    cbn. destruct (@handleError_not_200 unit e) as [H1 [H2 _]]. auto.
  - intros requests p Hp Hid.
    exact (proj2 (serveAll_deletedAs postId now requests st1 Hdel) p Hp Hid).
Qed.

(** On the sample store alice deletes [p1] at time 500 and tries again
    at time 600. *)
Lemma soft_delete_is_not_idempotent_witness :
  let st1 := snd (PostRoute.DELETE Sample.store (Some Sample.alice) "wsA" "p1" 500) in
  status (fst (PostRoute.DELETE st1 (Some Sample.alice) "wsA" "p1" 600)) = 500
  /\ map post_deletedAt
         (posts (snd (PostRoute.DELETE st1 (Some Sample.alice) "wsA" "p1" 600)))
     = [Some 500%Z; None; None].
Proof.
  intros st1. subst st1.
  rewrite (proj1 (soft_delete_is_not_idempotent
                    Sample.store (Some Sample.alice) "wsA" "p1" 500 eq_refl) 600%Z).
  split; reflexivity.
Defined.

(** ** Replacing the products of a post *)

(** The counting check of the handlers: when the ids of the products
    are pairwise distinct and one requested id has no product in the
    workspace, fewer rows are found than ids were requested. *)
Lemma foreign_id_fails_count (rows : list Product) (productIds : list string)
      (workspaceId bad : string) :
  NoDup (map prod_id rows) ->
  In bad productIds ->
  (forall p, In p rows -> ~ (prod_id p = bad /\ prod_workspaceId p = workspaceId)) ->
  length (Prisma.findMany (whereProductIn productIds workspaceId) rows)
  < length productIds.
Proof.
  intros Hkey Hbad Hforeign. unfold Prisma.findMany.
  set (found := filter (whereProductIn productIds workspaceId) rows).
  rewrite <- (length_map prod_id found).
  apply Nat.le_lt_trans with (length (remove string_dec bad productIds)).
  - apply NoDup_incl_length.
    + apply NoDup_map_filter. exact Hkey.
    + intros i Hi. apply in_map_iff in Hi. destruct Hi as [p [<- Hp]].
      apply filter_In in Hp. destruct Hp as [Hin Hwhere].
      unfold whereProductIn in Hwhere. apply andb_true_iff in Hwhere.
      destruct Hwhere as [Hreq Hws].
      apply existsb_exists in Hreq. destruct Hreq as [j [Hj Hjp]].
      apply String.eqb_eq in Hjp, Hws. subst j.
      apply in_in_remove; [|exact Hj].
      intros Heq. exact (Hforeign p Hin (conj Heq Hws)).
  - apply remove_length_lt. exact Hbad.
Qed.

(** The transaction of an update that names a product foreign to the
    workspace throws, with a message the [catch] block maps to 500. *)
Lemma updateInTransaction_foreign
      (workspaceId postId : string) (postData : PostRoute.UpdateData)
      (slug : option string) (publishedAt : option Z) (tx : Store)
      (productIds : list string) (bad : string) :
  NoDup (map prod_id (products tx)) ->
  PostRoute.ud_productIds postData = Some productIds ->
  In bad productIds ->
  (forall p, In p (products tx) ->
             ~ (prod_id p = bad /\ prod_workspaceId p = workspaceId)) ->
  exists m,
    PostRoute.updateInTransaction workspaceId postId postData slug publishedAt tx
    = throw (JsError m)
    /\ Js.includes m "Access denied" = false.
Proof.
  intros Hkey Hsupplied Hbad Hforeign.
  unfold PostRoute.updateInTransaction, PostRoute.updatePost, Prisma.update.
  match goal with
  | |- context [if ?b then throw _ else _] => destruct b
  end; [eexists; split; reflexivity|].
  destruct (existsb _ (posts tx)); [|eexists; split; reflexivity].
  cbn -[PostRoute.applyUpdate whereProductIn]. rewrite Hsupplied.
  destruct productIds as [|i ids]; [destruct Hbad|].
  pose proof (foreign_id_fails_count (products tx) (i :: ids) workspaceId bad
                                     Hkey Hbad Hforeign) as Hlt.
  cbn -[PostRoute.applyUpdate whereProductIn length].
  match goal with
  | |- context [negb (?x =? ?y)] =>
      replace (x =? y) with false
        by (symmetry; apply Nat.eqb_neq; unfold Prisma.findMany in Hlt; lia)
  end.
  cbn. eexists; split; reflexivity.
Qed.

(** C4. A post update that supplies product ids, one of which has no
    product in the workspace of the post, is refused whoever sends it:
    the response is not a success and the store after the request is the
    store before it, so the associations of the post are the ones it
    had.  For a member of the workspace updating a live post, with a
    parsed body, the refusal comes from the transaction, which rolls
    back, and is answered 500.  Product ids are the primary key of
    their table. *)
Theorem replace_with_foreign_product_is_rejected
        (st : Store) (session : Session) (workspaceId postId : string)
        (postData : PostRoute.UpdateData) (rnd : string) (now : Z)
        (productIds : list string) (bad : string)
        (Hkey : NoDup (map prod_id (products st)))
        (Hsupplied : PostRoute.ud_productIds postData = Some productIds)
        (Hbad : In bad productIds)
        (Hforeign : forall post p,
            In post (posts st) -> post_id post = postId ->
            In p (products st) -> prod_id p = bad ->
            prod_workspaceId p <> post_workspaceId post) :
  let answer := PostRoute.PUT st session workspaceId postId (ret postData) rnd now in
  status (fst answer) <> 200
  /\ success (fst answer) = false
  /\ snd answer = st
  /\ postProducts (snd answer) = postProducts st
  /\ (forall user ok,
         session = Some user ->
         PostRoute.verifyPostAccess st workspaceId postId (user_id user) = ret ok ->
         fst answer = internalServerError).
Proof.
  intros answer.
  assert (Hcases :
            (status (fst answer) <> 200 /\ success (fst answer) = false
             /\ snd answer = st)
            /\ (forall user ok,
                   session = Some user ->
                   PostRoute.verifyPostAccess st workspaceId postId (user_id user)
                   = ret ok ->
                   fst answer = internalServerError)).
  { subst answer. unfold PostRoute.PUT.
    destruct session as [user|].
    2:{ cbn. split; [repeat split; discriminate|]. intros u ok Hu. discriminate Hu. }
    destruct (PostRoute.verifyPostAccess st workspaceId postId (user_id user))
      as [e|[uw post]] eqn:Hverify.
    { cbn. split.
      - destruct e as [m|]; cbn; [destruct (Js.includes m "Access denied")|];
          cbn; repeat split; discriminate.
      - intros u ok Hu Hok. injection Hu as <-. rewrite Hverify in Hok.
        discriminate Hok. }
    apply verifyPostAccess_ok in Hverify.
    destruct Hverify as [Hpost [Hid [Hws _]]].
    assert (Hnone : forall p, In p (products st) ->
                              ~ (prod_id p = bad /\ prod_workspaceId p = workspaceId)).
    { intros p Hp [Hpid Hpws].
      apply (Hforeign post p Hpost Hid Hp Hpid). congruence. }
    cbn -[PostRoute.disambiguateSlug PostRoute.regenerateSlug PostRoute.publishedAtOf
          PostRoute.updateInTransaction].
    unfold Prisma.transaction.
    match goal with
    | |- context [PostRoute.updateInTransaction ?w ?p ?d ?s ?t ?tx] =>
        destruct (updateInTransaction_foreign w p d s t tx productIds bad
                    Hkey Hsupplied Hbad Hnone) as [m [-> Hm]]
    end.
    cbn. rewrite Hm. cbn. split; [repeat split; discriminate|reflexivity]. }
  destruct Hcases as [[H1 [H2 H3]] H4].
  repeat split; try assumption. rewrite H3. reflexivity.
Qed.

(** On the sample store alice replaces the products of her post [p1]
    of [wsA] by [prodA], of [wsA], and [prodB], of [wsB]. *)
Lemma replace_with_foreign_product_is_rejected_witness :
  let postData :=
    PostRoute.mkUpdateData None None None None None None None None None
                           (Some ["prodA"; "prodB"]) in
  let answer :=
    PostRoute.PUT Sample.store (Some Sample.alice) "wsA" "p1" (ret postData)
                  "0.k3x9q2w7lbf" 700 in
  status (fst answer) = 500
  /\ postProducts (snd answer) = [mkPostProduct "p1" "prodA" None].
Proof.
  intros postData answer.
  assert (Hkey : NoDup (map prod_id (products Sample.store))).
  { simpl. repeat constructor; simpl; intuition discriminate. }
  assert (Hforeign : forall post p,
             In post (posts Sample.store) -> post_id post = "p1" ->
             In p (products Sample.store) -> prod_id p = "prodB" ->
             prod_workspaceId p <> post_workspaceId post).
  { simpl. intros post p [<-|[<-|[<-|[]]]] Hid [<-|[<-|[]]] Hpid; discriminate. }
  destruct (replace_with_foreign_product_is_rejected
              Sample.store (Some Sample.alice) "wsA" "p1" postData "0.k3x9q2w7lbf" 700
              ["prodA"; "prodB"] "prodB" Hkey eq_refl
              ltac:(simpl; auto) Hforeign)
    as [_ [_ [_ [Hassoc H500]]]].
  fold answer in Hassoc, H500.
  split.
  - rewrite (H500 Sample.alice (Sample.aliceInA, Sample.post1) eq_refl eq_refl).
    reflexivity.
  - rewrite Hassoc. reflexivity.
Defined.

(** ** Deleting a category *)

Lemma count_positive_iff {Row} (where_ : Row -> bool) (rows : list Row) :
  0 < Prisma.count where_ rows <-> exists r, In r rows /\ where_ r = true.
Proof.
  unfold Prisma.count. split.
  - destruct (filter where_ rows) as [|r rest] eqn:Hf; simpl; [lia|].
    intros _. exists r. apply filter_In. rewrite Hf. left. reflexivity.
  - intros [r Hr]. apply filter_In in Hr.
    destruct (filter where_ rows); [destruct Hr|simpl; lia].
Qed.

(** C5. A category-delete request on a category that [n > 0] products
    reference never succeeds and leaves the whole store, hence the
    category and the products, as it was; when the caller passes the
    access check the answer is the conflict response "Cannot delete
    category" naming [n].  Whenever the request does succeed, no product
    referenced the category and its row is gone from the table. *)
Theorem category_delete_requires_no_products
        (st : Store) (session : Session) (workspaceId categoryId : string) :
  let n := Prisma.count (CategoryRoute.whereCategory categoryId) (products st) in
  let answer := CategoryRoute.DELETE st session workspaceId categoryId in
  (0 < n ->
   status (fst answer) <> 200
   /\ success (fst answer) = false
   /\ snd answer = st
   /\ (forall user ok,
          session = Some user ->
          CategoryRoute.verifyCategoryAccess st workspaceId categoryId (user_id user)
          = ret ok ->
          fst answer = CategoryRoute.cannotDelete n))
  /\ (snd answer <> st -> n = 0)
  /\ (status (fst answer) = 200 ->
      n = 0
      /\ (forall p, In p (products st) -> prod_categoryId p <> Some categoryId)
      /\ categories (snd answer)
         = filter (fun c => negb (cat_id c =? categoryId)%string) (categories st)
      /\ (forall c, In c (categories (snd answer)) -> cat_id c <> categoryId)
      /\ products (snd answer) = products st).
Proof.
  intros n answer. subst answer. unfold CategoryRoute.DELETE.
  destruct session as [user|].
  2:{ cbn. repeat split; try discriminate; intros; congruence. }
  destruct (CategoryRoute.verifyCategoryAccess st workspaceId categoryId (user_id user))
    as [e|ok] eqn:Hverify.
  { assert (Hfail : status (@CategoryRoute.handleError unit e) <> 200
                    /\ success (@CategoryRoute.handleError unit e) = false).
    { destruct e as [m|]; cbn; [destruct (Js.includes m "Access denied")|];
        cbn; split; discriminate || reflexivity. }
    destruct Hfail as [Hs Hf]. unfold fst, snd.
    split; [|split].
    - intros _. split; [exact Hs|]. split; [exact Hf|]. split; [reflexivity|].
      intros u ok Hu Hok. injection Hu as <-. rewrite Hverify in Hok.
      discriminate Hok.
    - intros Hne. destruct (Hne eq_refl).
    - intros H200. destruct (Hs H200). }
  cbv zeta. fold n.
  destruct (0 <? n) eqn:Hpos.
  - apply Nat.ltb_lt in Hpos. unfold fst, snd.
    split; [|split].
    + intros _. split; [discriminate|]. split; [reflexivity|].
      split; [reflexivity|]. intros u ok' _ _. reflexivity.
    + intros Hne. destruct (Hne eq_refl).
    + cbn. discriminate.
  - apply Nat.ltb_ge in Hpos. assert (Hzero : n = 0) by lia.
    split; [intros Hn; lia|]. split; [intros _; exact Hzero|].
    unfold Prisma.delete.
    destruct (existsb _ (categories st)); cbn; [|discriminate].
    intros _. split; [exact Hzero|]. split; [|split; [reflexivity|split]].
    + intros p Hp Href.
      assert (Hex : 0 < n).
      { apply count_positive_iff. exists p. split; [exact Hp|].
        unfold CategoryRoute.whereCategory. rewrite Href.
        apply String.eqb_refl. }
      lia.
    + intros c Hc Hid. apply filter_In in Hc. destruct Hc as [_ Hneg].
      rewrite Hid, String.eqb_refl in Hneg. discriminate.
    + reflexivity.
Qed.

(** On the sample store the category [c1] is referenced by one product
    and alice, owner of [wsA], asks to delete it. *)
Lemma category_delete_requires_no_products_witness :
  fst (CategoryRoute.DELETE Sample.store (Some Sample.alice) "wsA" "c1")
  = mkResponse 400 false (Some "Cannot delete category")
      (Some "Category has 1 product(s). Remove products from category first.") None
  /\ snd (CategoryRoute.DELETE Sample.store (Some Sample.alice) "wsA" "c1")
     = Sample.store.
Proof.
  destruct (proj1 (category_delete_requires_no_products
                     Sample.store (Some Sample.alice) "wsA" "c1"))
    as [_ [_ [Hsame Hconflict]]].
  - vm_compute. lia.
  - split; [|exact Hsame].
    rewrite (Hconflict Sample.alice (Sample.aliceInA, Sample.lighting) eq_refl eq_refl).
    reflexivity.
Defined.

(** ** Tenant routing *)

(** C8. On the dashboard path, for any signed-in user and any cookie,
    a failed membership lookup lets the request continue: the
    middleware answers [NextResponse.next()].  An unreachable store and
    a refused internal request are such failed lookups. *)
Theorem resolver_fails_open
        (user : SessionUser) (lastWorkspace : option string)
        (fetched : Middleware.FetchOutcome) (Hfailed : LookupFailed fetched) :
  Middleware.middleware (Some user) "/dashboard" lastWorkspace fetched = Middleware.Next
  /\ (forall session, LookupFailed (Middleware.fetchWorkspaces Unreachable session))
  /\ (forall db, LookupFailed (Middleware.fetchWorkspaces db None)).
Proof.
  split; [|split].
  - destruct Hfailed; reflexivity.
  - intros [u|]; apply lookup_not_ok.
  - intros db. apply lookup_not_ok.
Qed.

(** The store cannot be reached while alice, whose cookie names a
    workspace, opens the dashboard. *)
Lemma resolver_fails_open_witness :
  Middleware.middleware (Some Sample.alice) "/dashboard" (Some "odecor")
                        (Middleware.fetchWorkspaces Unreachable (Some Sample.alice))
  = Middleware.Next.
Proof.
  apply (resolver_fails_open Sample.alice (Some "odecor")).
  apply lookup_not_ok.
Defined.

Lemma truthy_iff (s : string) : Js.truthy s = true <-> s <> "".
Proof. destruct s; simpl; split; intros H; congruence. Qed.

(** The head of rows ordered by a descending key has the largest key. *)
Lemma orderByDesc_head {Row} (key : Row -> Z) (rows : list Row) (x : Row)
      (rest : list Row) :
  Prisma.orderByDesc key rows = x :: rest ->
  forall y, In y rest -> (key y <= key x)%Z.
Proof.
  unfold Prisma.orderByDesc, Prisma.orderBy.
  revert x rest.
  induction rows as [|r rows IH]; simpl; intros x rest Heq; [discriminate|].
  destruct (fold_right _ [] rows) as [|h sorted] eqn:Hsorted; simpl in Heq.
  - injection Heq as <- <-. intros y [].
  - specialize (IH h sorted eq_refl).
    destruct (key h <? key r)%Z eqn:Hlt.
    + injection Heq as <- <-. apply Z.ltb_lt in Hlt.
      intros y [<-|Hy]; [lia|]. specialize (IH y Hy). lia.
    + injection Heq as <- <-. apply Z.ltb_ge in Hlt.
      intros y Hy. apply insertBy_In in Hy. destruct Hy as [->|Hy]; [exact Hlt|].
      apply IH. exact Hy.
Qed.

Lemma whereMemberOf_iff (st : Store) (userId : string) (w : Workspace) :
  WorkspacesRoute.whereMemberOf st userId w = true
  <-> (exists m, In m (userWorkspaces st)
                 /\ uw_workspaceId m = ws_id w /\ uw_userId m = userId)
      /\ ws_deletedAt w = None.
Proof.
  unfold WorkspacesRoute.whereMemberOf.
  rewrite andb_true_iff, existsb_exists.
  split; intros [[m [Hin Hm]] Hlive]; (split; [exists m; split; [exact Hin|]|]).
  - apply andb_true_iff in Hm. rewrite !String.eqb_eq in Hm. exact Hm.
  - destruct (ws_deletedAt w); [discriminate|reflexivity].
  - apply andb_true_iff. rewrite !String.eqb_eq. exact Hm.
  - rewrite Hlive. reflexivity.
Qed.

(** C6, as the middleware has it.  For a signed-in user on the
    dashboard path whose lookup succeeds: the lookup returns the
    workspaces that are not deleted and in which the user has a
    membership, most recently created first; with none returned the
    request continues, for onboarding; otherwise the middleware
    redirects to the dashboard of the workspace whose slug is the
    non-empty "last workspace" cookie when a returned workspace has that
    slug, and of the first returned workspace in every other case. *)
Theorem resolver_selects_cookie_or_first
        (st : Store) (user : SessionUser) (lastWorkspace : option string) :
  let route fetched :=
    Middleware.middleware (Some user) "/dashboard" lastWorkspace fetched in
  let returned views := Middleware.FetchResponse true (Middleware.JsonData (Some views)) in
  (exists views,
      Middleware.fetchWorkspaces (Connected st) (Some user) = returned views
      /\ (forall v, In v views <->
                    exists w, v = WorkspacesRoute.viewWorkspace st w
                              /\ In w (workspaces st)
                              /\ ws_deletedAt w = None
                              /\ exists m, In m (userWorkspaces st)
                                           /\ uw_workspaceId m = ws_id w
                                           /\ uw_userId m = user_id user)
      /\ (forall first rest v,
             views = first :: rest -> In v rest ->
             (ws_createdAt (WorkspacesRoute.wv_workspace v)
              <= ws_createdAt (WorkspacesRoute.wv_workspace first))%Z))
  /\ route (returned []) = Middleware.Next
  /\ (forall first rest l w,
         lastWorkspace = Some l -> l <> "" ->
         In w (first :: rest) -> Middleware.slugOf w = l ->
         route (returned (first :: rest)) = Middleware.Redirect ("/" ++ l ++ "/dashboard"))
  /\ (forall first rest,
         (lastWorkspace = None \/ lastWorkspace = Some ""
          \/ (forall w, In w (first :: rest) -> Some (Middleware.slugOf w) <> lastWorkspace)) ->
         route (returned (first :: rest))
         = Middleware.Redirect ("/" ++ Middleware.slugOf first ++ "/dashboard")).
Proof.
  intros route returned. split; [|split; [reflexivity|split]].
  - eexists. split; [reflexivity|]. split.
    + intros v. rewrite in_map_iff. split.
      * intros [w [<- Hw]]. apply orderBy_In in Hw. apply filter_In in Hw.
        destruct Hw as [Hin Hwhere]. apply whereMemberOf_iff in Hwhere.
        exists w. tauto.
      * intros [w [-> [Hin [Hlive Hm]]]]. exists w. split; [reflexivity|].
        apply orderBy_In. apply filter_In. split; [exact Hin|].
        apply whereMemberOf_iff. tauto.
    + intros first rest v Hviews Hv.
      destruct (Prisma.orderByDesc ws_createdAt
                  (Prisma.findMany (WorkspacesRoute.whereMemberOf st (user_id user))
                                   (workspaces st))) as [|w ws] eqn:Hsorted;
        simpl in Hviews; [discriminate|].
      injection Hviews as <- <-.
      apply in_map_iff in Hv. destruct Hv as [y [<- Hy]]. simpl.
      exact (orderByDesc_head _ _ _ _ Hsorted y Hy).
  - intros first rest l w -> Hl Hw Hslug. subst route returned.
    unfold Middleware.middleware, Middleware.dashboardRedirect,
      Middleware.targetWorkspace.
    cbn -[find String.append].
    apply truthy_iff in Hl. rewrite Hl.
    destruct (find (fun w0 => (Middleware.slugOf w0 =? l)%string) (first :: rest))
      as [hit|] eqn:Hfind.
    + apply find_some in Hfind. destruct Hfind as [_ Hhit].
      apply String.eqb_eq in Hhit. rewrite Hhit. reflexivity.
    + exfalso. pose proof (find_none _ _ Hfind w Hw) as Hno.
      simpl in Hno. rewrite Hslug, String.eqb_refl in Hno. discriminate.
  - intros first rest Hcases. subst route returned.
    unfold Middleware.middleware, Middleware.dashboardRedirect,
      Middleware.targetWorkspace.
    cbn -[find String.append].
    destruct Hcases as [->|[->|Hnone]]; [reflexivity|reflexivity|].
    destruct lastWorkspace as [l|]; [|reflexivity].
    destruct (Js.truthy l); [|reflexivity].
    destruct (find (fun w0 => (Middleware.slugOf w0 =? l)%string) (first :: rest))
      as [hit|] eqn:Hfind; [|reflexivity].
    apply find_some in Hfind. destruct Hfind as [Hin Hhit].
    apply String.eqb_eq in Hhit. destruct (Hnone hit Hin). congruence.
Qed.

(** Alice belongs to both sample workspaces; her cookie names the older
    one, and the middleware sends her there. *)
Lemma resolver_selects_cookie_or_first_witness :
  Middleware.middleware (Some Sample.alice) "/dashboard" (Some "odecor")
    (Middleware.fetchWorkspaces (Connected Sample.store) (Some Sample.alice))
  = Middleware.Redirect "/odecor/dashboard".
Proof.
  refine (proj1 (proj2 (proj2 (resolver_selects_cookie_or_first
                                 Sample.store Sample.alice (Some "odecor"))))
                (WorkspacesRoute.viewWorkspace Sample.store Sample.workspaceB)
                [WorkspacesRoute.viewWorkspace Sample.store Sample.workspaceA]
                "odecor"
                (WorkspacesRoute.viewWorkspace Sample.store Sample.workspaceA)
                eq_refl _ _ eq_refl).
  - discriminate.
  - simpl. auto.
Defined.

(** C6, against the specification's wording: the selection it
    describes differs from the one of the middleware: without a cookie, alice is sent to [garden], the
    workspace created last, although [odecor] was updated last. *)
Lemma resolver_ignores_update_time :
  let views := [WorkspacesRoute.viewWorkspace Sample.store Sample.workspaceB;
                WorkspacesRoute.viewWorkspace Sample.store Sample.workspaceA] in
  Middleware.fetchWorkspaces (Connected Sample.store) (Some Sample.alice)
  = Middleware.FetchResponse true (Middleware.JsonData (Some views))
  /\ Middleware.middleware (Some Sample.alice) "/dashboard" None
       (Middleware.fetchWorkspaces (Connected Sample.store) (Some Sample.alice))
     = Middleware.Redirect "/garden/dashboard"
  /\ Middleware.slugOf
       (Claimed.targetWorkspace None
          (WorkspacesRoute.viewWorkspace Sample.store Sample.workspaceB)
          [WorkspacesRoute.viewWorkspace Sample.store Sample.workspaceA])
     = "odecor"
  /\ Middleware.middleware (Some Sample.alice) "/dashboard" None
       (Middleware.fetchWorkspaces (Connected Sample.store) (Some Sample.alice))
     <> Middleware.Redirect
          ("/" ++ Middleware.slugOf
                    (Claimed.targetWorkspace None
                       (WorkspacesRoute.viewWorkspace Sample.store Sample.workspaceB)
                       [WorkspacesRoute.viewWorkspace Sample.store Sample.workspaceA])
               ++ "/dashboard").
Proof.
  intros views. repeat split. discriminate.
Qed.

(** ** Slug collisions *)

Lemma substring_0_length (n : nat) :
  forall s, n <= String.length s -> String.length (String.substring 0 n s) = n.
Proof.
  induction n as [|n IH]; intros s Hn.
  - destruct s; reflexivity.
  - destruct s as [|c s]; simpl in *; [lia|].
    rewrite IH; [reflexivity|lia].
Qed.

Lemma substring_0_allChars (p : ascii -> bool) (n : nat) :
  forall s, allChars p s = true -> allChars p (String.substring 0 n s) = true.
Proof.
  induction n as [|n IH]; intros s Hs.
  - destruct s; reflexivity.
  - destruct s as [|c s]; simpl in *; [reflexivity|].
    apply andb_true_iff in Hs. destruct Hs as [Hc Hs].
    rewrite Hc, (IH s Hs). reflexivity.
Qed.

Lemma substring_0_all (s : string) : String.substring 0 (String.length s) s = s.
Proof.
  induction s as [|c s IH]; simpl; [reflexivity|]. rewrite IH. reflexivity.
Qed.

Lemma prefix_hyphenated (base suffix : string) :
  prefix (base ++ "-") (base ++ "-" ++ suffix) = true.
Proof.
  induction base as [|c base IH]; simpl.
  - destruct suffix; reflexivity.
  - destruct (ascii_dec c c) as [_|Hne]; [exact IH|destruct (Hne eq_refl)].
Qed.

Lemma length_hyphenated (base suffix : string) :
  String.length (base ++ "-" ++ suffix) = String.length base + 1 + String.length suffix.
Proof.
  induction base as [|c base IH]; simpl in *; [reflexivity|]. rewrite IH. reflexivity.
Qed.

Lemma substring_hyphenated (base suffix : string) (n : nat) :
  String.substring (String.length base + 1) n (base ++ "-" ++ suffix)
  = String.substring 0 n suffix.
Proof.
  induction base as [|c base IH]; simpl; [reflexivity|exact IH].
Qed.

(** A suffix of six characters of [[a-z0-9]] gives a slug of the
    pattern, different from the base. *)
Lemma suffixed_slug_matches (base suffix : string) :
  String.length suffix = 6 ->
  allChars VideoUtils.isSlugChar suffix = true ->
  matchesSuffixed base (base ++ "-" ++ suffix) = true
  /\ base ++ "-" ++ suffix <> base.
Proof.
  intros Hlen Hchars. split.
  - unfold matchesSuffixed.
    assert (Hall : String.substring 0 6 suffix = suffix)
      by (rewrite <- Hlen; apply substring_0_all).
    rewrite prefix_hyphenated, length_hyphenated, substring_hyphenated, Hlen.
    rewrite Hall, Hchars.
    replace (String.length base + 1 + 6 =? String.length base + 7) with true
      by (symmetry; apply Nat.eqb_eq; lia).
    reflexivity.
  - intros Heq. apply (f_equal String.length) in Heq.
    rewrite length_hyphenated in Heq. lia.
Qed.

(** The suffix drawn from a rendering ["0." ++ digits] with at least
    six digits is its first six digits. *)
Lemma randomSuffix_of_draw (digits : string) :
  6 <= String.length digits ->
  allChars VideoUtils.isSlugChar digits = true ->
  VideoUtils.randomSuffix ("0." ++ digits) = String.substring 0 6 digits
  /\ String.length (String.substring 0 6 digits) = 6
  /\ allChars VideoUtils.isSlugChar (String.substring 0 6 digits) = true.
Proof.
  intros Hlen Hchars. split; [reflexivity|]. split.
  - apply substring_0_length. exact Hlen.
  - apply substring_0_allChars. exact Hchars.
Qed.

Lemma create_fresh {Row} (conflicts : Row -> Row -> bool) (row : Row) (rows : list Row) :
  (forall r, In r rows -> conflicts row r = false) ->
  Prisma.create conflicts row rows = ret (rows ++ [row])%list.
Proof.
  intros Hfree. unfold Prisma.create.
  destruct (existsb (conflicts row) rows) eqn:Hex; [|reflexivity].
  apply existsb_exists in Hex. destruct Hex as [r [Hr Hc]].
  rewrite (Hfree r Hr) in Hc. discriminate.
Qed.

Lemma findFirst_hit {Row} (where_ : Row -> bool) (rows : list Row) (r : Row) :
  In r rows -> where_ r = true -> exists hit, Prisma.findFirst where_ rows = Some hit.
Proof.
  intros Hin Hr.
  destruct (Prisma.findFirst where_ rows) as [hit|] eqn:Hfind; [exists hit; reflexivity|].
  rewrite findFirst_none in Hfind. rewrite (Hfind r Hin) in Hr. discriminate.
Qed.

Lemma workspace_chooseSlug_collision (st : Store) (body : WorkspacesRoute.WorkspaceData)
      (rnd : string) (first : Workspace) :
  In first (workspaces st) ->
  ws_slug first = WorkspacesRoute.desiredSlug body ->
  WorkspacesRoute.chooseSlug st body rnd
  = WorkspacesRoute.desiredSlug body ++ "-" ++ VideoUtils.randomSuffix rnd.
Proof.
  intros Hin Hslug. unfold WorkspacesRoute.chooseSlug. cbv zeta.
  destruct (findFirst_hit
              (fun w => (ws_slug w =? WorkspacesRoute.desiredSlug body)%string)
              (workspaces st) first Hin) as [hit ->]; [|reflexivity].
  rewrite Hslug. apply String.eqb_refl.
Qed.

Lemma post_chooseSlug_collision (st : Store) (workspaceId : string) (postData : PostData)
      (rnd : string) (first : Post) :
  In first (posts st) ->
  post_workspaceId first = workspaceId ->
  post_deletedAt first = None ->
  post_slug first = PostsRoute.desiredSlug postData ->
  PostsRoute.chooseSlug st workspaceId postData rnd
  = PostsRoute.desiredSlug postData ++ "-" ++ VideoUtils.randomSuffix rnd.
Proof.
  intros Hin Hws Hlive Hslug. unfold PostsRoute.chooseSlug. cbv zeta.
  destruct (findFirst_hit
              (fun p => (post_workspaceId p =? workspaceId)%string
                        && (post_slug p =? PostsRoute.desiredSlug postData)%string
                        && isNull (post_deletedAt p))
              (posts st) first Hin) as [hit ->]; [|reflexivity].
  rewrite Hws, Hslug, Hlive, !String.eqb_refl. reflexivity.
Qed.

Lemma create_taken {Row} (conflicts : Row -> Row -> bool) (row taken : Row)
      (rows : list Row) :
  In taken rows -> conflicts row taken = true ->
  Prisma.create conflicts row rows = throw (JsError "Unique constraint failed").
Proof.
  intros Hin Hc. unfold Prisma.create.
  replace (existsb (conflicts row) rows) with true; [reflexivity|].
  symmetry. apply existsb_exists. exists taken. auto.
Qed.

(** A colliding workspace create stores the suffixed slug when it is
    free and is answered 500 when it is taken. *)
Lemma workspace_collision (st : Store) (user : SessionUser)
      (body : WorkspacesRoute.WorkspaceData) (rnd newId : string) (now : Z)
      (first : Workspace) :
  let base := WorkspacesRoute.desiredSlug body in
  let slug := base ++ "-" ++ VideoUtils.randomSuffix rnd in
  let answer := WorkspacesRoute.POST st (Some user) (ret body) rnd newId now in
  In first (workspaces st) ->
  ws_slug first = base ->
  ((forall w, In w (workspaces st) -> ws_id w <> newId /\ ws_slug w <> slug) ->
   status (fst answer) = 200
   /\ workspaces (snd answer)
      = (workspaces st
         ++ [mkWorkspace newId (WorkspacesRoute.wd_name body) slug
                         (WorkspacesRoute.wd_description body) now now None])%list)
  /\ ((exists w, In w (workspaces st) /\ ws_slug w = slug) ->
      answer = (internalServerError, st)).
Proof.
  intros base slug answer Hin Hslug. subst answer.
  unfold WorkspacesRoute.POST.
  cbn -[WorkspacesRoute.chooseSlug WorkspacesRoute.viewWorkspace String.append].
  rewrite (workspace_chooseSlug_collision st body rnd first Hin Hslug).
  fold base. fold slug. split.
  - intros Hfree. rewrite create_fresh.
    + cbn -[WorkspacesRoute.viewWorkspace String.append]. split; reflexivity.
    + intros w Hw. destruct (Hfree w Hw) as [Hid Hs].
      unfold WorkspacesRoute.workspaceConflicts. cbn -[String.append].
      apply orb_false_iff. split; apply String.eqb_neq; assumption.
  - intros [w [Hw Hs]]. rewrite (create_taken _ _ w); [reflexivity|exact Hw|].
    unfold WorkspacesRoute.workspaceConflicts. cbn -[String.append].
    fold slug. rewrite Hs, String.eqb_refl. apply orb_true_r.
Qed.

(** The same for a post create by a member of the workspace. *)
Lemma post_collision (st : Store) (user : SessionUser) (workspaceId : string)
      (postData : PostData) (rnd newId : string) (now : Z) (first : Post) :
  let base := PostsRoute.desiredSlug postData in
  let slug := base ++ "-" ++ VideoUtils.randomSuffix rnd in
  let answer := PostsRoute.POST st (Some user) workspaceId (ret postData) rnd newId now in
  (exists m, In m (userWorkspaces st)
             /\ uw_workspaceId m = workspaceId /\ uw_userId m = user_id user) ->
  In first (posts st) ->
  post_workspaceId first = workspaceId ->
  post_deletedAt first = None ->
  post_slug first = base ->
  ((forall p, In p (posts st) ->
              post_id p <> newId
              /\ (post_workspaceId p = workspaceId -> post_slug p <> slug)) ->
   productsCheckPasses st workspaceId (pd_productIds postData) = true ->
   status (fst answer) = 200
   /\ posts (snd answer)
      = (posts st ++ [PostsRoute.newPost newId workspaceId slug now postData])%list)
  /\ ((exists p, In p (posts st)
                 /\ post_workspaceId p = workspaceId /\ post_slug p = slug) ->
      answer = (internalServerError, st)).
Proof.
  intros base slug answer Hmember Hin Hws Hlive Hslug. subst answer.
  unfold PostsRoute.POST.
  assert (Haccess : exists uw,
             PostsRoute.verifyWorkspaceAccess st workspaceId (user_id user) = ret uw).
  { destruct Hmember as [m [Hm [Hw Hu]]].
    unfold PostsRoute.verifyWorkspaceAccess.
    destruct (findFirst_hit (PostsRoute.whereMembership workspaceId (user_id user))
                            (userWorkspaces st) m Hm) as [hit ->].
    - unfold PostsRoute.whereMembership. rewrite Hw, Hu, !String.eqb_refl.
      reflexivity.
    - exists hit. reflexivity. }
  destruct Haccess as [uw ->].
  cbn -[PostsRoute.chooseSlug PostsRoute.createInTransaction String.append].
  rewrite (post_chooseSlug_collision st workspaceId postData rnd first
                                     Hin Hws Hlive Hslug).
  fold base. fold slug.
  unfold Prisma.transaction, PostsRoute.createInTransaction.
  split.
  - intros Hfree Hprod. rewrite create_fresh.
    + unfold productsCheckPasses, Prisma.findMany in Hprod.
      cbn -[PostsRoute.newPost viewPost String.append whereProductIn Datatypes.length].
      destruct (pd_productIds postData) as [[|i ids]|];
        cbn -[PostsRoute.newPost viewPost String.append whereProductIn Datatypes.length];
        try (split; reflexivity).
      rewrite Hprod.
      cbn -[PostsRoute.newPost viewPost String.append whereProductIn].
      split; reflexivity.
    + intros p Hp. destruct (Hfree p Hp) as [Hid Hs].
      unfold postConflicts. cbn -[String.append].
      apply orb_false_iff. split; [apply String.eqb_neq; exact Hid|].
      destruct (post_workspaceId p =? workspaceId)%string eqn:Hw; [|reflexivity].
      apply String.eqb_eq in Hw. simpl. apply String.eqb_neq. exact (Hs Hw).
  - intros [p [Hp [Hpw Hps]]]. rewrite (create_taken _ _ p); [reflexivity|exact Hp|].
    unfold postConflicts. cbn -[String.append].
    rewrite Hpw, Hps, !String.eqb_refl. apply orb_true_r.
Qed.

(** C3, as the handlers have it.  A create whose desired slug collides
    with a stored one (any workspace of the table for a workspace
    create, a live post of the same workspace for a post create by a
    member) appends to it a hyphen and six characters of the random
    draw, once and without a second look at the table.  For a draw that
    renders as ["0."] and at least six digits of base 36: when the
    suffixed slug and the new id are not taken (and, for a post, the
    tagged products pass the workspace check) the create succeeds and
    stores the new row under the suffixed slug, which has the pattern
    [^<base>-[a-z0-9]{6}$] and differs from the stored one; when the
    suffixed slug is itself taken, the create is answered 500 and
    nothing is stored. *)
Theorem colliding_slug_is_suffixed
        (st : Store) (user : SessionUser) (digits newId : string) (now : Z)
        (Hdigits : 6 <= String.length digits)
        (Hbase36 : allChars VideoUtils.isSlugChar digits = true) :
  let rnd := "0." ++ digits in
  let suffix := String.substring 0 6 digits in
  (forall (body : WorkspacesRoute.WorkspaceData) (first : Workspace),
      let base := WorkspacesRoute.desiredSlug body in
      let answer := WorkspacesRoute.POST st (Some user) (ret body) rnd newId now in
      In first (workspaces st) ->
      ws_slug first = base ->
      matchesSuffixed base (base ++ "-" ++ suffix) = true
      /\ base ++ "-" ++ suffix <> ws_slug first
      /\ ((forall w, In w (workspaces st) ->
                     ws_id w <> newId /\ ws_slug w <> base ++ "-" ++ suffix) ->
          status (fst answer) = 200
          /\ workspaces (snd answer)
             = (workspaces st
                ++ [mkWorkspace newId (WorkspacesRoute.wd_name body)
                                (base ++ "-" ++ suffix)
                                (WorkspacesRoute.wd_description body) now now None])%list)
      /\ ((exists w, In w (workspaces st) /\ ws_slug w = base ++ "-" ++ suffix) ->
          answer = (internalServerError, st)))
  /\ (forall (workspaceId : string) (postData : PostData) (first : Post),
         let base := PostsRoute.desiredSlug postData in
         let answer :=
           PostsRoute.POST st (Some user) workspaceId (ret postData) rnd newId now in
         (exists m, In m (userWorkspaces st)
                    /\ uw_workspaceId m = workspaceId /\ uw_userId m = user_id user) ->
         In first (posts st) ->
         post_workspaceId first = workspaceId ->
         post_deletedAt first = None ->
         post_slug first = base ->
         matchesSuffixed base (base ++ "-" ++ suffix) = true
         /\ base ++ "-" ++ suffix <> post_slug first
         /\ ((forall p, In p (posts st) ->
                        post_id p <> newId
                        /\ (post_workspaceId p = workspaceId ->
                            post_slug p <> base ++ "-" ++ suffix)) ->
             productsCheckPasses st workspaceId (pd_productIds postData) = true ->
             status (fst answer) = 200
             /\ posts (snd answer)
                = (posts st
                   ++ [PostsRoute.newPost newId workspaceId (base ++ "-" ++ suffix)
                                          now postData])%list)
         /\ ((exists p, In p (posts st)
                        /\ post_workspaceId p = workspaceId
                        /\ post_slug p = base ++ "-" ++ suffix) ->
             answer = (internalServerError, st))).
Proof.
  intros rnd suffix.
  destruct (randomSuffix_of_draw digits Hdigits Hbase36) as [Hsuffix [Hlen Hchars]].
  fold rnd suffix in Hsuffix, Hlen, Hchars.
  split.
  - intros body first base answer Hin Hslug.
    destruct (suffixed_slug_matches base suffix Hlen Hchars) as [Hmatch Hne].
    pose proof (workspace_collision st user body rnd newId now first Hin Hslug)
      as Hrun.
    cbv zeta in Hrun. rewrite Hsuffix in Hrun. fold base in Hrun.
    split; [exact Hmatch|]. split; [rewrite Hslug; exact Hne|]. exact Hrun.
  - intros workspaceId postData first base answer Hmember Hin Hws Hlive Hslug.
    destruct (suffixed_slug_matches base suffix Hlen Hchars) as [Hmatch Hne].
    pose proof (post_collision st user workspaceId postData rnd newId now first
                               Hmember Hin Hws Hlive Hslug) as Hrun.
    cbv zeta in Hrun. rewrite Hsuffix in Hrun. fold base in Hrun.
    split; [exact Hmatch|]. split; [rewrite Hslug; exact Hne|]. exact Hrun.
Qed.

(** Bob creates a second workspace named "Odecor" on the sample store,
    with the draw ["0.k3x9q2w7lbf"]. *)
Lemma colliding_slug_is_suffixed_witness :
  let answer :=
    WorkspacesRoute.POST Sample.store (Some Sample.bob)
      (ret (WorkspacesRoute.mkWorkspaceData "Odecor" None None))
      "0.k3x9q2w7lbf" "wsC" 1000 in
  status (fst answer) = 200
  /\ map ws_slug (workspaces (snd answer)) = ["odecor"; "garden"; "odecor-k3x9q2"].
Proof.
  intros answer.
  destruct (proj1 (colliding_slug_is_suffixed
                     Sample.store Sample.bob "k3x9q2w7lbf" "wsC" 1000
                     ltac:(simpl; lia) eq_refl)
                  (WorkspacesRoute.mkWorkspaceData "Odecor" None None)
                  Sample.workspaceA)
    as [_ [_ [Hstored _]]].
  - simpl. auto.
  - reflexivity.
  - destruct Hstored as [Hstatus Hrows].
    + simpl. intros w [<-|[<-|[]]]; split; discriminate.
    + split; [exact Hstatus|].
      exact (f_equal (map ws_slug) Hrows).
Defined.

(** C3, against the specification's wording, which fails in two ways.  The
    draw one half renders as ["0.i"], so the stored suffix has one
    character; and a create whose suffixed slug is itself taken is
    answered 500, with nothing stored. *)
Lemma suffix_can_be_short_or_taken :
  (let answer :=
     WorkspacesRoute.POST Sample.store (Some Sample.bob)
       (ret (WorkspacesRoute.mkWorkspaceData "Odecor" None None)) "0.i" "wsC" 1000 in
   status (fst answer) = 200
   /\ map ws_slug (workspaces (snd answer)) = ["odecor"; "garden"; "odecor-i"]
   /\ matchesSuffixed "odecor" "odecor-i" = false)
  /\ (let once :=
        snd (WorkspacesRoute.POST Sample.store (Some Sample.bob)
               (ret (WorkspacesRoute.mkWorkspaceData "Odecor" None None))
               "0.k3x9q2w7lbf" "wsC" 1000) in
      let answer :=
        WorkspacesRoute.POST once (Some Sample.alice)
          (ret (WorkspacesRoute.mkWorkspaceData "Odecor" None None))
          "0.k3x9q2w7lbf" "wsD" 2000 in
      fst answer = internalServerError /\ snd answer = once)
  /\ ~ Claimed.workspaceSlugClaim.
Proof.
  split; [repeat split|]. split; [split; reflexivity|].
  intros Hclaim.
  destruct (Hclaim Sample.store Sample.bob
                   (WorkspacesRoute.mkWorkspaceData "Odecor" None None)
                   "0.i" "wsC" 1000%Z Sample.workspaceA eq_refl
                   ltac:(simpl; auto) eq_refl
                   ltac:(simpl; intros w [<-|[<-|[]]]; discriminate))
    as [_ [second [Hrows [_ Hmatch]]]].
  vm_compute in Hrows. inversion Hrows as [Hsecond]. subst second.
  vm_compute in Hmatch. discriminate Hmatch.
Qed.

(* ================================================================== *)
(** * Further properties of the handlers *)

(** ** Slugs *)

Lemma lowerChar_not_upper (c : ascii) : Js.isUpper (Js.lowerChar c) = false.
Proof. by_cases_on_char c. Qed.

Lemma slug_char_classes (c : ascii) :
  VideoUtils.isSlugChar c = true ->
  VideoUtils.isHyphen c = false /\ Js.isSpace c = false
  /\ slugSeparates c = false /\ slugKeeps c = true /\ Js.lowerChar c = c.
Proof. by_cases_on_char c. Qed.

Lemma hyphen_classes (c : ascii) :
  VideoUtils.isHyphen c = true ->
  c = "-"%char /\ VideoUtils.isSlugChar c = false /\ Js.isSpace c = false
  /\ slugSeparates c = true /\ slugKeeps c = true /\ Js.lowerChar c = c.
Proof. by_cases_on_char c. Qed.

Lemma kept_lowered_char (c : ascii) :
  slugKeeps c = true -> Js.isUpper c = false -> slugSeparates c = false ->
  VideoUtils.isSlugChar c = true.
Proof. by_cases_on_char c. Qed.

Lemma separator_is_kept_or_not_slug (c : ascii) :
  slugSeparates c = true -> VideoUtils.isSlugChar c = false.
Proof. by_cases_on_char c. Qed.

(** *** Reversal and the two ends of a string *)

Lemma append_cons (x : string) (c : ascii) (acc : string) :
  (x ++ String c "") ++ acc = x ++ String c acc.
Proof.
  induction x as [|d x IH]; simpl; [reflexivity|]. rewrite IH. reflexivity.
Qed.

Lemma rev_onto_append (s acc : string) : Js.rev_onto s acc = Js.rev s ++ acc.
Proof.
  unfold Js.rev. revert acc.
  induction s as [|c s IH]; intros acc; simpl; [reflexivity|].
  rewrite (IH (String c acc)), (IH (String c "")), append_cons. reflexivity.
Qed.

Lemma rev_cons (c : ascii) (s : string) : Js.rev (String c s) = Js.rev s ++ String c "".
Proof. unfold Js.rev at 1. simpl. apply rev_onto_append. Qed.

Lemma rev_onto_snoc (a : string) (c : ascii) (acc : string) :
  Js.rev_onto (a ++ String c "") acc = String c (Js.rev_onto a acc).
Proof.
  revert acc. induction a as [|d a IH]; intros acc; simpl; [reflexivity|]. apply IH.
Qed.

Lemma rev_snoc (a : string) (c : ascii) : Js.rev (a ++ String c "") = String c (Js.rev a).
Proof. apply rev_onto_snoc. Qed.

Lemma dropWhile_all (p : ascii -> bool) (a : string) :
  allChars p a = true -> Js.dropWhile p a = "".
Proof.
  induction a as [|d a IH]; simpl; [reflexivity|].
  intros H. apply andb_true_iff in H. destruct H as [Hd Ha].
  rewrite Hd. exact (IH Ha).
Qed.

Lemma dropWhile_snoc (p : ascii -> bool) (a : string) (c : ascii) :
  Js.dropWhile p (a ++ String c "")
  = if allChars p a then (if p c then "" else String c "")
    else Js.dropWhile p a ++ String c "".
Proof.
  induction a as [|d a IH]; simpl; [reflexivity|].
  destruct (p d); simpl; [exact IH|reflexivity].
Qed.

Lemma dropWhile_some (p : ascii -> bool) (a : string) :
  allChars p a = false -> exists d rest, Js.dropWhile p a = String d rest.
Proof.
  induction a as [|d a IH]; simpl; [discriminate|].
  destruct (p d); simpl; [exact IH|]. intros _. exists d, a. reflexivity.
Qed.

(** [dropWhileEnd], read from the front of the string. *)
Lemma dropWhileEnd_cons (p : ascii -> bool) (c : ascii) (s : string) :
  Js.dropWhileEnd p (String c s)
  = match Js.dropWhileEnd p s with
    | EmptyString => if p c then "" else String c ""
    | String _ _ => String c (Js.dropWhileEnd p s)
    end.
Proof.
  unfold Js.dropWhileEnd. rewrite rev_cons, dropWhile_snoc.
  destruct (allChars p (Js.rev s)) eqn:Hall.
  - rewrite (dropWhile_all p _ Hall). destruct (p c); reflexivity.
  - destruct (dropWhile_some p _ Hall) as [d [rest ->]].
    rewrite rev_snoc.
    destruct (Js.rev (String d rest)) eqn:Hrev; [|reflexivity].
    rewrite rev_cons in Hrev. destruct (Js.rev rest); discriminate Hrev.
Qed.

Lemma dropWhileEnd_keep (p : ascii -> bool) (c : ascii) (s : string) :
  p c = false -> Js.dropWhileEnd p (String c s) = String c (Js.dropWhileEnd p s).
Proof.
  intros Hc. rewrite dropWhileEnd_cons, Hc.
  destruct (Js.dropWhileEnd p s); reflexivity.
Qed.

Lemma dropWhileEnd_allChars (q p : ascii -> bool) (s : string) :
  allChars q s = true -> allChars q (Js.dropWhileEnd p s) = true.
Proof.
  induction s as [|c s IH]; [intros _; reflexivity|].
  simpl. intros H. apply andb_true_iff in H. destruct H as [Hc Hs].
  rewrite dropWhileEnd_cons. specialize (IH Hs).
  destruct (Js.dropWhileEnd p s) as [|d rest].
  - destruct (p c); simpl; [reflexivity|]. rewrite Hc. reflexivity.
  - cbn [allChars] in *. rewrite Hc. exact IH.
Qed.

Lemma dropWhile_allChars (q p : ascii -> bool) (s : string) :
  allChars q s = true -> allChars q (Js.dropWhile p s) = true.
Proof.
  induction s as [|c s IH]; simpl; [reflexivity|].
  intros H. destruct (p c); [|exact H].
  apply andb_true_iff in H. exact (IH (proj2 H)).
Qed.

Lemma toLowerCase_not_upper (s : string) :
  allChars (fun c => negb (Js.isUpper c)) (Js.toLowerCase s) = true.
Proof.
  induction s as [|c s IH]; simpl; [reflexivity|].
  rewrite lowerChar_not_upper, IH. reflexivity.
Qed.

Lemma removeUnless_allChars (q keep : ascii -> bool) (s : string) :
  allChars q s = true ->
  allChars (fun c => keep c && q c) (Js.removeUnless keep s) = true.
Proof.
  induction s as [|c s IH]; simpl; [reflexivity|].
  intros H. apply andb_true_iff in H. destruct H as [Hc Hs].
  destruct (keep c) eqn:Hk; simpl; [rewrite Hk, Hc; simpl|]; exact (IH Hs).
Qed.

(** *** The shape of a generated slug *)

Lemma collapse_hyphenated (inRun : bool) (s : string) :
  allChars (fun c => slugKeeps c && negb (Js.isUpper c)) s = true ->
  hyphenated inRun (Js.collapseFrom slugSeparates "-" inRun s) = true.
Proof.
  revert inRun. induction s as [|c s IH]; intros inRun; simpl; [reflexivity|].
  intros H. apply andb_true_iff in H. destruct H as [Hc Hs].
  apply andb_true_iff in Hc. destruct Hc as [Hkeep Hup].
  apply negb_true_iff in Hup.
  destruct (slugSeparates c) eqn:Hsep.
  - destruct inRun; [exact (IH true Hs)|].
    simpl. exact (IH true Hs).
  - simpl. rewrite (kept_lowered_char c Hkeep Hup Hsep). exact (IH false Hs).
Qed.

Lemma dropWhile_hyphenated (prev : bool) (s : string) :
  hyphenated prev s = true -> hyphenated true (Js.dropWhile VideoUtils.isHyphen s) = true.
Proof.
  revert prev. induction s as [|c s IH]; intros prev; simpl; [reflexivity|].
  destruct (VideoUtils.isSlugChar c) eqn:Hslug.
  - destruct (slug_char_classes c Hslug) as [Hh _]. rewrite Hh. simpl.
    rewrite Hslug. auto.
  - intros H. apply andb_true_iff in H. destruct H as [H Hrest].
    apply andb_true_iff in H. destruct H as [Hh _]. rewrite Hh.
    exact (IH true Hrest).
Qed.

Lemma stripped_matches (s : string) :
  (hyphenated false s = true ->
   VideoUtils.slugRegexFrom true (Js.dropWhileEnd VideoUtils.isHyphen s) = true)
  /\ (hyphenated true s = true ->
      Js.dropWhileEnd VideoUtils.isHyphen s = ""
      \/ VideoUtils.slugRegexFrom false (Js.dropWhileEnd VideoUtils.isHyphen s) = true).
Proof.
  induction s as [|c s [IH1 IH2]]; [split; intros _; [reflexivity|left; reflexivity]|].
  cbn [hyphenated].
  destruct (VideoUtils.isSlugChar c) eqn:Hslug.
  - destruct (slug_char_classes c Hslug) as [Hh _].
    rewrite (dropWhileEnd_keep _ c s Hh). cbn [VideoUtils.slugRegexFrom].
    rewrite Hslug. split; intros H; [|right]; exact (IH1 H).
  - split; intros H; [|rewrite andb_false_r in H; discriminate H].
    apply andb_true_iff in H. destruct H as [H Hrest].
    apply andb_true_iff in H. destruct H as [Hh _].
    rewrite dropWhileEnd_cons, Hh.
    destruct (IH2 Hrest) as [Hempty|Hmatch].
    + rewrite Hempty. reflexivity.
    + destruct (Js.dropWhileEnd VideoUtils.isHyphen s) as [|d rest];
        [discriminate Hmatch|].
      cbn [VideoUtils.slugRegexFrom]. rewrite Hslug, Hh. exact Hmatch.
Qed.

Lemma generateSlug_unfold (title : string) :
  VideoUtils.generateSlug title
  = Js.dropWhileEnd VideoUtils.isHyphen
      (Js.dropWhile VideoUtils.isHyphen
         (Js.collapseFrom slugSeparates "-" false
            (Js.removeUnless slugKeeps (Js.trim (Js.toLowerCase title))))).
Proof. reflexivity. Qed.

Lemma generateSlug_shape_cases (title : string) :
  VideoUtils.generateSlug title = ""
  \/ VideoUtils.slugRegexFrom false (VideoUtils.generateSlug title) = true.
Proof.
  rewrite generateSlug_unfold.
  apply (proj2 (stripped_matches _)).
  apply (dropWhile_hyphenated false).
  apply collapse_hyphenated.
  assert (Hlow : allChars (fun c => negb (Js.isUpper c))
                          (Js.trim (Js.toLowerCase title)) = true).
  { unfold Js.trim. apply dropWhileEnd_allChars, dropWhile_allChars.
    apply toLowerCase_not_upper. }
  exact (removeUnless_allChars _ slugKeeps _ Hlow).
Qed.

Lemma slugRegex_not_empty (s : string) :
  VideoUtils.slugRegexFrom false s = true -> s <> "".
Proof. destruct s; [discriminate|]. intros _. discriminate. Qed.

(** X1. A generated slug is empty or has the shape of the slug pattern
    [^[a-z0-9]+(?:-[a-z0-9]+)*$]: characters of [[a-z0-9]] in groups
    separated by single hyphens, no hyphen at either end.  So a
    generated slug is a valid slug as soon as its length is between 3
    and 50. *)
Theorem generateSlug_is_empty_or_slug (title : string) :
  (VideoUtils.generateSlug title = ""
   \/ VideoUtils.slugRegexFrom false (VideoUtils.generateSlug title) = true)
  /\ allChars (fun c => VideoUtils.isSlugChar c || VideoUtils.isHyphen c)
              (VideoUtils.generateSlug title) = true
  /\ (VideoUtils.isValidSlug (VideoUtils.generateSlug title) = true
      <-> 3 <= String.length (VideoUtils.generateSlug title) <= 50).
Proof.
  pose proof (generateSlug_shape_cases title) as Hshape.
  split; [exact Hshape|]. split.
  - destruct Hshape as [->|Hre]; [reflexivity|].
    clear -Hre. revert Hre. generalize (VideoUtils.generateSlug title) as s.
    generalize false as a. intros a s. revert a.
    induction s as [|c s IH]; intros a; simpl; [reflexivity|].
    destruct (VideoUtils.isSlugChar c); simpl; [apply IH|].
    destruct (VideoUtils.isHyphen c); simpl; [|discriminate].
    destruct a; simpl; [apply IH|discriminate].
  - unfold VideoUtils.isValidSlug. rewrite !andb_true_iff, !Nat.leb_le.
    split; [tauto|]. intros Hlen.
    destruct Hshape as [Hempty|Hre]; [rewrite Hempty in Hlen; simpl in Hlen; lia|].
    tauto.
Qed.

(** *** Slugs are fixed points of the generation *)

Lemma slug_chars (a : bool) (s : string) :
  VideoUtils.slugRegexFrom a s = true ->
  allChars (fun c => VideoUtils.isSlugChar c || VideoUtils.isHyphen c) s = true.
Proof.
  revert a. induction s as [|c s IH]; intros a; simpl; [reflexivity|].
  destruct (VideoUtils.isSlugChar c); simpl; [apply IH|].
  destruct (VideoUtils.isHyphen c); simpl; [|discriminate].
  destruct a; simpl; [apply IH|discriminate].
Qed.

Lemma toLowerCase_fixes (s : string) :
  allChars (fun c => VideoUtils.isSlugChar c || VideoUtils.isHyphen c) s = true ->
  Js.toLowerCase s = s.
Proof.
  induction s as [|c s IH]; simpl; [reflexivity|].
  intros H. apply andb_true_iff in H. destruct H as [Hc Hs].
  rewrite (IH Hs). f_equal.
  apply orb_true_iff in Hc. destruct Hc as [Hc|Hc].
  - apply (slug_char_classes c Hc).
  - apply (hyphen_classes c Hc).
Qed.

Lemma dropWhileEnd_fixes (p : ascii -> bool) (s : string) :
  allChars (fun c => negb (p c)) s = true -> Js.dropWhileEnd p s = s.
Proof.
  induction s as [|c s IH]; [reflexivity|]. simpl.
  intros H. apply andb_true_iff in H. destruct H as [Hc Hs].
  apply negb_true_iff in Hc.
  rewrite (dropWhileEnd_keep p c s Hc), (IH Hs). reflexivity.
Qed.

Lemma dropWhile_fixes (p : ascii -> bool) (s : string) :
  allChars (fun c => negb (p c)) s = true -> Js.dropWhile p s = s.
Proof.
  destruct s as [|c s]; simpl; [reflexivity|].
  intros H. apply andb_true_iff in H. destruct H as [Hc _].
  apply negb_true_iff in Hc. rewrite Hc. reflexivity.
Qed.

Lemma allChars_weaken (p q : ascii -> bool) (s : string) :
  (forall c, p c = true -> q c = true) ->
  allChars p s = true -> allChars q s = true.
Proof.
  intros Hpq. induction s as [|c s IH]; simpl; [reflexivity|].
  intros H. apply andb_true_iff in H. destruct H as [Hc Hs].
  rewrite (Hpq c Hc), (IH Hs). reflexivity.
Qed.

Lemma removeUnless_fixes (keep : ascii -> bool) (s : string) :
  allChars keep s = true -> Js.removeUnless keep s = s.
Proof.
  induction s as [|c s IH]; simpl; [reflexivity|].
  intros H. apply andb_true_iff in H. destruct H as [Hc Hs].
  rewrite Hc, (IH Hs). reflexivity.
Qed.

Lemma collapse_fixes (s : string) :
  forall a inRun,
    VideoUtils.slugRegexFrom a s = true -> (a = true -> inRun = false) ->
    Js.collapseFrom slugSeparates "-" inRun s = s.
Proof.
  induction s as [|c s IH]; intros a inRun; simpl; [reflexivity|].
  destruct (VideoUtils.isSlugChar c) eqn:Hslug.
  - destruct (slug_char_classes c Hslug) as [_ [_ [Hsep _]]]. rewrite Hsep.
    intros Hre _. rewrite (IH true false Hre (fun _ => eq_refl)). reflexivity.
  - destruct (VideoUtils.isHyphen c) eqn:Hh; simpl; [|discriminate].
    destruct a; [|discriminate]. intros Hre Hrun. rewrite (Hrun eq_refl).
    destruct (hyphen_classes c Hh) as [-> [_ [_ [Hsep _]]]]. rewrite Hsep.
    rewrite (IH false true Hre); [reflexivity|discriminate].
Qed.

Lemma strip_end_fixes (s : string) :
  forall a, VideoUtils.slugRegexFrom a s = true ->
            Js.dropWhileEnd VideoUtils.isHyphen s = s.
Proof.
  induction s as [|c s IH]; intros a; [reflexivity|]. simpl.
  destruct (VideoUtils.isSlugChar c) eqn:Hslug.
  - destruct (slug_char_classes c Hslug) as [Hh _]. intros Hre.
    rewrite (dropWhileEnd_keep _ c s Hh), (IH true Hre). reflexivity.
  - destruct (VideoUtils.isHyphen c) eqn:Hh; simpl; [|discriminate].
    destruct a; [|discriminate]. intros Hre.
    rewrite dropWhileEnd_cons, (IH false Hre).
    destruct s; [discriminate Hre|reflexivity].
Qed.

(** X2. A string of the shape of the slug pattern is its own generated
    slug; so is every valid slug, and generating twice gives what
    generating once gives. *)
Theorem generateSlug_fixes_slugs (s : string)
        (Hshape : VideoUtils.slugRegexFrom false s = true) :
  VideoUtils.generateSlug s = s
  /\ (forall title,
         VideoUtils.generateSlug (VideoUtils.generateSlug title)
         = VideoUtils.generateSlug title)
  /\ (forall slug, VideoUtils.isValidSlug slug = true ->
                   VideoUtils.generateSlug slug = slug).
Proof.
  assert (Hfix : forall x, VideoUtils.slugRegexFrom false x = true ->
                           VideoUtils.generateSlug x = x).
  { clear s Hshape. intros x Hx.
    pose proof (slug_chars false x Hx) as Hchars.
    assert (Hnospace : allChars (fun c => negb (Js.isSpace c)) x = true).
    { apply (allChars_weaken _ _ x) with (2 := Hchars). intros c Hc.
      apply orb_true_iff in Hc. apply negb_true_iff. destruct Hc as [Hc|Hc].
      - apply (slug_char_classes c Hc).
      - apply (hyphen_classes c Hc). }
    assert (Hkept : allChars slugKeeps x = true).
    { apply (allChars_weaken _ _ x) with (2 := Hchars). intros c Hc.
      apply orb_true_iff in Hc. destruct Hc as [Hc|Hc].
      - apply (slug_char_classes c Hc).
      - apply (hyphen_classes c Hc). }
    rewrite generateSlug_unfold, (toLowerCase_fixes x Hchars).
    unfold Js.trim.
    rewrite (dropWhile_fixes _ x Hnospace), (dropWhileEnd_fixes _ x Hnospace).
    rewrite (removeUnless_fixes _ x Hkept).
    rewrite (collapse_fixes x false false Hx); [|discriminate].
    assert (Hstart : Js.dropWhile VideoUtils.isHyphen x = x).
    { destruct x as [|c x]; [reflexivity|]. simpl in Hx |- *.
      destruct (VideoUtils.isSlugChar c) eqn:Hslug.
      - destruct (slug_char_classes c Hslug) as [-> _]. reflexivity.
      - rewrite andb_false_r in Hx. discriminate Hx. }
    rewrite Hstart. exact (strip_end_fixes x false Hx). }
  split; [exact (Hfix s Hshape)|]. split.
  - intros title.
    destruct (generateSlug_shape_cases title) as [->|Hre]; [reflexivity|].
    exact (Hfix _ Hre).
  - intros slug Hvalid. unfold VideoUtils.isValidSlug in Hvalid.
    apply andb_true_iff in Hvalid. destruct Hvalid as [Hvalid _].
    apply andb_true_iff in Hvalid. destruct Hvalid as [Hre _].
    exact (Hfix slug Hre).
Qed.

(** The slug of the sample workspace. *)
Lemma generateSlug_fixes_slugs_witness :
  VideoUtils.generateSlug "lamp-review" = "lamp-review"
  /\ VideoUtils.generateSlug (VideoUtils.generateSlug "  Lamp_Review!  ")
     = "lamp-review".
Proof.
  destruct (generateSlug_fixes_slugs "lamp-review" eq_refl) as [Hfix [Hidem _]].
  split; [exact Hfix|]. rewrite Hidem. reflexivity.
Defined.

(* ================================================================== *)
(** ** Users outside the workspace *)

Lemma no_membership_found (st : Store) (workspaceId userId : string) :
  notMember st workspaceId userId ->
  Prisma.findFirst
    (fun uw => (uw_workspaceId uw =? workspaceId)%string
               && (uw_userId uw =? userId)%string)
    (userWorkspaces st) = None.
Proof.
  intros Hout. apply findFirst_none. intros m Hm.
  apply not_true_is_false. intros Hmatch.
  apply andb_true_iff in Hmatch. rewrite !String.eqb_eq in Hmatch.
  exact (Hout m Hm Hmatch).
Qed.

(** X3. A signed-in user who is not a member of the workspace gets 403
    "Access denied to workspace" and no data from every handler below
    the workspace, whatever the resource id and the request body, valid
    or not: the membership is looked up before anything else.  The
    write handlers leave the store as it was. *)
Theorem non_member_is_locked_out (st : Store) (user : SessionUser)
        (workspaceId : string)
        (Hout : notMember st workspaceId (user_id user)) :
  (forall params,
      PostsRoute.GET st (Some user) workspaceId params = accessDenied)
  /\ (forall body rnd newId now,
         PostsRoute.POST st (Some user) workspaceId body rnd newId now
         = (accessDenied, st))
  /\ (forall postId,
         PostRoute.GET st (Some user) workspaceId postId = accessDenied)
  /\ (forall postId body rnd now,
         PostRoute.PUT st (Some user) workspaceId postId body rnd now
         = (accessDenied, st))
  /\ (forall postId now,
         PostRoute.DELETE st (Some user) workspaceId postId now = (accessDenied, st))
  /\ (forall mock,
         AffiliateLinksRoute.GET st (Some user) workspaceId mock = accessDenied)
  /\ (forall body newId now,
         AffiliateLinkCreate.POST st (Some user) workspaceId body newId now
         = (accessDenied, st))
  /\ (forall linkId,
         SetActiveRoute.POST st (Some user) workspaceId linkId = (accessDenied, st))
  /\ (forall linkId,
         SetActiveRoute.DELETE st (Some user) workspaceId linkId = (accessDenied, st))
  /\ (forall productId,
         ProductLinksRoute.GET st (Some user) workspaceId productId = accessDenied)
  /\ (forall body newId,
         CategoryWrite.POST st (Some user) workspaceId body newId = (accessDenied, st))
  /\ (forall categoryId body,
         CategoryWrite.PUT st (Some user) workspaceId categoryId body
         = (accessDenied, st))
  /\ (forall categoryId,
         CategoryRoute.DELETE st (Some user) workspaceId categoryId
         = (accessDenied, st))
  /\ (forall deleteProduct productId,
         ProductRoute.DELETE deleteProduct st (Some user) workspaceId productId
         = (accessDenied, st)).
Proof.
  pose proof (no_membership_found st workspaceId (user_id user) Hout) as Hnone.
  repeat split; intros.
  - unfold PostsRoute.GET. lookup_fails Hnone.
  - unfold PostsRoute.POST. lookup_fails Hnone.
  - unfold PostRoute.GET. lookup_fails Hnone.
  - unfold PostRoute.PUT. lookup_fails Hnone.
  - unfold PostRoute.DELETE. lookup_fails Hnone.
  - unfold AffiliateLinksRoute.GET. lookup_fails Hnone.
  - unfold AffiliateLinkCreate.POST. lookup_fails Hnone.
  - unfold SetActiveRoute.POST. lookup_fails Hnone.
  - unfold SetActiveRoute.DELETE. lookup_fails Hnone.
  - unfold ProductLinksRoute.GET. lookup_fails Hnone.
  - unfold CategoryWrite.POST. lookup_fails Hnone.
  - unfold CategoryWrite.PUT. lookup_fails Hnone.
  - unfold CategoryRoute.DELETE. lookup_fails Hnone.
  - unfold ProductRoute.DELETE. lookup_fails Hnone.
Qed.

(** [bob] is no member of [wsB]: a post of [wsB] is out of his reach,
    also with a body that does not parse. *)
Lemma non_member_is_locked_out_witness :
  PostRoute.GET Sample.store (Some Sample.bob) "wsB" "p2" = accessDenied
  /\ PostsRoute.POST Sample.store (Some Sample.bob) "wsB" (throw ZodError)
                     "0.k3x9q2w" "p9" 500
     = (accessDenied, Sample.store).
Proof.
  assert (Hout : notMember Sample.store "wsB" (user_id Sample.bob)).
  { intros m Hm [Hws Huser]. simpl in Hm.
    destruct Hm as [<-|[<-|[<-|[]]]]; discriminate. }
  pose proof (non_member_is_locked_out Sample.store Sample.bob "wsB" Hout) as H.
  split.
  - exact (proj1 (proj2 (proj2 H)) "p2").
  - exact (proj1 (proj2 H) (throw ZodError) "0.k3x9q2w" "p9" 500%Z).
Defined.

(* ================================================================== *)
(** ** The workspace itself: roles, soft delete, slug *)

Lemma update_inr {Row} (where_ : Row -> bool) (data_ : Row -> Row)
      (rows rows' : list Row) :
  Prisma.update where_ data_ rows = inr rows' ->
  rows' = map (fun r => if where_ r then data_ r else r) rows
  /\ existsb where_ rows = true.
Proof.
  unfold Prisma.update, ret, throw.
  destruct (existsb where_ rows); [|discriminate].
  intros H. injection H as <-. split; reflexivity.
Qed.

Lemma update_hit {Row} (where_ : Row -> bool) (data_ : Row -> Row)
      (rows : list Row) (r : Row) :
  In r rows -> where_ r = true ->
  Prisma.update where_ data_ rows
  = inr (map (fun r => if where_ r then data_ r else r) rows).
Proof.
  intros Hin Hr. unfold Prisma.update.
  assert (Hex : existsb where_ rows = true)
    by (apply existsb_exists; exists r; split; assumption).
  rewrite Hex. reflexivity.
Qed.

Lemma verifyWorkspaceAccess_inr (st : Store) (workspaceId userId : string)
      (required : WorkspaceRole) (m : UserWorkspace) :
  WorkspaceRoute.verifyWorkspaceAccess st workspaceId userId required = inr m ->
  Prisma.findFirst (WorkspaceRoute.whereMembership workspaceId userId)
                   (userWorkspaces st) = Some m
  /\ WorkspaceRoute.roleHierarchy required <= WorkspaceRoute.roleHierarchy (uw_role m).
Proof.
  unfold WorkspaceRoute.verifyWorkspaceAccess, ret, throw.
  destruct (Prisma.findFirst _ _) as [m'|]; [|discriminate].
  destruct (WorkspaceRoute.roleHierarchy (uw_role m')
            <? WorkspaceRoute.roleHierarchy required) eqn:Hlt; [discriminate|].
  intros H. injection H as <-. apply Nat.ltb_ge in Hlt. split; [reflexivity|exact Hlt].
Qed.

Lemma verifyWorkspaceAccess_member (st : Store) (workspaceId userId : string)
      (required role : WorkspaceRole) :
  memberAs st workspaceId userId role ->
  WorkspaceRoute.verifyWorkspaceAccess st workspaceId userId required
  = if WorkspaceRoute.roleHierarchy role <? WorkspaceRoute.roleHierarchy required
    then throw (JsError "Insufficient permissions")
    else match Prisma.findFirst (WorkspaceRoute.whereMembership workspaceId userId)
                                (userWorkspaces st) with
         | Some m => ret m
         | None => throw (JsError "Workspace not found or access denied")
         end.
Proof.
  intros [m [Hfound Hrole]]. unfold WorkspaceRoute.verifyWorkspaceAccess.
  rewrite Hfound, Hrole. reflexivity.
Qed.

(** X4. The writes of /api/workspaces/[id] are gated by the role: an
    update succeeds only for a signed-in ADMIN or OWNER of the
    workspace, a delete only for its OWNER; a request that does not
    succeed leaves the store as it was. *)
Theorem workspace_writes_are_gated (st : Store) (session : Session)
        (workspaceId : string) :
  (forall body now,
      status (fst (WorkspaceItem.PUT st session workspaceId body now)) = 200 ->
      exists user role,
        session = Some user
        /\ memberAs st workspaceId (user_id user) role
        /\ role <> MEMBER)
  /\ (forall now,
         status (fst (WorkspaceItem.DELETE st session workspaceId now)) = 200 ->
         exists user,
           session = Some user /\ memberAs st workspaceId (user_id user) OWNER)
  /\ (forall body now,
         status (fst (WorkspaceItem.PUT st session workspaceId body now)) <> 200 ->
         snd (WorkspaceItem.PUT st session workspaceId body now) = st)
  /\ (forall now,
         status (fst (WorkspaceItem.DELETE st session workspaceId now)) <> 200 ->
         snd (WorkspaceItem.DELETE st session workspaceId now) = st).
Proof.
  split; [|split; [|split]].
  - intros body now. unfold WorkspaceItem.PUT.
    destruct session as [user|]; [|cbn; discriminate].
    destruct (WorkspaceRoute.verifyWorkspaceAccess st workspaceId (user_id user) ADMIN)
      as [e|m] eqn:Hverify.
    + destruct e as [msg|]; cbn; [destruct (Js.includes msg "permissions")|];
        cbn; discriminate.
    + intros _. apply verifyWorkspaceAccess_inr in Hverify.
      destruct Hverify as [Hfound Hrank].
      exists user, (uw_role m). split; [reflexivity|]. split.
      * exists m. split; [exact Hfound|reflexivity].
      * intros Hmember. rewrite Hmember in Hrank. simpl in Hrank. lia.
  - intros now. unfold WorkspaceItem.DELETE.
    destruct session as [user|]; [|cbn; discriminate].
    destruct (WorkspaceRoute.verifyWorkspaceAccess st workspaceId (user_id user) OWNER)
      as [e|m] eqn:Hverify.
    + destruct e as [msg|]; cbn; [destruct (Js.includes msg "permissions")|];
        cbn; discriminate.
    + intros _. apply verifyWorkspaceAccess_inr in Hverify.
      destruct Hverify as [Hfound Hrank].
      exists user. split; [reflexivity|]. exists m. split; [exact Hfound|].
      destruct (uw_role m); simpl in Hrank; [lia|lia|reflexivity].
  - intros body now. unfold WorkspaceItem.PUT.
    destruct session as [user|]; [|reflexivity].
    destruct (let* _ := WorkspaceRoute.verifyWorkspaceAccess st workspaceId
                          (user_id user) ADMIN in body) as [e|updateData];
      [reflexivity|].
    destruct (WorkspaceItem.checkSlug st workspaceId _) as [response|]; [reflexivity|].
    destruct (WorkspaceItem.updateWorkspace _ _ _) as [e|rows]; [reflexivity|].
    cbn. intros Habs. contradiction Habs. reflexivity.
  - intros now. unfold WorkspaceItem.DELETE.
    destruct session as [user|]; [|reflexivity].
    destruct (let* _ := WorkspaceRoute.verifyWorkspaceAccess st workspaceId
                          (user_id user) OWNER in _) as [e|rows]; [reflexivity|].
    cbn. intros Habs. contradiction Habs. reflexivity.
Qed.

(** [alice] owns [wsA], and deletes it. *)
Lemma workspace_writes_are_gated_witness :
  exists user,
    Some Sample.alice = Some user
    /\ memberAs Sample.store "wsA" (user_id user) OWNER.
Proof.
  apply (proj1 (proj2 (workspace_writes_are_gated Sample.store (Some Sample.alice) "wsA"))
               700%Z).
  reflexivity.
Defined.

(** X5. What a signed-in user short of the role is answered: a MEMBER who
    updates the workspace, and a MEMBER or an ADMIN who deletes it, get
    403 "Insufficient permissions". *)
Theorem insufficient_role_is_answered_403 (st : Store) (user : SessionUser)
        (workspaceId : string) (role : WorkspaceRole)
        (Hrole : memberAs st workspaceId (user_id user) role) :
  (role = MEMBER ->
   forall body now,
     WorkspaceItem.PUT st (Some user) workspaceId body now
     = (errorResponse 403 "Insufficient permissions", st))
  /\ (role <> OWNER ->
      forall now,
        WorkspaceItem.DELETE st (Some user) workspaceId now
        = (errorResponse 403 "Insufficient permissions", st)).
Proof.
  split.
  - intros -> body now. unfold WorkspaceItem.PUT.
    rewrite (verifyWorkspaceAccess_member _ _ _ ADMIN MEMBER Hrole). reflexivity.
  - intros Hnot now. unfold WorkspaceItem.DELETE.
    rewrite (verifyWorkspaceAccess_member _ _ _ OWNER role Hrole).
    destruct role; [reflexivity|reflexivity|contradiction Hnot; reflexivity].
Qed.

(** [bob] administers [wsA]: he cannot delete it. *)
Lemma insufficient_role_is_answered_403_witness :
  WorkspaceItem.DELETE Sample.store (Some Sample.bob) "wsA" 700
  = (errorResponse 403 "Insufficient permissions", Sample.store).
Proof.
  assert (Hrole : memberAs Sample.store "wsA" (user_id Sample.bob) ADMIN).
  { exists Sample.bobInA. split; reflexivity. }
  apply (proj2 (insufficient_role_is_answered_403 Sample.store Sample.bob "wsA" ADMIN
                                                  Hrole)).
  discriminate.
Defined.

(** X6. A signed-in user who is not a member of the workspace is answered
    403 by GET /api/workspaces/[id] and 500 by its PUT and DELETE: the
    message of the failed lookup, "Workspace not found or access
    denied", is the one the GET handler looks for and not the one the
    write handlers look for.  Nothing is written. *)
Theorem non_member_of_workspace_is_refused (st : Store) (user : SessionUser)
        (workspaceId : string)
        (Hout : notMember st workspaceId (user_id user)) :
  WorkspaceItem.GET st (Some user) workspaceId
  = errorResponse 403 "Workspace not found or access denied"
  /\ (forall body now,
         WorkspaceItem.PUT st (Some user) workspaceId body now
         = (internalServerError, st))
  /\ (forall now,
         WorkspaceItem.DELETE st (Some user) workspaceId now
         = (internalServerError, st)).
Proof.
  pose proof (no_membership_found st workspaceId (user_id user) Hout) as Hnone.
  repeat split; intros.
  - unfold WorkspaceItem.GET. lookup_fails Hnone.
  - unfold WorkspaceItem.PUT. lookup_fails Hnone.
  - unfold WorkspaceItem.DELETE. lookup_fails Hnone.
Qed.

Lemma non_member_of_workspace_is_refused_witness :
  WorkspaceItem.GET Sample.store (Some Sample.bob) "wsB"
  = errorResponse 403 "Workspace not found or access denied"
  /\ WorkspaceItem.DELETE Sample.store (Some Sample.bob) "wsB" 700
     = (internalServerError, Sample.store).
Proof.
  assert (Hout : notMember Sample.store "wsB" (user_id Sample.bob)).
  { intros m Hm [Hws Huser]. simpl in Hm.
    destruct Hm as [<-|[<-|[<-|[]]]]; discriminate. }
  pose proof (non_member_of_workspace_is_refused Sample.store Sample.bob "wsB" Hout)
    as [Hget [_ Hdelete]].
  split; [exact Hget|exact (Hdelete 700%Z)].
Defined.

Lemma workspace_DELETE_ok (st : Store) (session : Session) (workspaceId : string)
      (now : Z) :
  status (fst (WorkspaceItem.DELETE st session workspaceId now)) = 200 ->
  exists user m,
    session = Some user
    /\ WorkspaceRoute.verifyWorkspaceAccess st workspaceId (user_id user) OWNER = inr m
    /\ existsb (fun w => (ws_id w =? workspaceId)%string) (workspaces st) = true
    /\ snd (WorkspaceItem.DELETE st session workspaceId now)
       = with_workspaces st
           (map (fun w => if (ws_id w =? workspaceId)%string
                          then WorkspaceItem.markDeleted now w else w)
                (workspaces st)).
Proof.
  unfold WorkspaceItem.DELETE.
  destruct session as [user|]; [|cbn; discriminate].
  destruct (WorkspaceRoute.verifyWorkspaceAccess st workspaceId (user_id user) OWNER)
    as [e|m] eqn:Hverify.
  - destruct e as [msg|]; cbn; [destruct (Js.includes msg "permissions")|];
      cbn; discriminate.
  - cbn.
    destruct (Prisma.update _ _ (workspaces st)) as [e|rows] eqn:Hupdate.
    + destruct e as [msg|]; cbn; [destruct (Js.includes msg "permissions")|];
        cbn; discriminate.
    + intros _. apply update_inr in Hupdate. destruct Hupdate as [-> Hex].
      exists user, m. split; [reflexivity|]. split; [exact Hverify|].
      split; [exact Hex|reflexivity].
Qed.

Lemma marked_rows (workspaceId : string) (now : Z) (rows : list Workspace)
      (w : Workspace) :
  In w (map (fun w => if (ws_id w =? workspaceId)%string
                      then WorkspaceItem.markDeleted now w else w) rows) ->
  ws_id w = workspaceId -> ws_deletedAt w = Some now.
Proof.
  intros Hin Hid. apply in_map_iff in Hin. destruct Hin as [w0 [Hw0 _]].
  destruct (ws_id w0 =? workspaceId)%string eqn:Heq.
  - subst w. reflexivity.
  - subst w. apply String.eqb_neq in Heq. contradiction.
Qed.

(** X7. Once its owner has deleted a workspace, the three reads of
    workspaces leave it out: GET /api/workspaces/[id] does not succeed
    for anyone, the listing of GET /api/workspaces and the lookup by
    slug omit it.  The delete touches the workspace row only, and the
    handlers below the workspace do not look at the mark: the posts of
    the workspace are listed to its members as before, and the read of
    one of its posts succeeds as before and still returns the workspace
    row with its id, now marked as deleted. *)
Theorem deleted_workspace_is_hidden_from_workspace_reads_only
        (st : Store) (session : Session) (workspaceId : string) (now : Z)
        (Hok : status (fst (WorkspaceItem.DELETE st session workspaceId now)) = 200) :
  let st' := snd (WorkspaceItem.DELETE st session workspaceId now) in
  (forall reader, status (WorkspaceItem.GET st' reader workspaceId) <> 200)
  /\ (forall reader views v,
         data (WorkspacesRoute.GET (Connected st') reader) = Some views ->
         In v views ->
         ws_id (WorkspacesRoute.wv_workspace v) <> workspaceId)
  /\ (forall reader slug summary,
         data (BySlugRoute.GET st' reader slug) = Some summary ->
         BySlugRoute.sum_id summary <> workspaceId)
  /\ (forall reader params,
         PostsRoute.GET st' reader workspaceId params
         = PostsRoute.GET st reader workspaceId params)
  /\ (forall reader postId,
         status (PostRoute.GET st' reader workspaceId postId)
         = status (PostRoute.GET st reader workspaceId postId)
         /\ forall d,
             data (PostRoute.GET st' reader workspaceId postId) = Some d ->
             exists w,
               PostRoute.det_workspace d = Some w
               /\ In w (workspaces st')
               /\ ws_id w = workspaceId
               /\ ws_deletedAt w = Some now)
  /\ posts st' = posts st
  /\ userWorkspaces st' = userWorkspaces st.
Proof.
  destruct (workspace_DELETE_ok _ _ _ _ Hok) as [user [m [_ [_ [Hex Hst']]]]].
  cbv zeta. rewrite Hst'. clear Hst' Hok.
  pose proof (marked_rows workspaceId now (workspaces st)) as Hmarked.
  assert (Hstored : exists w,
             In w (map (fun w => if (ws_id w =? workspaceId)%string
                                 then WorkspaceItem.markDeleted now w else w)
                       (workspaces st))
             /\ (ws_id w =? workspaceId)%string = true).
  { apply existsb_exists in Hex. destruct Hex as [w0 [Hw0 Hid]].
    exists (WorkspaceItem.markDeleted now w0). split; [|exact Hid].
    apply in_map_iff. exists w0. rewrite Hid. split; [reflexivity|exact Hw0]. }
  set (rows := map _ (workspaces st)) in *.
  split; [|split; [|split; [|split; [|split; [|split]]]]].
  - intros reader. unfold WorkspaceItem.GET.
    destruct reader as [r|]; [|cbn; discriminate].
    destruct (WorkspaceRoute.verifyWorkspaceAccess _ _ _ _) as [e|m'].
    + destruct e as [msg|]; cbn; [destruct (Js.includes msg "access denied")|];
        cbn; discriminate.
    + assert (Hnone : Prisma.findFirst
                        (fun w => (ws_id w =? workspaceId)%string
                                  && isNull (ws_deletedAt w))
                        (workspaces (with_workspaces st rows)) = None).
      { apply findFirst_none. intros w Hw. cbn in Hw.
        destruct (ws_id w =? workspaceId)%string eqn:Hid; [|reflexivity].
        apply String.eqb_eq in Hid. rewrite (Hmarked w Hw Hid). reflexivity. }
      rewrite Hnone. cbn. discriminate.
  - intros reader views v. unfold WorkspacesRoute.GET.
    destruct reader as [r|]; [|cbn; discriminate].
    cbn. intros Hdata. injection Hdata as <-. intros Hv Hid.
    apply in_map_iff in Hv. destruct Hv as [w [<- Hw]].
    unfold Prisma.orderByDesc in Hw. apply orderBy_In in Hw.
    apply filter_In in Hw. destruct Hw as [Hw Hlive].
    unfold WorkspacesRoute.whereMemberOf in Hlive.
    apply andb_true_iff in Hlive. destruct Hlive as [_ Hlive].
    cbn in Hid. rewrite (Hmarked w Hw Hid) in Hlive. discriminate Hlive.
  - intros reader slug summary. unfold BySlugRoute.GET.
    destruct reader as [r|]; [|cbn; discriminate].
    destruct (Prisma.findFirst _ _) as [w|] eqn:Hfound; [|cbn; discriminate].
    cbn. intros Hdata. injection Hdata as <-. cbn. intros Hid.
    apply findFirst_some in Hfound. destruct Hfound as [Hw Hmatch].
    unfold BySlugRoute.whereSlug in Hmatch.
    apply andb_true_iff in Hmatch. destruct Hmatch as [Hmatch _].
    apply andb_true_iff in Hmatch. destruct Hmatch as [_ Hlive].
    rewrite (Hmarked w Hw Hid) in Hlive. discriminate Hlive.
  - intros reader params. reflexivity.
  - intros reader postId. unfold PostRoute.GET.
    destruct reader as [r|]; [|split; [reflexivity|cbn; discriminate]].
    change (PostRoute.verifyPostAccess (with_workspaces st rows) workspaceId postId
                                       (user_id r))
      with (PostRoute.verifyPostAccess st workspaceId postId (user_id r)).
    destruct (PostRoute.verifyPostAccess st workspaceId postId (user_id r)) as [e|found].
    { split; [reflexivity|].
      destruct e as [msg|]; cbn; [destruct (Js.includes msg "Access denied")|];
        cbn; discriminate. }
    change (posts (with_workspaces st rows)) with (posts st).
    destruct (Prisma.findFirst (PostRoute.wherePost workspaceId postId) (posts st))
      as [post|] eqn:Hpost; [|split; [reflexivity|cbn; discriminate]].
    split; [reflexivity|].
    cbn [data]. intros d Hd. injection Hd as <-.
    apply findFirst_some in Hpost. destruct Hpost as [_ Hpost].
    apply wherePost_iff in Hpost. destruct Hpost as [_ [Hws _]].
    cbn [PostRoute.detailOf PostRoute.det_workspace workspaces with_workspaces].
    rewrite Hws.
    destruct Hstored as [w0 [Hw0 Hid0]].
    destruct (findFirst_hit (fun w => (ws_id w =? workspaceId)%string) rows w0 Hw0 Hid0)
      as [w Hw].
    exists w. split; [exact Hw|].
    apply findFirst_some in Hw. destruct Hw as [Hin Hid].
    apply String.eqb_eq in Hid.
    split; [exact Hin|]. split; [exact Hid|exact (Hmarked w Hin Hid)].
  - reflexivity.
  - reflexivity.
Qed.

(** [alice] deletes [wsA]; its posts are still listed to [bob], and the
    read of its post "p1" returns [wsA] to him. *)
Lemma deleted_workspace_is_hidden_from_workspace_reads_only_witness :
  let st' := snd (WorkspaceItem.DELETE Sample.store (Some Sample.alice) "wsA" 700) in
  status (WorkspaceItem.GET st' (Some Sample.bob) "wsA") <> 200
  /\ PostsRoute.GET st' (Some Sample.bob) "wsA" []
     = PostsRoute.GET Sample.store (Some Sample.bob) "wsA" []
  /\ status (PostRoute.GET st' (Some Sample.bob) "wsA" "p1")
     = status (PostRoute.GET Sample.store (Some Sample.bob) "wsA" "p1").
Proof.
  assert (Hok : status (fst (WorkspaceItem.DELETE Sample.store (Some Sample.alice)
                                                  "wsA" 700)) = 200)
    by reflexivity.
  pose proof (deleted_workspace_is_hidden_from_workspace_reads_only
                Sample.store (Some Sample.alice) "wsA" 700 Hok)
    as [Hget [_ [_ [Hposts [Hpost _]]]]].
  split; [exact (Hget (Some Sample.bob))|].
  split; [exact (Hposts (Some Sample.bob) [])|].
  exact (proj1 (Hpost (Some Sample.bob) "p1")).
Defined.

(** X8. Deleting a workspace again succeeds again: the handler does not
    look at [deletedAt], and the second delete overwrites the
    timestamp of the first. *)
Theorem workspace_delete_is_repeatable (st : Store) (session : Session)
        (workspaceId : string) (now : Z)
        (Hok : status (fst (WorkspaceItem.DELETE st session workspaceId now)) = 200) :
  let st' := snd (WorkspaceItem.DELETE st session workspaceId now) in
  forall later,
    status (fst (WorkspaceItem.DELETE st' session workspaceId later)) = 200
    /\ (exists w, In w (workspaces (snd (WorkspaceItem.DELETE st' session workspaceId
                                                              later)))
                  /\ ws_id w = workspaceId)
    /\ (forall w,
           In w (workspaces (snd (WorkspaceItem.DELETE st' session workspaceId later))) ->
           ws_id w = workspaceId -> ws_deletedAt w = Some later).
Proof.
  destruct (workspace_DELETE_ok _ _ _ _ Hok) as [user [m [-> [Hverify [Hex Hst']]]]].
  cbv zeta. rewrite Hst'. clear Hst' Hok. intros later.
  set (rows := map _ (workspaces st)).
  assert (Hex' : existsb (fun w => (ws_id w =? workspaceId)%string) rows = true).
  { apply existsb_exists in Hex. destruct Hex as [w [Hw Hid]].
    apply existsb_exists.
    exists (WorkspaceItem.markDeleted now w). split; [|exact Hid].
    apply in_map_iff. exists w. rewrite Hid. split; [reflexivity|exact Hw]. }
  assert (Hagain : WorkspaceItem.DELETE (with_workspaces st rows) (Some user)
                                        workspaceId later
                   = (mkResponse 200 true None (Some "Workspace deleted successfully")
                                 None,
                      with_workspaces (with_workspaces st rows)
                        (map (fun w => if (ws_id w =? workspaceId)%string
                                       then WorkspaceItem.markDeleted later w else w)
                             rows))).
  { unfold WorkspaceItem.DELETE.
    change (WorkspaceRoute.verifyWorkspaceAccess (with_workspaces st rows) workspaceId
                                                 (user_id user) OWNER)
      with (WorkspaceRoute.verifyWorkspaceAccess st workspaceId (user_id user) OWNER).
    rewrite Hverify. cbn. unfold Prisma.update. rewrite Hex'. reflexivity. }
  rewrite Hagain. cbn. split; [reflexivity|]. split.
  - apply existsb_exists in Hex'. destruct Hex' as [w [Hw Hid]].
    exists (WorkspaceItem.markDeleted later w). split.
    + apply in_map_iff. exists w. rewrite Hid. split; [reflexivity|exact Hw].
    + apply String.eqb_eq in Hid. exact Hid.
  - intros w Hw Hid. exact (marked_rows workspaceId later rows w Hw Hid).
Qed.

Lemma workspace_delete_is_repeatable_witness :
  status (fst (WorkspaceItem.DELETE
                 (snd (WorkspaceItem.DELETE Sample.store (Some Sample.alice) "wsA" 700))
                 (Some Sample.alice) "wsA" 800)) = 200.
Proof.
  assert (Hok : status (fst (WorkspaceItem.DELETE Sample.store (Some Sample.alice)
                                                  "wsA" 700)) = 200)
    by reflexivity.
  exact (proj1 (workspace_delete_is_repeatable Sample.store (Some Sample.alice) "wsA"
                                               700 Hok 800%Z)).
Defined.

Lemma updateWorkspace_inr (workspaceId : string) (data_ : Workspace -> Workspace)
      (rows rows' : list Workspace) :
  WorkspaceItem.updateWorkspace workspaceId data_ rows = inr rows' ->
  rows' = map (fun w => if (ws_id w =? workspaceId)%string then data_ w else w) rows
  /\ (exists w, In w rows /\ ws_id w = workspaceId)
  /\ (forall w q, In w rows -> In q rows -> ws_id w = workspaceId ->
                  ws_slug q = ws_slug (data_ w) -> ws_id q = workspaceId).
Proof.
  unfold WorkspaceItem.updateWorkspace.
  destruct (existsb _ rows) eqn:Hclash; [discriminate|].
  intros Hupdate. apply update_inr in Hupdate. destruct Hupdate as [-> Hex].
  split; [reflexivity|]. split.
  - apply existsb_exists in Hex. destruct Hex as [w [Hw Hid]].
    exists w. split; [exact Hw|]. apply String.eqb_eq. exact Hid.
  - intros w q Hw Hq Hid Hslug.
    destruct (ws_id q =? workspaceId)%string eqn:Hqid;
      [apply String.eqb_eq; exact Hqid|].
    assert (Habs : existsb
                     (fun w => (ws_id w =? workspaceId)%string
                               && existsb (fun q => negb (ws_id q =? workspaceId)%string
                                                    && (ws_slug q =? ws_slug (data_ w))%string)
                                          rows) rows = true).
    { apply existsb_exists. exists w. split; [exact Hw|].
      apply andb_true_iff. split; [apply String.eqb_eq; exact Hid|].
      apply existsb_exists. exists q. split; [exact Hq|].
      rewrite Hqid. simpl. apply String.eqb_eq. exact Hslug. }
    rewrite Habs in Hclash. discriminate Hclash.
Qed.

Lemma workspace_PUT_ok (st : Store) (session : Session) (workspaceId : string)
      (updateData : WorkspaceItem.UpdateData) (now : Z) :
  status (fst (WorkspaceItem.PUT st session workspaceId (ret updateData) now)) = 200 ->
  exists rows,
    WorkspaceItem.checkSlug (A := Workspace * list UserWorkspace) st workspaceId
                            (WorkspaceItem.ud_slug updateData) = None
    /\ WorkspaceItem.updateWorkspace workspaceId
         (WorkspaceItem.applyUpdate updateData now) (workspaces st) = inr rows
    /\ snd (WorkspaceItem.PUT st session workspaceId (ret updateData) now)
       = with_workspaces st rows.
Proof.
  unfold WorkspaceItem.PUT.
  destruct session as [user|]; [|cbn; discriminate].
  destruct (WorkspaceRoute.verifyWorkspaceAccess st workspaceId (user_id user) ADMIN)
    as [e|m].
  - destruct e as [msg|]; cbn; [destruct (Js.includes msg "permissions")|];
      cbn; discriminate.
  - cbn.
    destruct (WorkspaceItem.checkSlug st workspaceId (WorkspaceItem.ud_slug updateData))
      as [response|] eqn:Hcheck.
    + unfold WorkspaceItem.checkSlug in Hcheck.
      destruct (WorkspaceItem.ud_slug updateData) as [s|]; [|discriminate].
      destruct (Js.truthy s); [|discriminate].
      destruct (negb (VideoUtils.isValidSlug s)).
      * injection Hcheck as <-. cbn. discriminate.
      * destruct (Prisma.findFirst _ _); [|discriminate].
        injection Hcheck as <-. cbn. discriminate.
    + destruct (WorkspaceItem.updateWorkspace _ _ _) as [e|rows] eqn:Hupdate.
      * destruct e as [msg|]; cbn; [destruct (Js.includes msg "permissions")|];
          cbn; discriminate.
      * intros _. exists rows. split; [reflexivity|]. split; reflexivity.
Qed.

(** X9. The slug a successful PUT /api/workspaces/[id] leaves on the
    workspace: the stored one when the request has no slug; else the
    slug of the request, which is a valid slug or the empty string
    (the handler checks a slug only when it is truthy), and which no
    other workspace carries. *)
Theorem workspace_put_stores_checked_slug (st : Store) (session : Session)
        (workspaceId : string) (updateData : WorkspaceItem.UpdateData) (now : Z)
        (Hok : status (fst (WorkspaceItem.PUT st session workspaceId (ret updateData)
                                              now)) = 200) :
  let st' := snd (WorkspaceItem.PUT st session workspaceId (ret updateData) now) in
  (exists w', In w' (workspaces st') /\ ws_id w' = workspaceId)
  /\ forall w',
      In w' (workspaces st') -> ws_id w' = workspaceId ->
      match WorkspaceItem.ud_slug updateData with
      | None =>
          exists w, In w (workspaces st) /\ ws_id w = workspaceId
                    /\ ws_slug w' = ws_slug w
      | Some s =>
          ws_slug w' = s
          /\ (s = "" \/ VideoUtils.isValidSlug s = true)
          /\ (forall q, In q (workspaces st') -> ws_slug q = s ->
                        ws_id q = workspaceId)
      end.
Proof.
  destruct (workspace_PUT_ok _ _ _ _ _ Hok) as [rows [Hcheck [Hupdate Hst']]].
  cbv zeta. rewrite Hst'. clear Hst' Hok. cbn.
  apply updateWorkspace_inr in Hupdate.
  destruct Hupdate as [-> [[w0 [Hw0 Hid0]] Hfree]].
  split.
  - exists (WorkspaceItem.applyUpdate updateData now w0). split; [|exact Hid0].
    apply in_map_iff. exists w0. split; [|exact Hw0].
    apply String.eqb_eq in Hid0. rewrite Hid0. reflexivity.
  - intros w' Hw' Hid'.
    apply in_map_iff in Hw'. destruct Hw' as [w [Hw' Hw]].
    destruct (ws_id w =? workspaceId)%string eqn:Hid.
    2: { subst w'. apply String.eqb_neq in Hid. contradiction. }
    apply String.eqb_eq in Hid. subst w'.
    pose proof (Hfree w) as Hfree_w.
    destruct (WorkspaceItem.ud_slug updateData) as [s|] eqn:Hslug.
    + assert (Hstored : ws_slug (WorkspaceItem.applyUpdate updateData now w) = s)
        by (unfold WorkspaceItem.applyUpdate; cbn; rewrite Hslug; reflexivity).
      split; [exact Hstored|]. split.
      * unfold WorkspaceItem.checkSlug in Hcheck.
        destruct s as [|c s]; [left; reflexivity|]. right.
        cbn in Hcheck.
        destruct (VideoUtils.isValidSlug (String c s)); [reflexivity|].
        cbn in Hcheck. discriminate Hcheck.
      * intros q Hq Hqslug.
        apply in_map_iff in Hq. destruct Hq as [q0 [Hq Hq0]].
        destruct (ws_id q0 =? workspaceId)%string eqn:Hqid.
        -- subst q. apply String.eqb_eq. exact Hqid.
        -- subst q. apply (Hfree_w q0 Hw Hq0 Hid). rewrite Hstored. exact Hqslug.
    + exists w. split; [exact Hw|]. split; [exact Hid|].
      unfold WorkspaceItem.applyUpdate. cbn. rewrite Hslug. reflexivity.
Qed.

(** [bob], who administers [wsA], gives it the empty slug. *)
Lemma workspace_put_stores_checked_slug_witness :
  exists w',
    In w' (workspaces
             (snd (WorkspaceItem.PUT Sample.store (Some Sample.bob) "wsA"
                     (ret (WorkspaceItem.mkUpdateData None None (Some ""))) 700)))
    /\ ws_id w' = "wsA" /\ ws_slug w' = "".
Proof.
  assert (Hok : status (fst (WorkspaceItem.PUT Sample.store (Some Sample.bob) "wsA"
                               (ret (WorkspaceItem.mkUpdateData None None (Some "")))
                               700)) = 200)
    by reflexivity.
  destruct (workspace_put_stores_checked_slug Sample.store (Some Sample.bob) "wsA"
              (WorkspaceItem.mkUpdateData None None (Some "")) 700 Hok)
    as [[w' [Hw' Hid']] Hall].
  exists w'. split; [exact Hw'|]. split; [exact Hid'|].
  exact (proj1 (Hall w' Hw' Hid')).
Defined.

(** X10. An ADMIN or OWNER who sends a slug that is not valid is answered
    400 "Invalid slug format", and one who sends the slug of another
    workspace, deleted or not, 400 "Slug already exists"; nothing is
    written. *)
Theorem workspace_put_refuses_slug (st : Store) (user : SessionUser)
        (workspaceId : string) (role : WorkspaceRole)
        (updateData : WorkspaceItem.UpdateData) (slug : string) (now : Z)
        (Hrole : memberAs st workspaceId (user_id user) role)
        (Hadmin : role <> MEMBER)
        (Hslug : WorkspaceItem.ud_slug updateData = Some slug)
        (Htruthy : slug <> "") :
  (VideoUtils.isValidSlug slug = false ->
   WorkspaceItem.PUT st (Some user) workspaceId (ret updateData) now
   = (errorResponse 400 "Invalid slug format", st))
  /\ (VideoUtils.isValidSlug slug = true ->
      (exists other, In other (workspaces st) /\ ws_slug other = slug
                     /\ ws_id other <> workspaceId) ->
      WorkspaceItem.PUT st (Some user) workspaceId (ret updateData) now
      = (errorResponse 400 "Slug already exists", st)).
Proof.
  assert (Hverify : exists m,
             WorkspaceRoute.verifyWorkspaceAccess st workspaceId (user_id user) ADMIN
             = inr m).
  { rewrite (verifyWorkspaceAccess_member _ _ _ ADMIN role Hrole).
    destruct Hrole as [m [Hfound _]]. rewrite Hfound. exists m.
    destruct role; [contradiction Hadmin; reflexivity|reflexivity|reflexivity]. }
  destruct Hverify as [m Hverify].
  assert (Htrue : Js.truthy slug = true) by (destruct slug; [contradiction|reflexivity]).
  split.
  - intros Hinvalid. unfold WorkspaceItem.PUT. rewrite Hverify. cbn.
    unfold WorkspaceItem.checkSlug. rewrite Hslug, Htrue, Hinvalid. reflexivity.
  - intros Hvalid [other [Hother [Hoslug Hoid]]].
    unfold WorkspaceItem.PUT. rewrite Hverify. cbn.
    unfold WorkspaceItem.checkSlug. rewrite Hslug, Htrue, Hvalid. cbn.
    destruct (Prisma.findFirst _ (workspaces st)) as [w|] eqn:Hfound; [reflexivity|].
    exfalso. pose proof (proj1 (findFirst_none _ _) Hfound other Hother) as Hno.
    cbn in Hno. apply String.eqb_eq in Hoslug. apply String.eqb_neq in Hoid.
    rewrite Hoslug, Hoid in Hno. discriminate Hno.
Qed.

(** [bob] cannot give [wsA] the slug of [wsB]. *)
Lemma workspace_put_refuses_slug_witness :
  WorkspaceItem.PUT Sample.store (Some Sample.bob) "wsA"
                    (ret (WorkspaceItem.mkUpdateData None None (Some "garden"))) 700
  = (errorResponse 400 "Slug already exists", Sample.store).
Proof.
  assert (Hrole : memberAs Sample.store "wsA" (user_id Sample.bob) ADMIN).
  { exists Sample.bobInA. split; reflexivity. }
  apply (proj2 (workspace_put_refuses_slug Sample.store Sample.bob "wsA" ADMIN
                  (WorkspaceItem.mkUpdateData None None (Some "garden")) "garden" 700
                  Hrole ltac:(discriminate) eq_refl ltac:(discriminate))).
  - reflexivity.
  - exists Sample.workspaceB. split; [simpl; auto|]. split; [reflexivity|discriminate].
Defined.

(* ================================================================== *)
(** ** Affiliate links and the active link of a product *)

Lemma verifyLinkAccess_inr (st : Store) (workspaceId linkId userId : string)
      (m : UserWorkspace) (link : AffiliateLink) (product : option Product) :
  SetActiveRoute.verifyLinkAccess st workspaceId linkId userId
  = inr (m, (link, product)) ->
  In link (affiliateLinks st)
  /\ link_id link = linkId
  /\ link_workspaceId link = workspaceId
  /\ product = Prisma.findFirst (fun p => (prod_id p =? link_productId link)%string)
                                (products st).
Proof.
  unfold SetActiveRoute.verifyLinkAccess, ret, throw.
  destruct (Prisma.findFirst _ (userWorkspaces st)) as [m'|]; [|discriminate].
  destruct (Prisma.findFirst _ (affiliateLinks st)) as [l|] eqn:Hlink; [|discriminate].
  intros H. injection H as <- <- <-.
  apply findFirst_some in Hlink. destruct Hlink as [Hin Hmatch].
  apply andb_true_iff in Hmatch. rewrite !String.eqb_eq in Hmatch.
  destruct Hmatch as [Hid Hws]. auto.
Qed.

(** What the two handlers of set-active can do to the store: nothing,
    or set the active link of the rows of one product id, which is the
    product id of a link of the workspace. *)
Lemma set_active_store (st : Store) (session : Session) (workspaceId linkId : string)
      (st' : Store) :
  st' = snd (SetActiveRoute.POST st session workspaceId linkId)
  \/ st' = snd (SetActiveRoute.DELETE st session workspaceId linkId) ->
  st' = st
  \/ exists link active,
       In link (affiliateLinks st)
       /\ link_id link = linkId
       /\ link_workspaceId link = workspaceId
       /\ st' = with_products st
                  (map (fun p => if (prod_id p =? link_productId link)%string
                                 then SetActiveRoute.setActive active p else p)
                       (products st)).
Proof.
  intros [->| ->].
  - unfold SetActiveRoute.POST.
    destruct session as [user|]; [|left; reflexivity].
    destruct (SetActiveRoute.verifyLinkAccess st workspaceId linkId (user_id user))
      as [e|[m [link product]]] eqn:Hverify; [left; reflexivity|].
    apply verifyLinkAccess_inr in Hverify. destruct Hverify as [Hin [Hid [Hws _]]].
    destruct (Prisma.update _ _ (products st)) as [e|rows] eqn:Hupdate;
      [left; reflexivity|].
    apply update_inr in Hupdate. destruct Hupdate as [-> _].
    right. exists link, (Some linkId). auto.
  - unfold SetActiveRoute.DELETE.
    destruct session as [user|]; [|left; reflexivity].
    destruct (SetActiveRoute.verifyLinkAccess st workspaceId linkId (user_id user))
      as [e|[m [link product]]] eqn:Hverify; [left; reflexivity|].
    apply verifyLinkAccess_inr in Hverify. destruct Hverify as [Hin [Hid [Hws _]]].
    destruct product as [product|]; [|left; reflexivity].
    destruct (prod_activeAffiliateLinkId product) as [active|]; [|left; reflexivity].
    destruct (active =? linkId)%string; [|left; reflexivity].
    destruct (Prisma.update _ _ (products st)) as [e|rows] eqn:Hupdate;
      [left; reflexivity|].
    apply update_inr in Hupdate. destruct Hupdate as [-> _].
    right. exists link, None. auto.
Qed.

Lemma Scoped_products_rewritten (st : Store) (f : Product -> Product) :
  (forall p, prod_id (f p) = prod_id p /\ prod_workspaceId (f p) = prod_workspaceId p) ->
  Scoped st -> Scoped (with_products st (map f (products st))).
Proof.
  intros Hf [Hpk Hqk Htp Hts Hls].
  assert (Hback : forall prod, In prod (map f (products st)) ->
                               exists p, In p (products st)
                                         /\ prod_id prod = prod_id p
                                         /\ prod_workspaceId prod = prod_workspaceId p).
  { intros prod Hprod. apply in_map_iff in Hprod. destruct Hprod as [p [<- Hp]].
    exists p. destruct (Hf p) as [Hid Hws]. auto. }
  constructor; cbn.
  - rewrite map_map.
    rewrite (map_ext (fun p => prod_id (f p)) prod_id); [exact Hpk|].
    intros p. apply Hf.
  - exact Hqk.
  - exact Htp.
  - intros pp post prod Hpp Hpost Hprod Hid Hpid.
    destruct (Hback prod Hprod) as [p [Hp [Hsame Hws]]].
    rewrite Hws. apply (Hts pp post p); auto. rewrite <- Hsame. exact Hpid.
  - intros l prod Hl Hprod Hid.
    destruct (Hback prod Hprod) as [p [Hp [Hsame Hws]]].
    rewrite Hws. apply (Hls l p); auto. rewrite <- Hsame. exact Hid.
Qed.

(** X11. In a scoped store, setting or clearing the active link of a
    product through a workspace reaches products of that workspace
    only: the products of every other workspace are stored as before,
    no product is added, removed or moved, no other table is written,
    and the store stays scoped. *)
Theorem set_active_stays_in_workspace (st : Store) (session : Session)
        (workspaceId linkId : string) (st' : Store)
        (Hsc : Scoped st)
        (Hst' : st' = snd (SetActiveRoute.POST st session workspaceId linkId)
                \/ st' = snd (SetActiveRoute.DELETE st session workspaceId linkId)) :
  Scoped st'
  /\ (forall p, In p (products st) -> prod_workspaceId p <> workspaceId ->
                In p (products st'))
  /\ map prod_id (products st') = map prod_id (products st)
  /\ map prod_workspaceId (products st') = map prod_workspaceId (products st)
  /\ affiliateLinks st' = affiliateLinks st
  /\ posts st' = posts st
  /\ postProducts st' = postProducts st.
Proof.
  destruct (set_active_store _ _ _ _ _ Hst')
    as [->|[link [active [Hlink [Hid [Hws ->]]]]]].
  - repeat (split; [auto|]). reflexivity.
  - set (f := fun p => if (prod_id p =? link_productId link)%string
                       then SetActiveRoute.setActive active p else p).
    assert (Hf : forall p, prod_id (f p) = prod_id p
                           /\ prod_workspaceId (f p) = prod_workspaceId p).
    { intros p. unfold f. destruct (prod_id p =? link_productId link)%string;
        split; reflexivity. }
    split; [exact (Scoped_products_rewritten st f Hf Hsc)|].
    split; [|split; [|split; [|split; [|split]]]]; cbn; try reflexivity.
    + intros p Hp Hother. apply in_map_iff. exists p. split; [|exact Hp].
      unfold f. destruct (prod_id p =? link_productId link)%string eqn:Hpid;
        [|reflexivity].
      exfalso. apply Hother. apply String.eqb_eq in Hpid.
      rewrite <- Hws. exact (scoped_links st Hsc link p Hlink Hp Hpid).
    + rewrite map_map. apply map_ext. intros p. apply Hf.
    + rewrite map_map. apply map_ext. intros p. apply Hf.
Qed.

(** [alice] makes [l1] the active link of its product in [wsA]: the
    product of [wsB] is stored as before. *)
Lemma set_active_stays_in_workspace_witness :
  In Sample.hoseY
     (products (snd (SetActiveRoute.POST Sample.store (Some Sample.alice) "wsA" "l1"))).
Proof.
  destruct (set_active_stays_in_workspace Sample.store (Some Sample.alice) "wsA" "l1"
              _ sample_store_scoped (or_introl eq_refl)) as [_ [Hother _]].
  apply Hother; [simpl; auto|discriminate].
Defined.

(** X12. Clearing the active status through one link never clears the
    active status another link has: with product ids unique, a product
    whose active link is not the link of the request is stored as
    before. *)
Theorem clearing_spares_other_links (st : Store) (session : Session)
        (workspaceId linkId : string)
        (Hkey : NoDup (map prod_id (products st))) :
  forall p,
    In p (products st) ->
    prod_activeAffiliateLinkId p <> Some linkId ->
    In p (products (snd (SetActiveRoute.DELETE st session workspaceId linkId))).
Proof.
  intros p Hp Hother. unfold SetActiveRoute.DELETE.
  destruct session as [user|]; [|exact Hp].
  destruct (SetActiveRoute.verifyLinkAccess st workspaceId linkId (user_id user))
    as [e|[m [link product]]] eqn:Hverify; [exact Hp|].
  apply verifyLinkAccess_inr in Hverify. destruct Hverify as [_ [_ [_ Hproduct]]].
  destruct product as [product|]; [|exact Hp].
  destruct (prod_activeAffiliateLinkId product) as [active|] eqn:Hactive; [|exact Hp].
  destruct (active =? linkId)%string eqn:Heq; [|exact Hp].
  destruct (Prisma.update _ _ (products st)) as [e|rows] eqn:Hupdate; [exact Hp|].
  apply update_inr in Hupdate. destruct Hupdate as [-> _]. cbn.
  apply in_map_iff. exists p. split; [|exact Hp].
  destruct (prod_id p =? link_productId link)%string eqn:Hpid; [|reflexivity].
  exfalso. symmetry in Hproduct. apply findFirst_some in Hproduct.
  destruct Hproduct as [Hin Hid]. apply String.eqb_eq in Hid, Hpid, Heq.
  assert (Hsame : p = product)
    by (apply (key_unique prod_id (products st)); auto; congruence).
  apply Hother. rewrite Hsame, Hactive, Heq. reflexivity.
Qed.

Lemma clearing_spares_other_links_witness :
  In Sample.hoseY
     (products (snd (SetActiveRoute.DELETE Sample.store (Some Sample.alice) "wsA" "l1"))).
Proof.
  apply clearing_spares_other_links.
  - simpl. repeat constructor; simpl; intuition discriminate.
  - simpl. auto.
  - discriminate.
Defined.

(** X13. Setting a link active and then clearing it: after the set every
    stored product of the link's product id has the link as its active
    link; the clear by the same caller then succeeds and leaves every
    such product without active link. *)
Theorem set_then_clear_active (st : Store) (session : Session)
        (workspaceId linkId : string)
        (Hok : status (fst (SetActiveRoute.POST st session workspaceId linkId)) = 200) :
  let st1 := snd (SetActiveRoute.POST st session workspaceId linkId) in
  let st2 := snd (SetActiveRoute.DELETE st1 session workspaceId linkId) in
  exists link,
    In link (affiliateLinks st) /\ link_id link = linkId
    /\ link_workspaceId link = workspaceId
    /\ (exists p, In p (products st1) /\ prod_id p = link_productId link)
    /\ (forall p, In p (products st1) -> prod_id p = link_productId link ->
                  prod_activeAffiliateLinkId p = Some linkId)
    /\ status (fst (SetActiveRoute.DELETE st1 session workspaceId linkId)) = 200
    /\ (forall p, In p (products st2) -> prod_id p = link_productId link ->
                  prod_activeAffiliateLinkId p = None).
Proof.
  cbv zeta. revert Hok. unfold SetActiveRoute.POST.
  destruct session as [user|]; [|cbn; discriminate].
  destruct (SetActiveRoute.verifyLinkAccess st workspaceId linkId (user_id user))
    as [e|[m [link product]]] eqn:Hverify.
  { destruct e as [msg|]; cbn; [destruct (Js.includes msg "Access denied")|];
      cbn; discriminate. }
  destruct (Prisma.update _ _ (products st)) as [e|rows] eqn:Hupdate.
  { destruct e as [msg|]; cbn; [destruct (Js.includes msg "Access denied")|];
      cbn; discriminate. }
  intros _. cbn [snd].
  pose proof (verifyLinkAccess_inr _ _ _ _ _ _ _ Hverify) as [Hin [Hid [Hws _]]].
  apply update_inr in Hupdate. destruct Hupdate as [-> Hex].
  set (rows := map _ (products st)).
  assert (Hset : forall p, In p rows -> prod_id p = link_productId link ->
                           prod_activeAffiliateLinkId p = Some linkId).
  { intros p Hp Hpid. apply in_map_iff in Hp. destruct Hp as [p0 [Hp0 _]].
    destruct (prod_id p0 =? link_productId link)%string eqn:Hp0id.
    - subst p. reflexivity.
    - subst p. apply String.eqb_neq in Hp0id. contradiction. }
  assert (Hsome : exists p, In p rows /\ prod_id p = link_productId link).
  { apply existsb_exists in Hex. destruct Hex as [p [Hp Hpid]].
    exists (SetActiveRoute.setActive (Some linkId) p). split.
    - apply in_map_iff. exists p. rewrite Hpid. split; [reflexivity|exact Hp].
    - apply String.eqb_eq in Hpid. exact Hpid. }
  exists link. split; [exact Hin|]. split; [exact Hid|]. split; [exact Hws|].
  split; [exact Hsome|]. split; [exact Hset|].
  (* the clear finds the same link, and its product with the link active *)
  assert (Hverify' :
            exists product,
              SetActiveRoute.verifyLinkAccess (with_products st rows) workspaceId linkId
                                              (user_id user)
              = inr (m, (link, Some product))
              /\ In product rows /\ prod_id product = link_productId link).
  { revert Hverify. unfold SetActiveRoute.verifyLinkAccess, ret, throw.
    cbn [with_products userWorkspaces affiliateLinks products].
    destruct (Prisma.findFirst _ (userWorkspaces st)) as [m'|]; [|discriminate].
    destruct (Prisma.findFirst _ (affiliateLinks st)) as [l|]; [|discriminate].
    intros H. injection H as <- <- _.
    destruct Hsome as [p [Hp Hpid]].
    destruct (findFirst_hit (fun p => (prod_id p =? link_productId l)%string) rows p Hp)
      as [hit Hhit]; [apply String.eqb_eq; exact Hpid|].
    exists hit. rewrite Hhit. split; [reflexivity|].
    apply findFirst_some in Hhit. destruct Hhit as [Hhit Hhid].
    apply String.eqb_eq in Hhid. auto. }
  destruct Hverify' as [current [Hverify' [Hcurrent Hpid]]].
  unfold SetActiveRoute.DELETE. rewrite Hverify'.
  rewrite (Hset current Hcurrent Hpid), String.eqb_refl. cbn [products with_products].
  rewrite (update_hit _ (SetActiveRoute.setActive None) rows current Hcurrent);
    [|apply String.eqb_eq; exact Hpid].
  cbn. split; [reflexivity|].
  intros p Hp Hpid'. apply in_map_iff in Hp. destruct Hp as [p0 [Hp0 _]].
  destruct (prod_id p0 =? link_productId link)%string eqn:Hp0id.
  - subst p. reflexivity.
  - subst p. apply String.eqb_neq in Hp0id. contradiction.
Qed.

Lemma set_then_clear_active_witness :
  status (fst (SetActiveRoute.DELETE
                 (snd (SetActiveRoute.POST Sample.store (Some Sample.alice) "wsA" "l1"))
                 (Some Sample.alice) "wsA" "l1")) = 200.
Proof.
  assert (Hok : status (fst (SetActiveRoute.POST Sample.store (Some Sample.alice)
                                                 "wsA" "l1")) = 200)
    by reflexivity.
  destruct (set_then_clear_active Sample.store (Some Sample.alice) "wsA" "l1" Hok)
    as [link [_ [_ [_ [_ [_ [Hclear _]]]]]]].
  exact Hclear.
Defined.

Lemma member_found (st : Store) (workspaceId userId : string) (role : WorkspaceRole) :
  memberAs st workspaceId userId role ->
  exists m,
    Prisma.findFirst
      (fun uw => (uw_workspaceId uw =? workspaceId)%string
                 && (uw_userId uw =? userId)%string)
      (userWorkspaces st) = Some m.
Proof. intros [m [Hfound _]]. exists m. exact Hfound. Qed.

(** ** Creating an affiliate link *)

(** X14. On any store, a created affiliate link is a link of the workspace
    of the request, a product with the id it names is stored in that
    workspace, no stored link of that product id has its affiliate URL,
    and nothing else is written.  Where the product ids are distinct
    (the primary key), every stored product the new link refers to is of
    the workspace of the link; and if the store was scoped before the
    request, it is scoped after it. *)
Theorem created_link_is_of_the_workspace (st : Store) (session : Session)
        (workspaceId : string) (validatedData : AffiliateLinkCreate.LinkData)
        (newId : string) (now : Z)
        (Hok : status (fst (AffiliateLinkCreate.POST st session workspaceId
                              (ret validatedData) newId now)) = 200) :
  let st' := snd (AffiliateLinkCreate.POST st session workspaceId (ret validatedData)
                                           newId now) in
  let link :=
    mkAffiliateLink newId workspaceId (AffiliateLinkCreate.ld_productId validatedData)
      (AffiliateLinkCreate.ld_name validatedData)
      (AffiliateLinkCreate.ld_originalUrl validatedData)
      (AffiliateLinkCreate.ld_affiliateUrl validatedData)
      (AffiliateLinkCreate.ld_platform validatedData) now in
  st' = with_affiliateLinks st (affiliateLinks st ++ [link])%list
  /\ data (fst (AffiliateLinkCreate.POST st session workspaceId (ret validatedData)
                                         newId now)) = Some link
  /\ (exists product,
         In product (products st)
         /\ prod_id product = AffiliateLinkCreate.ld_productId validatedData
         /\ prod_workspaceId product = workspaceId)
  /\ (forall l, In l (affiliateLinks st) ->
                link_productId l = AffiliateLinkCreate.ld_productId validatedData ->
                link_affiliateUrl l <> AffiliateLinkCreate.ld_affiliateUrl validatedData)
  /\ (NoDup (map prod_id (products st)) ->
      forall product,
        In product (products st') -> prod_id product = link_productId link ->
        prod_workspaceId product = link_workspaceId link)
  /\ (Scoped st -> Scoped st').
Proof.
  cbv zeta. revert Hok. unfold AffiliateLinkCreate.POST.
  destruct session as [user|]; [|cbn; discriminate].
  destruct (AffiliateLinksRoute.verifyWorkspaceAccess st workspaceId (user_id user))
    as [e|m].
  { destruct e as [msg|]; cbn; [destruct (Js.includes msg "Access denied")|];
      cbn; discriminate. }
  cbn [bind ret].
  destruct (Prisma.findFirst _ (products st)) as [product|] eqn:Hproduct;
    [|cbn; discriminate].
  destruct (Prisma.findFirst _ (affiliateLinks st)) as [taken|] eqn:Htaken;
    [cbn; discriminate|].
  destruct (Prisma.create _ _ (affiliateLinks st)) as [e|rows] eqn:Hcreate.
  { destruct e as [msg|]; cbn; [destruct (Js.includes msg "Access denied")|];
      cbn; discriminate. }
  intros _. cbn [fst snd data].
  assert (Hrows : rows = (affiliateLinks st ++ [mkAffiliateLink newId workspaceId
                            (AffiliateLinkCreate.ld_productId validatedData)
                            (AffiliateLinkCreate.ld_name validatedData)
                            (AffiliateLinkCreate.ld_originalUrl validatedData)
                            (AffiliateLinkCreate.ld_affiliateUrl validatedData)
                            (AffiliateLinkCreate.ld_platform validatedData) now])%list).
  { revert Hcreate. unfold Prisma.create, ret, throw.
    destruct (existsb _ (affiliateLinks st)); [discriminate|].
    intros H. injection H as <-. reflexivity. }
  subst rows.
  apply findFirst_some in Hproduct. destruct Hproduct as [Hin Hmatch].
  apply andb_true_iff in Hmatch. rewrite !String.eqb_eq in Hmatch.
  destruct Hmatch as [Hpid Hpws].
  split; [reflexivity|]. split; [reflexivity|].
  split; [exists product; auto|]. split.
  - intros l Hl Hlp Hurl.
    pose proof (proj1 (findFirst_none _ _) Htaken l Hl) as Hno. cbn in Hno.
    apply String.eqb_eq in Hlp, Hurl. rewrite Hlp, Hurl in Hno. discriminate Hno.
  - split.
    + intros Hpk prod Hprod Hid. cbn in Hprod, Hid |- *.
      rewrite <- Hpws. f_equal.
      apply (key_unique prod_id (products st)); auto. congruence.
    + intros [Hpk Hqk Htp Hts Hls]. constructor; cbn; try assumption.
      intros l prod Hl Hprod Hid. apply in_app_or in Hl. destruct Hl as [Hl|[<-|[]]].
      * exact (Hls l prod Hl Hprod Hid).
      * cbn in Hid |- *. rewrite <- Hpws. f_equal.
        apply (key_unique prod_id (products st)); auto. congruence.
Qed.

(** [alice] adds a second link to the lamp of [wsA]. *)
Lemma created_link_is_of_the_workspace_witness :
  exists product,
    In product (products Sample.store)
    /\ prod_id product = "prodA" /\ prod_workspaceId product = "wsA".
Proof.
  assert (Hok : status (fst (AffiliateLinkCreate.POST Sample.store (Some Sample.alice)
                               "wsA"
                               (ret (AffiliateLinkCreate.mkLinkData
                                       "Lazada" "https://lamp.example"
                                       "https://lazada.vn/lamp" "lazada" "prodA"))
                               "l3" 700)) = 200)
    by reflexivity.
  exact (proj1 (proj2 (proj2 (created_link_is_of_the_workspace
                                _ _ _ _ _ _ Hok)))).
Defined.

(** X15. A member who creates a link to a product that is not of the
    workspace is answered 404, and one who repeats an affiliate URL of
    the product 400; nothing is written. *)
Theorem link_create_refusals (st : Store) (user : SessionUser) (workspaceId : string)
        (role : WorkspaceRole) (validatedData : AffiliateLinkCreate.LinkData)
        (newId : string) (now : Z)
        (Hrole : memberAs st workspaceId (user_id user) role) :
  ((forall p, In p (products st) ->
              prod_id p = AffiliateLinkCreate.ld_productId validatedData ->
              prod_workspaceId p <> workspaceId) ->
   AffiliateLinkCreate.POST st (Some user) workspaceId (ret validatedData) newId now
   = (errorResponse 404 "Product not found or access denied", st))
  /\ ((exists p, In p (products st)
                 /\ prod_id p = AffiliateLinkCreate.ld_productId validatedData
                 /\ prod_workspaceId p = workspaceId) ->
      (exists l, In l (affiliateLinks st)
                 /\ link_productId l = AffiliateLinkCreate.ld_productId validatedData
                 /\ link_affiliateUrl l
                    = AffiliateLinkCreate.ld_affiliateUrl validatedData) ->
      AffiliateLinkCreate.POST st (Some user) workspaceId (ret validatedData) newId now
      = (errorResponse 400 "Affiliate URL already exists for this product", st)).
Proof.
  destruct (member_found _ _ _ _ Hrole) as [m Hfound].
  split.
  - intros Hforeign. unfold AffiliateLinkCreate.POST. lookup_succeeds Hfound.
    cbn [bind ret].
    destruct (Prisma.findFirst _ (products st)) as [p|] eqn:Hp; [|reflexivity].
    exfalso. apply findFirst_some in Hp. destruct Hp as [Hin Hmatch].
    apply andb_true_iff in Hmatch. rewrite !String.eqb_eq in Hmatch.
    destruct Hmatch as [Hid Hws]. exact (Hforeign p Hin Hid Hws).
  - intros [p [Hp [Hid Hws]]] [l [Hl [Hlp Hurl]]].
    unfold AffiliateLinkCreate.POST. lookup_succeeds Hfound. cbn [bind ret].
    destruct (findFirst_hit
                (fun p => (prod_id p =? AffiliateLinkCreate.ld_productId validatedData)%string
                          && (prod_workspaceId p =? workspaceId)%string)
                (products st) p Hp) as [hit ->].
    { apply andb_true_iff. rewrite !String.eqb_eq. auto. }
    destruct (findFirst_hit
                (fun l => (link_productId l
                           =? AffiliateLinkCreate.ld_productId validatedData)%string
                          && (link_affiliateUrl l
                              =? AffiliateLinkCreate.ld_affiliateUrl validatedData)%string)
                (affiliateLinks st) l Hl) as [taken ->].
    { apply andb_true_iff. rewrite !String.eqb_eq. auto. }
    reflexivity.
Qed.

(** [alice], a member of [wsB], cannot attach a link of [wsB] to the
    lamp of [wsA]. *)
Lemma link_create_refusals_witness :
  AffiliateLinkCreate.POST Sample.store (Some Sample.alice) "wsB"
    (ret (AffiliateLinkCreate.mkLinkData "Lazada" "https://lamp.example"
                                         "https://lazada.vn/lamp" "lazada" "prodA"))
    "l3" 700
  = (errorResponse 404 "Product not found or access denied", Sample.store).
Proof.
  assert (Hrole : memberAs Sample.store "wsB" (user_id Sample.alice) MEMBER).
  { exists Sample.aliceInB. split; reflexivity. }
  apply (proj1 (link_create_refusals Sample.store Sample.alice "wsB" MEMBER _ "l3" 700
                                     Hrole)).
  intros p Hp Hid. simpl in Hp. destruct Hp as [<-|[<-|[]]]; discriminate.
Defined.

(** ** The links of one product *)

(** X16. GET /api/workspaces/[id]/products/[productId]/affiliate-links, for
    a member of the workspace: a product that is not of the workspace
    is answered 404 with the message of the failed lookup; and every
    link returned is a stored link of the product and of the workspace,
    paired with a stored product of that id. *)
Theorem product_links_are_scoped (st : Store) (user : SessionUser)
        (workspaceId productId : string) (role : WorkspaceRole)
        (Hrole : memberAs st workspaceId (user_id user) role) :
  ((forall p, In p (products st) -> prod_id p = productId ->
              prod_workspaceId p <> workspaceId) ->
   ProductLinksRoute.GET st (Some user) workspaceId productId
   = errorResponse 404 "Product not found or access denied")
  /\ (forall rows l p,
         data (ProductLinksRoute.GET st (Some user) workspaceId productId) = Some rows ->
         In (l, p) rows ->
         In l (affiliateLinks st)
         /\ link_productId l = productId
         /\ link_workspaceId l = workspaceId
         /\ In p (products st)
         /\ prod_id p = productId).
Proof.
  destruct (member_found _ _ _ _ Hrole) as [m Hfound].
  split.
  - intros Hforeign. unfold ProductLinksRoute.GET. lookup_succeeds Hfound.
    cbn [bind ret]. unfold ProductLinksRoute.verifyProductAccess.
    destruct (Prisma.findFirst _ (products st)) as [p|] eqn:Hp; [|reflexivity].
    exfalso. apply findFirst_some in Hp. destruct Hp as [Hin Hmatch].
    apply andb_true_iff in Hmatch. rewrite !String.eqb_eq in Hmatch.
    destruct Hmatch as [Hid Hws]. exact (Hforeign p Hin Hid Hws).
  - intros rows l p. unfold ProductLinksRoute.GET. lookup_succeeds Hfound.
    cbn [bind ret].
    destruct (ProductLinksRoute.verifyProductAccess st productId workspaceId)
      as [e|product].
    { destruct e as [msg|]; cbn;
        [destruct (Js.includes msg "Access denied");
         [|destruct (Js.includes msg "not found")]|]; cbn; discriminate. }
    cbn [data]. intros Hdata. injection Hdata as <-.
    rewrite in_flat_map. intros [l' [Hl' Hpair]].
    apply in_map_iff in Hpair. destruct Hpair as [p' [Heq Hp']].
    injection Heq as -> ->.
    unfold Prisma.orderByDesc in Hl'. apply orderBy_In in Hl'.
    apply filter_In in Hl'. destruct Hl' as [Hl Hmatch].
    apply andb_true_iff in Hmatch. rewrite !String.eqb_eq in Hmatch.
    destruct Hmatch as [Hlp Hlws].
    apply filter_In in Hp'. destruct Hp' as [Hp Hpid].
    apply String.eqb_eq in Hpid.
    repeat (split; [assumption|]). congruence.
Qed.

(** [alice] asks [wsB] for the links of the lamp of [wsA]. *)
Lemma product_links_are_scoped_witness :
  ProductLinksRoute.GET Sample.store (Some Sample.alice) "wsB" "prodA"
  = errorResponse 404 "Product not found or access denied".
Proof.
  assert (Hrole : memberAs Sample.store "wsB" (user_id Sample.alice) MEMBER).
  { exists Sample.aliceInB. split; reflexivity. }
  apply (proj1 (product_links_are_scoped Sample.store Sample.alice "wsB" "prodA" MEMBER
                                         Hrole)).
  intros p Hp Hid. simpl in Hp. destruct Hp as [<-|[<-|[]]]; discriminate.
Defined.

(* ================================================================== *)
(** ** Categories and products *)

Lemma NoDup_snoc {A} (l : list A) (x : A) :
  NoDup l -> ~ In x l -> NoDup (l ++ [x]).
Proof.
  induction l as [|y l IH]; simpl; intros Hnd Hx.
  - constructor; [intros []|constructor].
  - inversion Hnd as [|? ? Hy Hl]; subst. constructor.
    + intros Hin. apply in_app_or in Hin. destruct Hin as [Hin|[->|[]]].
      * exact (Hy Hin).
      * apply Hx. left. reflexivity.
    + apply IH; [exact Hl|]. intros Hin. apply Hx. right. exact Hin.
Qed.

(** The body that reaches the handler's own code is the parsed one. *)
Lemma parsed_body {A B} (access : Result A) (body : Result B) (validatedData : B) :
  (let* _ := access in body) = inr validatedData ->
  (exists a, access = inr a) /\ body = inr validatedData.
Proof.
  destruct access as [e|a]; simpl; [discriminate|].
  intros H. split; [exists a; reflexivity|exact H].
Qed.

(** The category that passes the access check of the update is a stored
    category of the workspace with the id of the request. *)
Lemma verifyCategoryAccess_inr (st : Store) (workspaceId categoryId userId : string)
      (found : UserWorkspace * Category) :
  CategoryRoute.verifyCategoryAccess st workspaceId categoryId userId = inr found ->
  In (snd found) (categories st)
  /\ cat_id (snd found) = categoryId
  /\ cat_workspaceId (snd found) = workspaceId.
Proof.
  unfold CategoryRoute.verifyCategoryAccess.
  destruct (Prisma.findFirst _ (userWorkspaces st)) as [m|]; [|discriminate].
  destruct (Prisma.findFirst _ (categories st)) as [c|] eqn:Hc; [|discriminate].
  intros H. injection H as <-. simpl.
  apply findFirst_some in Hc. destruct Hc as [Hin Hc].
  apply andb_true_iff in Hc. rewrite !String.eqb_eq in Hc. tauto.
Qed.

(** X17. The database has no unique index on the names of the categories:
    the lookups of the two handlers alone keep the names of the
    categories of a workspace distinct.  On a store whose categories have
    distinct ids (the primary key) and distinct names in each workspace,
    creating a category leaves both so, whatever the request and its
    outcome; and so does updating one, for every body whose name, when it
    is given, is not empty, as [UpdateCategorySchema] requires of a
    parsed body. *)
Theorem category_names_stay_unique (st : Store) (session : Session)
        (workspaceId : string)
        (Huniq : categoryNamesUnique st)
        (Hids : NoDup (map cat_id (categories st))) :
  (forall body newId,
      let st' := snd (CategoryWrite.POST st session workspaceId body newId) in
      categoryNamesUnique st' /\ NoDup (map cat_id (categories st')))
  /\ (forall categoryId body,
         (forall validatedData,
             body = inr validatedData -> CategoryWrite.ud_name validatedData <> Some "") ->
         let st' := snd (CategoryWrite.PUT st session workspaceId categoryId body) in
         categoryNamesUnique st' /\ NoDup (map cat_id (categories st'))).
Proof.
  split.
  - intros body newId. cbv zeta. unfold CategoryWrite.POST.
    destruct session as [user|]; [|split; assumption].
    destruct (let* _ := CategoryWrite.verifyWorkspaceAccess st workspaceId (user_id user)
              in body) as [e|validatedData]; [split; assumption|].
    destruct (Prisma.findFirst _ (categories st)) as [taken|] eqn:Htaken;
      [split; assumption|].
    destruct (Prisma.create _ _ (categories st)) as [e|rows] eqn:Hcreate;
      [split; assumption|].
    revert Hcreate. unfold Prisma.create, ret, throw.
    destruct (existsb _ (categories st)) eqn:Hpk; [discriminate|].
    intros H. injection H as <-. cbn [snd].
    assert (Hfree : forall c, In c (categories st) ->
                              cat_workspaceId c = workspaceId ->
                              cat_name c <> CategoryWrite.cd_name validatedData).
    { intros c Hc Hws Hname.
      pose proof (proj1 (findFirst_none _ _) Htaken c Hc) as Hno. cbn in Hno.
      apply String.eqb_eq in Hws, Hname. rewrite Hws, Hname in Hno.
      discriminate Hno. }
    split.
    + intros a b Ha Hb Hws Hname. cbn in Ha, Hb.
      apply in_app_or in Ha. apply in_app_or in Hb.
      destruct Ha as [Ha|[<-|[]]], Hb as [Hb|[<-|[]]].
      * exact (Huniq a b Ha Hb Hws Hname).
      * exfalso. exact (Hfree a Ha Hws Hname).
      * exfalso. apply (Hfree b Hb); [symmetry; exact Hws|symmetry; exact Hname].
      * reflexivity.
    + cbn [categories with_categories]. rewrite map_app. cbn [map].
      apply NoDup_snoc; [exact Hids|].
      intros Hin. apply in_map_iff in Hin. destruct Hin as [c [Hcid Hc]].
      assert (Habs : existsb
                       (CategoryWrite.categoryConflicts
                          (mkCategory newId workspaceId
                             (CategoryWrite.cd_name validatedData)
                             (CategoryWrite.cd_description validatedData)
                             (CategoryWrite.cd_color validatedData)))
                       (categories st) = true).
      { apply existsb_exists. exists c. split; [exact Hc|].
        unfold CategoryWrite.categoryConflicts. apply String.eqb_eq. exact Hcid. }
      rewrite Habs in Hpk. discriminate Hpk.
  - intros categoryId body Hparsed. cbv zeta. unfold CategoryWrite.PUT.
    destruct session as [user|]; [|split; assumption].
    destruct (let* _ := CategoryRoute.verifyCategoryAccess st workspaceId categoryId
                                                           (user_id user)
              in body) as [e|validatedData] eqn:Hbody; [split; assumption|].
    apply parsed_body in Hbody. destruct Hbody as [[found Hfound] Hbody].
    apply verifyCategoryAccess_inr in Hfound.
    destruct Hfound as [Hfin [Hfid Hfws]].
    pose proof (Hparsed validatedData Hbody) as Hname0.
    assert (Hfree : forall name q,
               CategoryWrite.ud_name validatedData = Some name ->
               match CategoryWrite.ud_name validatedData with
               | Some name =>
                   if Js.truthy name then
                     Prisma.findFirst
                       (fun c => (cat_workspaceId c =? workspaceId)%string
                                 && (cat_name c =? name)%string
                                 && negb (cat_id c =? categoryId)%string)
                       (categories st)
                   else None
               | None => None
               end = None ->
               In q (categories st) -> cat_workspaceId q = workspaceId ->
               cat_id q <> categoryId -> cat_name q <> name).
    { intros name q Hsome Hnone Hq Hqws Hqid Hqname.
      rewrite Hsome in Hnone.
      assert (Htruthy : Js.truthy name = true).
      { apply truthy_iff. intros ->. apply Hname0. exact Hsome. }
      rewrite Htruthy in Hnone.
      pose proof (proj1 (findFirst_none _ _) Hnone q Hq) as Hno. cbn in Hno.
      apply String.eqb_eq in Hqws, Hqname. apply String.eqb_neq in Hqid.
      rewrite Hqws, Hqname, Hqid in Hno. discriminate Hno. }
    cbv zeta.
    match goal with
    | |- context [match ?taken with Some _ => (errorResponse 400 _, st) | None => _ end] =>
        destruct taken eqn:Htaken; [split; assumption|]
    end.
    specialize (fun name q Hsome => Hfree name q Hsome eq_refl).
    destruct (CategoryWrite.updateCategory _ _ (categories st)) as [e|rows] eqn:Hupdate;
      [split; assumption|].
    unfold CategoryWrite.updateCategory in Hupdate.
    apply update_inr in Hupdate. destruct Hupdate as [-> _]. cbn [snd].
    cbn [categories with_categories].
    split.
    + intros a' b' Ha' Hb' Hws Hname.
      apply in_map_iff in Ha'. destruct Ha' as [a [Ha' Ha]].
      apply in_map_iff in Hb'. destruct Hb' as [b [Hb' Hb]].
      destruct (cat_id a =? categoryId)%string eqn:Haid,
               (cat_id b =? categoryId)%string eqn:Hbid; subst a' b'.
      * apply String.eqb_eq in Haid, Hbid. cbn. congruence.
      * exfalso. apply String.eqb_eq in Haid. apply String.eqb_neq in Hbid.
        assert (a = snd found)
          by (apply (key_unique cat_id (categories st)); congruence).
        subst a. cbn in Hws, Hname.
        destruct (CategoryWrite.ud_name validatedData) as [name|] eqn:Hsome.
        -- apply (Hfree name b eq_refl Hb); congruence.
        -- apply Hbid. rewrite <- (Huniq (snd found) b Hfin Hb Hws Hname).
           exact Hfid.
      * exfalso. apply String.eqb_neq in Haid. apply String.eqb_eq in Hbid.
        assert (b = snd found)
          by (apply (key_unique cat_id (categories st)); congruence).
        subst b. cbn in Hws, Hname.
        destruct (CategoryWrite.ud_name validatedData) as [name|] eqn:Hsome.
        -- apply (Hfree name a eq_refl Ha); congruence.
        -- apply Haid. rewrite (Huniq a (snd found) Ha Hfin Hws Hname).
           exact Hfid.
      * exact (Huniq a b Ha Hb Hws Hname).
    + rewrite map_map.
      rewrite (map_ext _ cat_id); [exact Hids|].
      intros c. destruct (cat_id c =? categoryId)%string; reflexivity.
Qed.

(** [alice] renames "Seating" to "Desks" in [wsA]. *)
Lemma category_names_stay_unique_witness :
  let st' := snd (CategoryWrite.PUT Sample.store (Some Sample.alice) "wsA" "c2"
                    (ret (CategoryWrite.mkUpdateData (Some "Desks") None None))) in
  categoryNamesUnique st' /\ NoDup (map cat_id (categories st')).
Proof.
  apply category_names_stay_unique.
  - intros a b Ha Hb Hws Hname. simpl in Ha, Hb.
    destruct Ha as [<-|[<-|[]]], Hb as [<-|[<-|[]]];
      try reflexivity; discriminate.
  - simpl. repeat constructor; simpl; intuition discriminate.
  - intros validatedData H. injection H as <-. discriminate.
Defined.

(** X18. A member who creates a category under a name that a category of
    the workspace has, or renames a category of the workspace to the
    name of another one, is answered 400 "Category name already
    exists"; nothing is written. *)
Theorem duplicate_category_name_is_refused (st : Store) (user : SessionUser)
        (workspaceId : string) (role : WorkspaceRole) (name : string) (other : Category)
        (Hrole : memberAs st workspaceId (user_id user) role)
        (Hother : In other (categories st))
        (Hws : cat_workspaceId other = workspaceId)
        (Hname : cat_name other = name) :
  (forall description color newId,
      CategoryWrite.POST st (Some user) workspaceId
        (ret (CategoryWrite.mkCategoryData name description color)) newId
      = (errorResponse 400 "Category name already exists", st))
  /\ (forall categoryId description color,
         name <> "" ->
         cat_id other <> categoryId ->
         (exists c, In c (categories st) /\ cat_id c = categoryId
                    /\ cat_workspaceId c = workspaceId) ->
         CategoryWrite.PUT st (Some user) workspaceId categoryId
           (ret (CategoryWrite.mkUpdateData (Some name) description color))
         = (errorResponse 400 "Category name already exists", st)).
Proof.
  destruct (member_found _ _ _ _ Hrole) as [m Hfound].
  split.
  - intros description color newId. unfold CategoryWrite.POST.
    lookup_succeeds Hfound. cbn [bind ret CategoryWrite.cd_name].
    destruct (findFirst_hit
                (fun c => (cat_workspaceId c =? workspaceId)%string
                          && (cat_name c =? name)%string)
                (categories st) other Hother) as [hit ->]; [|reflexivity].
    apply andb_true_iff. rewrite !String.eqb_eq. auto.
  - intros categoryId description color Htruthy Hdistinct [c [Hc [Hcid Hcws]]].
    unfold CategoryWrite.PUT. lookup_succeeds Hfound.
    destruct (findFirst_hit
                (fun c => (cat_id c =? categoryId)%string
                          && (cat_workspaceId c =? workspaceId)%string)
                (categories st) c Hc) as [found ->].
    { apply andb_true_iff. rewrite !String.eqb_eq. auto. }
    cbn [bind ret CategoryWrite.ud_name]. cbv zeta.
    apply truthy_iff in Htruthy. rewrite Htruthy.
    destruct (findFirst_hit
                (fun c => (cat_workspaceId c =? workspaceId)%string
                          && (cat_name c =? name)%string
                          && negb (cat_id c =? categoryId)%string)
                (categories st) other Hother) as [hit ->]; [|reflexivity].
    apply String.eqb_neq in Hdistinct.
    rewrite Hdistinct. apply String.eqb_eq in Hws, Hname. rewrite Hws, Hname.
    reflexivity.
Qed.

Lemma duplicate_category_name_is_refused_witness :
  CategoryWrite.PUT Sample.store (Some Sample.alice) "wsA" "c2"
    (ret (CategoryWrite.mkUpdateData (Some "Lighting") None None))
  = (errorResponse 400 "Category name already exists", Sample.store).
Proof.
  assert (Hrole : memberAs Sample.store "wsA" (user_id Sample.alice) OWNER).
  { exists Sample.aliceInA. split; reflexivity. }
  assert (Hin : In Sample.lighting (categories Sample.store)) by (simpl; auto).
  apply (proj2 (duplicate_category_name_is_refused
                  Sample.store Sample.alice "wsA" OWNER "Lighting" Sample.lighting
                  Hrole Hin eq_refl eq_refl)).
  - discriminate.
  - discriminate.
  - exists Sample.seating. split; [simpl; auto|]. split; reflexivity.
Defined.

(** X19. A product that a post is tagged with is not deleted: whatever the
    delete call of the database would do, it is not made, the request
    does not succeed and the store is as before.  Deleting the post
    does not lift this: the post handler marks the post and keeps its
    tags. *)
Theorem tagged_product_is_not_deleted (st : Store) (productId : string)
        (Htagged : exists pp, In pp (postProducts st) /\ pp_productId pp = productId) :
  forall deleteProduct session workspaceId,
    (status (fst (ProductRoute.DELETE deleteProduct st session workspaceId productId))
     <> 200
     /\ snd (ProductRoute.DELETE deleteProduct st session workspaceId productId) = st)
    /\ forall deleter postWorkspaceId postId now,
        let st1 := snd (PostRoute.DELETE st deleter postWorkspaceId postId now) in
        status (fst (ProductRoute.DELETE deleteProduct st1 session workspaceId productId))
        <> 200
        /\ snd (ProductRoute.DELETE deleteProduct st1 session workspaceId productId)
           = st1.
Proof.
  assert (Hrefused : forall st0,
             postProducts st0 = postProducts st ->
             forall deleteProduct session workspaceId,
               status (fst (ProductRoute.DELETE deleteProduct st0 session workspaceId
                                                productId)) <> 200
               /\ snd (ProductRoute.DELETE deleteProduct st0 session workspaceId productId)
                  = st0).
  { intros st0 Hsame deleteProduct session workspaceId.
    unfold ProductRoute.DELETE.
    destruct session as [user|]; [|split; [cbn; discriminate|reflexivity]].
    destruct (ProductRoute.verifyProductAccess st0 workspaceId productId (user_id user))
      as [e|ok].
    { split; [|reflexivity].
      destruct e as [msg|]; cbn; [destruct (Js.includes msg "Access denied")|];
        cbn; discriminate. }
    cbv zeta. rewrite Hsame.
    assert (Hpos : 0 < Prisma.count (fun pp => (pp_productId pp =? productId)%string)
                                    (postProducts st)).
    { apply count_positive_iff. destruct Htagged as [pp [Hpp Hid]].
      exists pp. split; [exact Hpp|]. apply String.eqb_eq. exact Hid. }
    apply Nat.ltb_lt in Hpos. rewrite Hpos.
    split; [cbn; discriminate|reflexivity]. }
  intros deleteProduct session workspaceId. split.
  - exact (Hrefused st eq_refl deleteProduct session workspaceId).
  - intros deleter postWorkspaceId postId now. cbv zeta.
    apply Hrefused.
    unfold PostRoute.DELETE.
    destruct deleter as [user|]; [|reflexivity].
    destruct (let* _ := PostRoute.verifyPostAccess st postWorkspaceId postId (user_id user)
              in _) as [e|rows]; reflexivity.
Qed.

(** The lamp of [wsA] is tagged in [p1]; deleting [p1] first does not
    help. *)
Lemma tagged_product_is_not_deleted_witness :
  let st1 := snd (PostRoute.DELETE Sample.store (Some Sample.alice) "wsA" "p1" 700) in
  status (fst (ProductRoute.DELETE
                 (fun st productId =>
                    ret (with_products st
                           (Prisma.deleteMany (fun p => (prod_id p =? productId)%string)
                                              (products st))))
                 st1 (Some Sample.alice) "wsA" "prodA"))
  <> 200.
Proof.
  assert (Htagged : exists pp, In pp (postProducts Sample.store)
                               /\ pp_productId pp = "prodA").
  { exists (mkPostProduct "p1" "prodA" None). split; [simpl; auto|reflexivity]. }
  exact (proj1 (proj2 (tagged_product_is_not_deleted Sample.store "prodA" Htagged
                         _ (Some Sample.alice) "wsA")
                      (Some Sample.alice) "wsA" "p1" 700%Z)).
Defined.

(* ================================================================== *)
(** ** The listing of posts *)

Lemma descending_app {Row} (key : Row -> Z) (l1 l2 : list Row) :
  descending key (l1 ++ l2)
  <-> descending key l1 /\ descending key l2
      /\ (forall a b, In a l1 -> In b l2 -> (key b <= key a)%Z).
Proof.
  induction l1 as [|r l1 IH]; simpl.
  - intuition.
  - rewrite IH. split.
    + intros [Hr [H1 [H2 H12]]]. repeat split; auto.
      * intros x Hx. apply Hr. apply in_or_app. left. exact Hx.
      * intros a b [<-|Ha] Hb; [apply Hr; apply in_or_app; right; exact Hb|auto].
    + intros [[Hr H1] [H2 H12]]. repeat split; auto.
      intros x Hx. apply in_app_or in Hx. destruct Hx as [Hx|Hx]; auto.
Qed.

Lemma descending_firstn {Row} (key : Row -> Z) (n : nat) (rows : list Row) :
  descending key rows -> descending key (firstn n rows).
Proof.
  intros H. rewrite <- (firstn_skipn n rows) in H.
  apply descending_app in H. tauto.
Qed.

Lemma descending_skipn {Row} (key : Row -> Z) (n : nat) (rows : list Row) :
  descending key rows -> descending key (skipn n rows).
Proof.
  intros H. rewrite <- (firstn_skipn n rows) in H.
  apply descending_app in H. tauto.
Qed.

Lemma descending_insertBy {Row} (key : Row -> Z) (r : Row) (sorted : list Row) :
  descending key sorted ->
  descending key (Prisma.insertBy (fun r x => (key x <? key r)%Z) r sorted).
Proof.
  induction sorted as [|x sorted IH]; simpl.
  - intros _. split; [intros y []|exact I].
  - intros [Hx Hsorted].
    destruct (key x <? key r)%Z eqn:Hlt; simpl.
    + apply Z.ltb_lt in Hlt. split; [|split; assumption].
      intros y [<-|Hy]; [lia|]. specialize (Hx y Hy). lia.
    + apply Z.ltb_ge in Hlt. split; [|apply IH; exact Hsorted].
      intros y Hy. apply insertBy_In in Hy. destruct Hy as [->|Hy]; [exact Hlt|auto].
Qed.

Lemma descending_orderByDesc {Row} (key : Row -> Z) (rows : list Row) :
  descending key (Prisma.orderByDesc key rows).
Proof.
  unfold Prisma.orderByDesc, Prisma.orderBy.
  induction rows as [|r rows IH]; simpl; [exact I|].
  apply descending_insertBy. exact IH.
Qed.

Lemma descending_map {A Row} (f : A -> Row) (key : Row -> Z) (l : list A) :
  descending (fun a => key (f a)) l -> descending key (map f l).
Proof.
  induction l as [|a l IH]; simpl; [tauto|].
  intros [Ha Hl]. split; [|auto].
  intros x Hx. apply in_map_iff in Hx. destruct Hx as [b [<- Hb]]. auto.
Qed.

Lemma insertBy_length {Row} (before : Row -> Row -> bool) (r : Row) (sorted : list Row) :
  length (Prisma.insertBy before r sorted) = S (length sorted).
Proof.
  induction sorted as [|x sorted IH]; simpl; [reflexivity|].
  destruct (before r x); simpl; [reflexivity|]. rewrite IH. reflexivity.
Qed.

Lemma orderBy_length {Row} (before : Row -> Row -> bool) (rows : list Row) :
  length (Prisma.orderBy before rows) = length rows.
Proof.
  unfold Prisma.orderBy.
  induction rows as [|r rows IH]; simpl; [reflexivity|].
  rewrite insertBy_length, IH. reflexivity.
Qed.

(** The window [skip]/[take] cuts out of ordered rows: a run of
    consecutive rows, at most [|take|] of them. *)
Lemma page_window {Row} (key : Row -> Z) (skip take : JsNumber.number)
      (rows window : list Row) :
  Prisma.page skip take rows = inr window ->
  (descending key rows -> descending key window)
  /\ length window <= length rows
  /\ (forall t, take = Some t -> (Z.of_nat (length window) <= Z.abs t)%Z).
Proof.
  unfold Prisma.page, ret, throw.
  destruct skip as [s|]; [|discriminate].
  destruct take as [t|]; [|discriminate].
  destruct (s <? 0)%Z; [discriminate|].
  destruct (0 <=? t)%Z eqn:Ht; intros H; injection H as <-.
  - apply Z.leb_le in Ht. split; [|split].
    + intros Hd. apply descending_firstn, descending_skipn. exact Hd.
    + rewrite length_firstn, length_skipn. lia.
    + intros t' Heq. injection Heq as <-.
      pose proof (firstn_le_length (Z.to_nat t) (skipn (Z.to_nat s) rows)). lia.
  - apply Z.leb_gt in Ht. split; [|split].
    + intros Hd. rewrite skipn_rev, firstn_rev, rev_involutive.
      apply descending_skipn, descending_firstn. exact Hd.
    + rewrite length_rev, length_firstn, length_skipn, length_rev. lia.
    + intros t' Heq. injection Heq as <-. rewrite length_rev.
      pose proof (firstn_le_length (Z.to_nat (- t))
                                   (skipn (Z.to_nat s) (rev rows))). lia.
Qed.

Lemma count_le {Row} (p q : Row -> bool) (rows : list Row) :
  (forall r, p r = true -> q r = true) ->
  Prisma.count p rows <= Prisma.count q rows.
Proof.
  intros Hpq. unfold Prisma.count.
  induction rows as [|r rows IH]; simpl; [lia|].
  destruct (p r) eqn:Hp.
  - rewrite (Hpq r Hp). simpl. lia.
  - destruct (q r); simpl; lia.
Qed.

Lemma posts_GET_ok (st : Store) (session : Session) (workspaceId : string)
      (params : SearchParams) (result : PostsRoute.PostsPage) :
  data (PostsRoute.GET st session workspaceId params) = Some result ->
  let page := JsNumber.parseInt (Js.orElse (searchParams_get params "page") "1") in
  let limit := JsNumber.parseInt (Js.orElse (searchParams_get params "limit") "20") in
  let where_ :=
    PostsRoute.whereClause workspaceId (Js.orElse (searchParams_get params "search") "")
                           (searchParams_get params "published") in
  exists rows,
    Prisma.page (JsNumber.mul (JsNumber.sub page (Some 1%Z)) limit) limit
                (Prisma.orderByDesc post_createdAt (Prisma.findMany where_ (posts st)))
    = inr rows
    /\ result
       = PostsRoute.mkPostsPage
           (map (viewPost st) rows)
           (PostsRoute.mkPagination page limit (Prisma.count where_ (posts st))
              (PostsRoute.pagesOf (Prisma.count where_ (posts st)) limit)).
Proof.
  unfold PostsRoute.GET.
  destruct session as [user|]; [|no_data].
  destruct (PostsRoute.verifyWorkspaceAccess st workspaceId (user_id user))
    as [e|uw]; simpl; [destruct e; no_data|].
  match goal with
  | |- context [Prisma.page ?s ?t ?rows] =>
      destruct (Prisma.page s t rows) as [e|window] eqn:Hpage
  end; simpl; [destruct e; no_data|].
  intros Hd. injection Hd as <-. exists window. split; reflexivity.
Qed.

(** X20. A listing of posts comes newest first, holds at most [|limit|]
    posts and at most [total] of them; [total] is the number of stored
    posts that match the workspace and the filters, the same on every
    page and for every page size. *)
Theorem post_listing_is_ordered_and_bounded (st : Store) (session : Session)
        (workspaceId : string) (params : SearchParams) (result : PostsRoute.PostsPage)
        (Hdata : data (PostsRoute.GET st session workspaceId params) = Some result) :
  let listed := map pv_post (PostsRoute.pp_posts result) in
  let total := PostsRoute.pg_total (PostsRoute.pp_pagination result) in
  descending post_createdAt listed
  /\ length listed <= total
  /\ (forall limit, PostsRoute.pg_limit (PostsRoute.pp_pagination result) = Some limit ->
                    (Z.of_nat (length listed) <= Z.abs limit)%Z)
  /\ total <= Prisma.count (WorkspaceItem.whereLivePost workspaceId) (posts st)
  /\ (forall params' result',
         searchParams_get params' "search" = searchParams_get params "search" ->
         searchParams_get params' "published" = searchParams_get params "published" ->
         data (PostsRoute.GET st session workspaceId params') = Some result' ->
         PostsRoute.pg_total (PostsRoute.pp_pagination result') = total).
Proof.
  destruct (posts_GET_ok _ _ _ _ _ Hdata) as [rows [Hpage ->]].
  cbv zeta. cbn [PostsRoute.pp_posts PostsRoute.pp_pagination PostsRoute.pg_total
                 PostsRoute.pg_limit].
  rewrite map_map. cbn [pv_post viewPost]. rewrite map_id.
  destruct (page_window post_createdAt _ _ _ _ Hpage) as [Hsorted [Hlen Hlimit]].
  split; [apply Hsorted, descending_orderByDesc|].
  split.
  { unfold Prisma.orderByDesc in Hlen. rewrite orderBy_length in Hlen. exact Hlen. }
  split; [exact Hlimit|]. split.
  - apply count_le. intros p Hp.
    unfold PostsRoute.whereClause in Hp. rewrite !andb_true_iff in Hp.
    unfold WorkspaceItem.whereLivePost. apply andb_true_iff. tauto.
  - intros params' result' Hsearch Hpublished Hdata'.
    destruct (posts_GET_ok _ _ _ _ _ Hdata') as [rows' [_ ->]].
    cbn [PostsRoute.pp_pagination PostsRoute.pg_total].
    rewrite Hsearch, Hpublished. reflexivity.
Qed.

(** [alice] lists the posts of [wsA], one per page. *)
Lemma post_listing_is_ordered_and_bounded_witness :
  exists result,
    data (PostsRoute.GET Sample.store (Some Sample.alice) "wsA" [("limit", "1")])
    = Some result
    /\ length (PostsRoute.pp_posts result) <= 1
    /\ PostsRoute.pg_total (PostsRoute.pp_pagination result) = 2.
Proof.
  eexists. split; [reflexivity|].
  pose proof (post_listing_is_ordered_and_bounded
                Sample.store (Some Sample.alice) "wsA" [("limit", "1")] _ eq_refl)
    as [_ [_ [Hlimit _]]].
  split; [|reflexivity].
  specialize (Hlimit 1%Z eq_refl). rewrite length_map in Hlimit. lia.
Defined.

(* ================================================================== *)
(** ** Creating and updating posts *)

Lemma no_conflict {Row} (conflicts : Row -> Row -> bool) (row : Row) (rows : list Row) :
  existsb (conflicts row) rows = false ->
  forall r, In r rows -> conflicts row r = false.
Proof.
  intros Hnone r Hr. destruct (conflicts row r) eqn:Hc; [|reflexivity].
  assert (Hex : existsb (conflicts row) rows = true)
    by (apply existsb_exists; exists r; auto).
  rewrite Hex in Hnone. discriminate Hnone.
Qed.

(** X21. What a successful create stores: one post, of the id the database
    drew and of the workspace of the request, not deleted, created
    now, published now or not at all (a [publishedAt] of the request
    is not looked at), under the desired slug or the desired slug with
    a suffix, and under the desired slug when no live post of the
    workspace has it; and one tag per product id of the request, each
    naming a product of the workspace. *)
Theorem created_post_is_stored_as_requested (st : Store) (session : Session)
        (workspaceId : string) (postData : PostData) (rnd newId : string) (now : Z)
        (Hkey : NoDup (map prod_id (products st)))
        (Hok : status (fst (PostsRoute.POST st session workspaceId (ret postData)
                                            rnd newId now)) = 200) :
  let st' := snd (PostsRoute.POST st session workspaceId (ret postData) rnd newId now) in
  let ids := match pd_productIds postData with Some ids => ids | None => [] end in
  let desired := PostsRoute.desiredSlug postData in
  exists post,
    (post_id post = newId
     /\ post_workspaceId post = workspaceId
     /\ post_title post = pd_title postData
     /\ post_deletedAt post = None
     /\ post_createdAt post = now
     /\ post_isPublished post = pd_isPublished postData
     /\ post_publishedAt post = (if pd_isPublished postData then Some now else None)
     /\ (post_slug post = desired
         \/ post_slug post = desired ++ "-" ++ VideoUtils.randomSuffix rnd)
     /\ ((forall p, In p (posts st) -> post_workspaceId p = workspaceId ->
                    post_deletedAt p = None -> post_slug p <> desired) ->
         post_slug post = desired)
     /\ (forall p, In p (posts st) ->
                   post_id p <> newId
                   /\ (post_workspaceId p = workspaceId -> post_slug p <> post_slug post)))
    /\ posts st' = (posts st ++ [post])%list
    /\ postProducts st'
       = (postProducts st ++ map (fun i => mkPostProduct newId i None) ids)%list
    /\ (forall i, In i ids ->
                  exists p, In p (products st) /\ prod_id p = i
                            /\ prod_workspaceId p = workspaceId).
Proof.
  cbv zeta. revert Hok. unfold PostsRoute.POST.
  destruct session as [user|]; [|cbn; discriminate].
  destruct (PostsRoute.verifyWorkspaceAccess st workspaceId (user_id user)) as [e|uw].
  { destruct e as [msg|]; cbn; [destruct (Js.includes msg "Access denied")|];
      cbn; discriminate. }
  cbn -[PostsRoute.chooseSlug PostsRoute.newPost].
  unfold Prisma.transaction, PostsRoute.createInTransaction, Prisma.create.
  set (post := PostsRoute.newPost newId workspaceId _ now postData).
  destruct (existsb (postConflicts post) (posts st)) eqn:Hconflict;
    [cbn; discriminate|].
  assert (Hfacts :
            post_id post = newId
            /\ post_workspaceId post = workspaceId
            /\ post_title post = pd_title postData
            /\ post_deletedAt post = None
            /\ post_createdAt post = now
            /\ post_isPublished post = pd_isPublished postData
            /\ post_publishedAt post = (if pd_isPublished postData then Some now else None)
            /\ (post_slug post = PostsRoute.desiredSlug postData
                \/ post_slug post
                   = PostsRoute.desiredSlug postData ++ "-" ++ VideoUtils.randomSuffix rnd)
            /\ ((forall p, In p (posts st) -> post_workspaceId p = workspaceId ->
                           post_deletedAt p = None ->
                           post_slug p <> PostsRoute.desiredSlug postData) ->
                post_slug post = PostsRoute.desiredSlug postData)
            /\ (forall p, In p (posts st) ->
                          post_id p <> newId
                          /\ (post_workspaceId p = workspaceId ->
                              post_slug p <> post_slug post))).
  { repeat (split; [reflexivity|]).
    split; [|split].
    - unfold post, PostsRoute.newPost, PostsRoute.chooseSlug. cbn [post_slug].
      destruct (Prisma.findFirst _ (posts st)); [right|left]; reflexivity.
    - intros Hfree. unfold post, PostsRoute.newPost, PostsRoute.chooseSlug.
      cbn [post_slug].
      destruct (Prisma.findFirst _ (posts st)) as [p|] eqn:Hfound; [|reflexivity].
      exfalso. apply findFirst_some in Hfound. destruct Hfound as [Hp Hmatch].
      rewrite !andb_true_iff, !String.eqb_eq in Hmatch.
      destruct Hmatch as [[Hws Hslug] Hlive].
      apply (Hfree p Hp Hws); [|exact Hslug].
      destruct (post_deletedAt p); [discriminate Hlive|reflexivity].
    - intros p Hp. pose proof (no_conflict _ _ _ Hconflict p Hp) as Hnone.
      unfold postConflicts in Hnone. apply orb_false_iff in Hnone.
      destruct Hnone as [Hid Hslug]. split.
      + apply String.eqb_neq in Hid. exact Hid.
      + intros Hws Hsame. apply String.eqb_eq in Hws, Hsame.
        change (post_workspaceId post) with workspaceId in Hslug.
        rewrite Hws, Hsame in Hslug. discriminate Hslug. }
  cbn -[post whereProductIn Datatypes.length].
  destruct (pd_productIds postData) as [[|i ids]|];
    cbn -[post whereProductIn Datatypes.length].
  - intros _. exists post. split; [exact Hfacts|]. split; [reflexivity|].
    split; [rewrite app_nil_r; reflexivity|]. intros i [].
  - match goal with
    | |- context [negb (?x =? ?y)] => destruct (x =? y) eqn:Hcount
    end; cbn -[post whereProductIn]; [|discriminate].
    apply Nat.eqb_eq in Hcount.
    intros _. exists post. split; [exact Hfacts|]. split; [reflexivity|].
    split; [reflexivity|].
    exact (count_check_all_valid (products st) (i :: ids) workspaceId Hkey Hcount).
  - intros _. exists post. split; [exact Hfacts|]. split; [reflexivity|].
    split; [rewrite app_nil_r; reflexivity|]. intros i [].
Qed.

(** [alice] creates a published post in [wsA] under the title of [p1],
    tagged with the lamp, and sends a [publishedAt] of her own. *)
Lemma created_post_is_stored_as_requested_witness :
  exists post,
    posts (snd (PostsRoute.POST Sample.store (Some Sample.alice) "wsA"
                  (ret (mkPostData "Lamp review" None None None None None None true
                                   (Some 5%Z) (Some ["prodA"])))
                  "0.k3x9q2w" "p9" 700))
    = (posts Sample.store ++ [post])%list
    /\ post_publishedAt post = Some 700%Z
    /\ post_slug post = "lamp-review-k3x9q2".
Proof.
  assert (Hkey : NoDup (map prod_id (products Sample.store)))
    by (simpl; repeat constructor; simpl; intuition discriminate).
  assert (Hok : status (fst (PostsRoute.POST Sample.store (Some Sample.alice) "wsA"
                               (ret (mkPostData "Lamp review" None None None None None
                                                None true (Some 5%Z) (Some ["prodA"])))
                               "0.k3x9q2w" "p9" 700)) = 200)
    by reflexivity.
  destruct (created_post_is_stored_as_requested _ _ _ _ _ _ _ Hkey Hok)
    as [post [Hfacts [Hposts _]]].
  exists post. split; [exact Hposts|].
  apply app_inj_tail in Hposts. destruct Hposts as [_ <-].
  split; reflexivity.
Defined.

(** X22. A create that tags a product which is not of the workspace stores
    nothing, the post included, and is answered 500. *)
Theorem create_with_foreign_product_stores_nothing (st : Store) (user : SessionUser)
        (role : WorkspaceRole) (workspaceId : string) (postData : PostData)
        (productIds : list string) (bad rnd newId : string) (now : Z)
        (Hrole : memberAs st workspaceId (user_id user) role)
        (Hkey : NoDup (map prod_id (products st)))
        (Hids : pd_productIds postData = Some productIds)
        (Hbad : In bad productIds)
        (Hforeign : forall p, In p (products st) ->
                              ~ (prod_id p = bad /\ prod_workspaceId p = workspaceId)) :
  PostsRoute.POST st (Some user) workspaceId (ret postData) rnd newId now
  = (internalServerError, st).
Proof.
  destruct (member_found _ _ _ _ Hrole) as [m Hfound].
  unfold PostsRoute.POST. lookup_succeeds Hfound.
  cbn -[PostsRoute.chooseSlug PostsRoute.newPost].
  unfold Prisma.transaction, PostsRoute.createInTransaction, Prisma.create.
  set (post := PostsRoute.newPost newId workspaceId _ now postData).
  destruct (existsb (postConflicts post) (posts st)); [reflexivity|].
  cbn -[post whereProductIn Datatypes.length]. rewrite Hids.
  destruct productIds as [|i ids]; [destruct Hbad|].
  cbn -[post whereProductIn Datatypes.length].
  pose proof (foreign_id_fails_count (products st) (i :: ids) workspaceId bad
                                     Hkey Hbad Hforeign) as Hlt.
  unfold Prisma.findMany in Hlt |- *.
  match goal with
  | |- context [negb (?x =? ?y)] => destruct (x =? y) eqn:Hcount
  end; [apply Nat.eqb_eq in Hcount; lia|].
  reflexivity.
Qed.

(** [alice] tags a post of [wsA] with the hose of [wsB]. *)
Lemma create_with_foreign_product_stores_nothing_witness :
  PostsRoute.POST Sample.store (Some Sample.alice) "wsA"
    (ret (mkPostData "Hose test" None None None None None None false None
                     (Some ["prodA"; "prodB"])))
    "0.k3x9q2w" "p9" 700
  = (internalServerError, Sample.store).
Proof.
  assert (Hrole : memberAs Sample.store "wsA" (user_id Sample.alice) OWNER).
  { exists Sample.aliceInA. split; reflexivity. }
  assert (Hkey : NoDup (map prod_id (products Sample.store)))
    by (simpl; repeat constructor; simpl; intuition discriminate).
  apply (create_with_foreign_product_stores_nothing
           Sample.store Sample.alice OWNER "wsA"
           (mkPostData "Hose test" None None None None None None false None
                       (Some ["prodA"; "prodB"]))
           ["prodA"; "prodB"] "prodB" "0.k3x9q2w" "p9" 700 Hrole Hkey eq_refl).
  - simpl. auto.
  - intros p Hp [Hid Hws]. simpl in Hp.
    destruct Hp as [<-|[<-|[]]]; discriminate.
Defined.

Lemma PUT_ok (st : Store) (session : Session) (workspaceId postId : string)
      (postData : PostRoute.UpdateData) (rnd : string) (now : Z) :
  status (fst (PostRoute.PUT st session workspaceId postId (ret postData) rnd now)) = 200 ->
  let st' := snd (PostRoute.PUT st session workspaceId postId (ret postData) rnd now) in
  let slug :=
    PostRoute.disambiguateSlug st workspaceId postId (PostRoute.regenerateSlug postData)
                               rnd in
  let f := PostRoute.applyUpdate postData slug (PostRoute.publishedAtOf postData now) in
  (exists p, In p (posts st) /\ post_id p = postId)
  /\ posts st' = map (fun p => if (post_id p =? postId)%string then f p else p) (posts st)
  /\ postProducts st'
     = match PostRoute.ud_productIds postData with
       | Some productIds =>
           (Prisma.deleteMany (fun pp => (pp_postId pp =? postId)%string)
                              (postProducts st)
            ++ map (fun productId => mkPostProduct postId productId None) productIds)%list
       | None => postProducts st
       end.
Proof.
  unfold PostRoute.PUT.
  destruct session as [user|]; [|cbn; discriminate].
  destruct (PostRoute.verifyPostAccess st workspaceId postId (user_id user)) as [e|ok].
  { destruct e as [msg|]; cbn; [destruct (Js.includes msg "Access denied")|];
      cbn; discriminate. }
  cbn -[PostRoute.disambiguateSlug PostRoute.regenerateSlug PostRoute.publishedAtOf
        PostRoute.applyUpdate].
  unfold Prisma.transaction, PostRoute.updateInTransaction, PostRoute.updatePost,
    Prisma.update.
  set (f := PostRoute.applyUpdate postData _ _).
  match goal with
  | |- context [if ?b then throw _ else _] => destruct b
  end; [cbn; discriminate|].
  destruct (existsb _ (posts st)) eqn:Hex; [|cbn; discriminate].
  assert (Hsome : exists p, In p (posts st) /\ post_id p = postId).
  { apply existsb_exists in Hex. destruct Hex as [p [Hp Hid]].
    exists p. split; [exact Hp|]. apply String.eqb_eq. exact Hid. }
  cbn -[f whereProductIn Datatypes.length].
  destruct (PostRoute.ud_productIds postData) as [[|i ids]|];
    cbn -[f whereProductIn Datatypes.length].
  - intros _. split; [exact Hsome|]. split; [reflexivity|].
    rewrite app_nil_r. reflexivity.
  - match goal with
    | |- context [negb (?x =? ?y)] => destruct (x =? y)
    end; cbn -[f whereProductIn]; [|discriminate].
    intros _. split; [exact Hsome|]. split; reflexivity.
  - intros _. split; [exact Hsome|]. split; reflexivity.
Qed.

Lemma PUT_posts_applied (st : Store) (session : Session) (workspaceId postId : string)
      (body : Result PostRoute.UpdateData) (rnd : string) (now : Z) :
  let st' := snd (PostRoute.PUT st session workspaceId postId body rnd now) in
  posts st' = posts st
  \/ exists postData slug publishedAt,
       posts st' = map (fun p => if (post_id p =? postId)%string
                                 then PostRoute.applyUpdate postData slug publishedAt p
                                 else p)
                       (posts st).
Proof.
  unfold PostRoute.PUT.
  destruct session as [user|]; [|left; reflexivity].
  destruct (PostRoute.verifyPostAccess st workspaceId postId (user_id user)) as [e|ok];
    [left; reflexivity|].
  destruct body as [e|postData]; [left; reflexivity|].
  cbn -[PostRoute.disambiguateSlug PostRoute.regenerateSlug PostRoute.publishedAtOf
        PostRoute.applyUpdate].
  unfold Prisma.transaction, PostRoute.updateInTransaction, PostRoute.updatePost,
    Prisma.update.
  match goal with
  | |- context [PostRoute.applyUpdate postData ?slug ?publishedAt] =>
      set (s := slug); set (t := publishedAt)
  end.
  match goal with
  | |- context [if ?b then throw _ else _] => destruct b
  end; [left; reflexivity|].
  destruct (existsb _ (posts st)); [|left; reflexivity].
  cbn -[PostRoute.applyUpdate whereProductIn Datatypes.length].
  destruct (PostRoute.ud_productIds postData) as [[|i ids]|];
    cbn -[PostRoute.applyUpdate whereProductIn Datatypes.length];
    try (right; exists postData, s, t; reflexivity).
  match goal with
  | |- context [negb ?b] => destruct b
  end; cbn -[PostRoute.applyUpdate].
  - right. exists postData, s, t. reflexivity.
  - left. reflexivity.
Qed.

(** X23. Whatever the update request and its outcome: the stored posts keep
    their ids, in their order; a stored post keeps its workspace, its
    creation time and its deletion mark; a post of another id is stored
    as before; and a publication time is never cleared, not even by
    unpublishing the post. *)
Theorem update_keeps_post_identity (st : Store) (session : Session)
        (workspaceId postId : string) (body : Result PostRoute.UpdateData)
        (rnd : string) (now : Z) :
  let st' := snd (PostRoute.PUT st session workspaceId postId body rnd now) in
  map post_id (posts st') = map post_id (posts st)
  /\ forall p',
      In p' (posts st') ->
      exists p,
        In p (posts st)
        /\ post_id p' = post_id p
        /\ post_workspaceId p' = post_workspaceId p
        /\ post_createdAt p' = post_createdAt p
        /\ post_deletedAt p' = post_deletedAt p
        /\ (post_id p <> postId -> p' = p)
        /\ (post_publishedAt p <> None -> post_publishedAt p' <> None).
Proof.
  cbv zeta.
  destruct (PUT_posts_applied st session workspaceId postId body rnd now)
    as [->|[postData [slug [publishedAt ->]]]].
  - split; [reflexivity|]. intros p' Hp'. exists p'. repeat split; auto.
  - split.
    + rewrite map_map. apply map_ext. intros p.
      destruct (post_id p =? postId)%string; reflexivity.
    + intros p' Hp'. apply in_map_iff in Hp'. destruct Hp' as [p [<- Hp]].
      exists p. split; [exact Hp|].
      destruct (post_id p =? postId)%string eqn:Hid.
      * repeat (split; [reflexivity|]). split.
        -- intros Hother. apply String.eqb_eq in Hid. contradiction.
        -- unfold PostRoute.applyUpdate, PostRoute.orKeepOpt. cbn [post_publishedAt].
           destruct publishedAt; [discriminate|tauto].
      * repeat (split; [reflexivity|]). tauto.
Qed.

Lemma tags_deleted (postId : string) (tags : list PostProduct) :
  filter (fun pp => (pp_postId pp =? postId)%string)
         (filter (fun pp => negb (pp_postId pp =? postId)%string) tags) = [].
Proof.
  induction tags as [|pp tags IH]; simpl; [reflexivity|].
  destruct (pp_postId pp =? postId)%string eqn:Hid; simpl; [exact IH|].
  rewrite Hid. exact IH.
Qed.

Lemma tags_of_others_kept (postId other : string) (tags : list PostProduct) :
  other <> postId ->
  filter (fun pp => (pp_postId pp =? other)%string)
         (filter (fun pp => negb (pp_postId pp =? postId)%string) tags)
  = filter (fun pp => (pp_postId pp =? other)%string) tags.
Proof.
  intros Hother.
  induction tags as [|pp tags IH]; simpl; [reflexivity|].
  destruct (pp_postId pp =? postId)%string eqn:Hid; simpl.
  - apply String.eqb_eq in Hid.
    assert (Hno : (pp_postId pp =? other)%string = false)
      by (apply String.eqb_neq; congruence).
    rewrite Hno. exact IH.
  - destruct (pp_postId pp =? other)%string; [f_equal|]; exact IH.
Qed.

(** X24. What a successful update does to the tags: with [productIds] in
    the request the tags of the post are exactly the ids of the
    request, in their order, and without it they are as before; the
    tags of the other posts are as before in both cases. *)
Theorem update_replaces_tags (st : Store) (session : Session)
        (workspaceId postId : string) (postData : PostRoute.UpdateData)
        (rnd : string) (now : Z)
        (Hok : status (fst (PostRoute.PUT st session workspaceId postId (ret postData)
                                          rnd now)) = 200) :
  let st' := snd (PostRoute.PUT st session workspaceId postId (ret postData) rnd now) in
  let tagsOf (tags : list PostProduct) :=
    Prisma.findMany (fun pp => (pp_postId pp =? postId)%string) tags in
  match PostRoute.ud_productIds postData with
  | Some productIds =>
      tagsOf (postProducts st')
      = map (fun productId => mkPostProduct postId productId None) productIds
  | None => tagsOf (postProducts st') = tagsOf (postProducts st)
  end
  /\ (forall other,
         other <> postId ->
         Prisma.findMany (fun pp => (pp_postId pp =? other)%string) (postProducts st')
         = Prisma.findMany (fun pp => (pp_postId pp =? other)%string) (postProducts st)).
Proof.
  destruct (PUT_ok _ _ _ _ _ _ _ Hok) as [_ [_ Htags]].
  cbv zeta in Htags |- *. rewrite Htags. clear Htags Hok.
  unfold Prisma.findMany, Prisma.deleteMany.
  assert (Hnew : forall ids,
             filter (fun pp => (pp_postId pp =? postId)%string)
                    (map (fun productId => mkPostProduct postId productId None) ids)
             = map (fun productId => mkPostProduct postId productId None) ids).
  { induction ids as [|i ids IH]; simpl; [reflexivity|].
    rewrite String.eqb_refl, IH. reflexivity. }
  split.
  - destruct (PostRoute.ud_productIds postData) as [ids|]; [|reflexivity].
    rewrite filter_app, tags_deleted, Hnew. reflexivity.
  - intros other Hother.
    destruct (PostRoute.ud_productIds postData) as [ids|]; [|reflexivity].
    rewrite filter_app.
    assert (Hnone : filter (fun pp => (pp_postId pp =? other)%string)
                           (map (fun productId => mkPostProduct postId productId None) ids)
                    = []).
    { induction ids as [|i ids IH]; simpl; [reflexivity|].
      apply not_eq_sym in Hother.
      apply String.eqb_neq in Hother. rewrite Hother. exact IH. }
    rewrite Hnone, app_nil_r. apply tags_of_others_kept. exact Hother.
Qed.

(** [alice] removes the tags of [p1]. *)
Lemma update_replaces_tags_witness :
  Prisma.findMany (fun pp => (pp_postId pp =? "p1")%string)
    (postProducts
       (snd (PostRoute.PUT Sample.store (Some Sample.alice) "wsA" "p1"
               (ret (PostRoute.mkUpdateData None None None None None None None None None
                                            (Some [])))
               "0.k3x9q2w" 700)))
  = [].
Proof.
  assert (Hok : status (fst (PostRoute.PUT Sample.store (Some Sample.alice) "wsA" "p1"
                               (ret (PostRoute.mkUpdateData None None None None None None
                                                            None None None (Some [])))
                               "0.k3x9q2w" 700)) = 200)
    by reflexivity.
  exact (proj1 (update_replaces_tags _ _ _ _ _ _ _ Hok)).
Defined.

(** X25. A successful update that sends a title and no slug stores the
    title and its generated slug, with a suffix when a live post of the
    workspace has that slug; the slug the post itself has does not
    count: with no other live post of the workspace under the generated
    slug, the post is stored under exactly that slug. *)
Theorem retitled_post_takes_slug_of_title (st : Store) (session : Session)
        (workspaceId postId : string) (postData : PostRoute.UpdateData)
        (title rnd : string) (now : Z)
        (Hok : status (fst (PostRoute.PUT st session workspaceId postId (ret postData)
                                          rnd now)) = 200)
        (Htitle : PostRoute.ud_title postData = Some title)
        (Htruthy : title <> "")
        (Hslug : PostRoute.ud_slug postData = None) :
  let st' := snd (PostRoute.PUT st session workspaceId postId (ret postData) rnd now) in
  let slug := VideoUtils.generateSlug title in
  (exists p', In p' (posts st') /\ post_id p' = postId)
  /\ forall p',
      In p' (posts st') -> post_id p' = postId ->
      post_title p' = title
      /\ (post_slug p' = slug
          \/ post_slug p' = slug ++ "-" ++ VideoUtils.randomSuffix rnd)
      /\ ((forall q, In q (posts st) -> post_workspaceId q = workspaceId ->
                     post_deletedAt q = None -> post_slug q = slug ->
                     post_id q = postId) ->
          post_slug p' = slug).
Proof.
  destruct (PUT_ok _ _ _ _ _ _ _ Hok) as [[p0 [Hp0 Hid0]] [Hposts _]].
  cbv zeta in Hposts |- *. rewrite Hposts. clear Hposts Hok.
  assert (Hregen : PostRoute.regenerateSlug postData
                   = Some (VideoUtils.generateSlug title)).
  { unfold PostRoute.regenerateSlug. rewrite Htitle, Hslug.
    apply truthy_iff in Htruthy. rewrite Htruthy. reflexivity. }
  rewrite Hregen.
  set (chosen := PostRoute.disambiguateSlug st workspaceId postId _ rnd).
  split.
  - exists (PostRoute.applyUpdate postData chosen (PostRoute.publishedAtOf postData now)
                                  p0).
    split; [|exact Hid0]. apply in_map_iff. exists p0.
    apply String.eqb_eq in Hid0. rewrite Hid0. split; [reflexivity|exact Hp0].
  - intros p' Hp' Hid'. apply in_map_iff in Hp'. destruct Hp' as [p [Hp' Hp]].
    destruct (post_id p =? postId)%string eqn:Hid.
    2: { subst p'. apply String.eqb_neq in Hid. contradiction. }
    subst p'. unfold PostRoute.applyUpdate, PostRoute.orKeep.
    cbn [post_title post_slug]. rewrite Htitle. split; [reflexivity|].
    unfold chosen, PostRoute.disambiguateSlug.
    destruct (Js.truthy (VideoUtils.generateSlug title)) eqn:Hgen;
      [|split; [left; reflexivity|intros _; reflexivity]].
    destruct (Prisma.findFirst _ (posts st)) as [q|] eqn:Hfound.
    + split; [right; reflexivity|].
      intros Hown. exfalso. apply findFirst_some in Hfound.
      destruct Hfound as [Hq Hmatch].
      rewrite !andb_true_iff, !String.eqb_eq in Hmatch.
      destruct Hmatch as [[[Hws Hqslug] Hlive] Hother].
      assert (Hqlive : post_deletedAt q = None)
        by (destruct (post_deletedAt q); [discriminate Hlive|reflexivity]).
      pose proof (Hown q Hq Hws Hqlive Hqslug) as Hsame.
      apply String.eqb_eq in Hsame. rewrite Hsame in Hother. discriminate Hother.
    + split; [left; reflexivity|intros _; reflexivity].
Qed.

(** [alice] sends [p1] its own title again: the slug stays. *)
Lemma retitled_post_takes_slug_of_title_witness :
  exists p',
    In p' (posts (snd (PostRoute.PUT Sample.store (Some Sample.alice) "wsA" "p1"
                         (ret (PostRoute.mkUpdateData (Some "Lamp review") None None None
                                                      None None None None None None))
                         "0.k3x9q2w" 700)))
    /\ post_id p' = "p1" /\ post_slug p' = "lamp-review".
Proof.
  assert (Hok : status (fst (PostRoute.PUT Sample.store (Some Sample.alice) "wsA" "p1"
                               (ret (PostRoute.mkUpdateData (Some "Lamp review") None None
                                       None None None None None None None))
                               "0.k3x9q2w" 700)) = 200)
    by reflexivity.
  destruct (retitled_post_takes_slug_of_title
              Sample.store (Some Sample.alice) "wsA" "p1" _ "Lamp review" "0.k3x9q2w" 700
              Hok eq_refl ltac:(discriminate) eq_refl) as [[p' [Hp' Hid']] Hall].
  exists p'. split; [exact Hp'|]. split; [exact Hid'|].
  apply (proj2 (proj2 (Hall p' Hp' Hid'))).
  intros q Hq Hws Hlive Hslug. simpl in Hq.
  destruct Hq as [<-|[<-|[<-|[]]]]; [reflexivity|discriminate|discriminate].
Defined.

(* ================================================================== *)
(** ** The routing middleware and the creation of workspaces *)

(** X26. When the middleware lets a request through: without a session only
    on a public route; below "/admin" only with the session of a
    platform administrator; and on the sign-in and sign-up pages only
    without a session. *)
Theorem protected_paths_need_a_session (session : Session) (pathname : string)
        (lastWorkspace : option string) (fetched : Middleware.FetchOutcome)
        (Hnext : Middleware.middleware session pathname lastWorkspace fetched
                 = Middleware.Next) :
  (session = None -> In pathname Middleware.publicRoutes)
  /\ (prefix "/admin" pathname = true ->
      exists user, session = Some user
                   /\ Middleware.isAdminRole (user_role user) = true)
  /\ (pathname = "/auth/signin" \/ pathname = "/auth/signup" -> session = None).
Proof.
  unfold Middleware.middleware in Hnext.
  destruct session as [user|].
  - split; [discriminate|]. split.
    + intros Hprefix. exists user. split; [reflexivity|].
      destruct ((pathname =? "/auth/signin")%string || (pathname =? "/auth/signup")%string);
        [discriminate|].
      destruct (if (pathname =? "/dashboard")%string then _ else None);
        [discriminate|].
      rewrite Hprefix in Hnext.
      destruct (Middleware.isAdminRole (user_role user)); [reflexivity|discriminate].
    + intros [->| ->]; cbn in Hnext; discriminate.
  - destruct (existsb _ Middleware.publicRoutes) eqn:Hpublic; [|discriminate].
    apply existsb_exists in Hpublic. destruct Hpublic as [r [Hr Heq]].
    apply String.eqb_eq in Heq. subst r.
    split; [intros _; exact Hr|]. split; [|intros _; reflexivity].
    intros Hprefix. exfalso. simpl in Hr.
    destruct Hr as [<-|[<-|[<-|[]]]]; vm_compute in Hprefix; discriminate Hprefix.
Qed.

(** A platform administrator reaches "/admin/users". *)
Lemma protected_paths_need_a_session_witness :
  exists user,
    Some (mkSessionUser "root" SUPER_ADMIN) = Some user
    /\ Middleware.isAdminRole (user_role user) = true.
Proof.
  apply (proj1 (proj2 (protected_paths_need_a_session
                         (Some (mkSessionUser "root" SUPER_ADMIN)) "/admin/users" None
                         Middleware.FetchThrows eq_refl))).
  reflexivity.
Defined.

Lemma findFirst_app_none {Row} (where_ : Row -> bool) (l1 l2 : list Row) :
  (forall r, In r l1 -> where_ r = false) ->
  Prisma.findFirst where_ (l1 ++ l2) = Prisma.findFirst where_ l2.
Proof.
  unfold Prisma.findFirst.
  induction l1 as [|x l1 IH]; simpl; intros Hnone; [reflexivity|].
  rewrite (Hnone x (or_introl eq_refl)). apply IH.
  intros r Hr. apply Hnone. right. exact Hr.
Qed.

(** X27. The user who creates a workspace, and nobody else, is a member of
    it afterwards, with the role OWNER: the owner-only check passes for
    the creator, the memberships of the other workspaces are as
    before, and the listing of the creator's workspaces shows the new
    one.  The id the database draws is fresh: no membership row names
    it yet. *)
Theorem creator_owns_created_workspace (st : Store) (session : Session)
        (body : WorkspacesRoute.WorkspaceData) (rnd newId : string) (now : Z)
        (Hfresh : forall m, In m (userWorkspaces st) -> uw_workspaceId m <> newId)
        (Hok : status (fst (WorkspacesRoute.POST st session (ret body) rnd newId now))
               = 200) :
  let st' := snd (WorkspacesRoute.POST st session (ret body) rnd newId now) in
  exists user w,
    session = Some user
    /\ workspaces st' = (workspaces st ++ [w])%list
    /\ ws_id w = newId /\ ws_name w = WorkspacesRoute.wd_name body
    /\ ws_deletedAt w = None
    /\ userWorkspaces st'
       = (userWorkspaces st ++ [mkUserWorkspace (user_id user) newId OWNER])%list
    /\ WorkspaceRoute.verifyWorkspaceAccess st' newId (user_id user) OWNER
       = ret (mkUserWorkspace (user_id user) newId OWNER)
    /\ (forall other, other <> user_id user -> notMember st' newId other)
    /\ (exists views,
           data (WorkspacesRoute.GET (Connected st') session) = Some views
           /\ In (WorkspacesRoute.viewWorkspace st' w) views).
Proof.
  cbv zeta. revert Hok. unfold WorkspacesRoute.POST.
  destruct session as [user|]; [|cbn; discriminate].
  cbn -[WorkspacesRoute.chooseSlug].
  set (w := mkWorkspace newId _ _ _ now now None).
  destruct (Prisma.create _ w (workspaces st)) as [e|rows] eqn:Hcreate;
    [destruct e; cbn; discriminate|].
  cbn -[w]. intros _.
  assert (Hrows : rows = (workspaces st ++ [w])%list).
  { revert Hcreate. unfold Prisma.create, ret, throw.
    destruct (existsb _ (workspaces st)); [discriminate|].
    intros H. injection H as <-. reflexivity. }
  subst rows.
  set (st' := with_userWorkspaces _ _).
  set (m := mkUserWorkspace (user_id user) newId OWNER).
  assert (Hold : forall other r, In r (userWorkspaces st) ->
                                 WorkspaceRoute.whereMembership newId other r = false).
  { intros other r Hr. unfold WorkspaceRoute.whereMembership.
    pose proof (Hfresh r Hr) as Hne. apply String.eqb_neq in Hne.
    rewrite Hne. reflexivity. }
  exists user, w.
  split; [reflexivity|]. split; [reflexivity|]. split; [reflexivity|].
  split; [reflexivity|]. split; [reflexivity|]. split; [reflexivity|].
  split; [|split].
  - unfold WorkspaceRoute.verifyWorkspaceAccess.
    change (userWorkspaces st') with (userWorkspaces st ++ [m])%list.
    rewrite (findFirst_app_none _ _ _ (Hold (user_id user))).
    unfold Prisma.findFirst, WorkspaceRoute.whereMembership. cbn.
    rewrite !String.eqb_refl. reflexivity.
  - intros other Hother r Hr [Hws Huser].
    change (userWorkspaces st') with (userWorkspaces st ++ [m])%list in Hr.
    apply in_app_or in Hr. destruct Hr as [Hr|[<-|[]]].
    + exact (Hfresh r Hr Hws).
    + apply Hother. symmetry. exact Huser.
  - eexists. split; [reflexivity|].
    apply in_map. unfold Prisma.orderByDesc. apply orderBy_In.
    apply filter_In. split.
    + change (workspaces st') with (workspaces st ++ [w])%list.
      apply in_or_app. right. left. reflexivity.
    + apply whereMemberOf_iff. split; [|reflexivity].
      exists m. split; [|split; reflexivity].
      change (userWorkspaces st') with (userWorkspaces st ++ [m])%list.
      apply in_or_app. right. left. reflexivity.
Qed.

(** [bob] creates a workspace of his own. *)
Lemma creator_owns_created_workspace_witness :
  WorkspaceRoute.verifyWorkspaceAccess
    (snd (WorkspacesRoute.POST Sample.store (Some Sample.bob)
            (ret (WorkspacesRoute.mkWorkspaceData "Kitchen" None None))
            "0.k3x9q2w" "wsC" 700))
    "wsC" "bob" OWNER
  = ret (mkUserWorkspace "bob" "wsC" OWNER).
Proof.
  assert (Hfresh : forall m, In m (userWorkspaces Sample.store) ->
                             uw_workspaceId m <> "wsC").
  { intros m Hm. simpl in Hm. destruct Hm as [<-|[<-|[<-|[]]]]; discriminate. }
  assert (Hok : status (fst (WorkspacesRoute.POST Sample.store (Some Sample.bob)
                               (ret (WorkspacesRoute.mkWorkspaceData "Kitchen" None None))
                               "0.k3x9q2w" "wsC" 700)) = 200)
    by reflexivity.
  destruct (creator_owns_created_workspace _ _ _ _ _ _ Hfresh Hok)
    as [user [w [Huser [_ [_ [_ [_ [_ [Hverify _]]]]]]]]].
  injection Huser as <-. exact Hverify.
Defined.

(* ================================================================== *)
(** ** The lookup by slug and the listing of links *)

(** X28. GET /api/workspaces/by-slug/[slug]: a slug under which the user is
    a member of no live workspace is answered 404 "Workspace not
    found", whether a workspace has the slug or not; and a summary that
    is returned is of a stored, live workspace of that slug, and
    carries the role of a membership of the user in it. *)
Theorem slug_lookup_needs_membership (st : Store) (user : SessionUser) (slug : string) :
  ((forall w, In w (workspaces st) -> ws_slug w = slug -> ws_deletedAt w = None ->
              notMember st (ws_id w) (user_id user)) ->
   BySlugRoute.GET st (Some user) slug = errorResponse 404 "Workspace not found")
  /\ (forall summary,
         data (BySlugRoute.GET st (Some user) slug) = Some summary ->
         BySlugRoute.sum_slug summary = slug
         /\ (exists w, In w (workspaces st)
                       /\ ws_id w = BySlugRoute.sum_id summary
                       /\ ws_slug w = slug /\ ws_deletedAt w = None)
         /\ (exists m, In m (userWorkspaces st)
                       /\ uw_workspaceId m = BySlugRoute.sum_id summary
                       /\ uw_userId m = user_id user
                       /\ BySlugRoute.sum_role summary = Some (uw_role m))
         /\ 1 <= BySlugRoute.sum_memberCount summary).
Proof.
  split.
  - intros Hout. unfold BySlugRoute.GET.
    destruct (Prisma.findFirst _ (workspaces st)) as [w|] eqn:Hfound; [|reflexivity].
    exfalso. apply findFirst_some in Hfound. destruct Hfound as [Hw Hmatch].
    unfold BySlugRoute.whereSlug in Hmatch.
    rewrite !andb_true_iff, String.eqb_eq in Hmatch.
    destruct Hmatch as [[Hslug Hlive] Hmember].
    apply existsb_exists in Hmember. destruct Hmember as [m [Hm Hmatch]].
    rewrite andb_true_iff, !String.eqb_eq in Hmatch.
    apply (Hout w Hw Hslug) with (m := m); auto.
    destruct (ws_deletedAt w); [discriminate Hlive|reflexivity].
  - intros summary. unfold BySlugRoute.GET.
    destruct (Prisma.findFirst _ (workspaces st)) as [w|] eqn:Hfound;
      [|cbn; discriminate].
    cbn [data]. intros Hdata. injection Hdata as <-.
    apply findFirst_some in Hfound. destruct Hfound as [Hw Hmatch].
    unfold BySlugRoute.whereSlug in Hmatch.
    rewrite !andb_true_iff, String.eqb_eq in Hmatch.
    destruct Hmatch as [[Hslug Hlive] Hmember].
    apply existsb_exists in Hmember. destruct Hmember as [m [Hm Hmatch]].
    rewrite andb_true_iff, !String.eqb_eq in Hmatch. destruct Hmatch as [Hmws Hmuser].
    assert (Hdeleted : ws_deletedAt w = None)
      by (destruct (ws_deletedAt w); [discriminate Hlive|reflexivity]).
    unfold BySlugRoute.summaryOf. cbv zeta.
    cbn [BySlugRoute.sum_slug BySlugRoute.sum_id BySlugRoute.sum_role
         BySlugRoute.sum_memberCount].
    set (users := Prisma.findMany _ (userWorkspaces st)).
    assert (Hin : In m users).
    { apply filter_In. split; [exact Hm|]. apply String.eqb_eq. exact Hmws. }
    split; [exact Hslug|]. split; [exists w; auto|]. split.
    + destruct (findFirst_hit (fun uw => (uw_userId uw =? user_id user)%string) users m Hin)
        as [hit Hhit]; [apply String.eqb_eq; exact Hmuser|].
      unfold Prisma.findFirst in Hhit. rewrite Hhit. cbn [option_map].
      apply find_some in Hhit. destruct Hhit as [Hhit Huser].
      apply filter_In in Hhit. destruct Hhit as [Hstored Hws].
      apply String.eqb_eq in Huser, Hws.
      exists hit. auto.
    + destruct users as [|u users']; [destruct Hin|simpl; lia].
Qed.

(** [bob] looks up "garden", the slug of [wsB]. *)
Lemma slug_lookup_needs_membership_witness :
  BySlugRoute.GET Sample.store (Some Sample.bob) "garden"
  = errorResponse 404 "Workspace not found".
Proof.
  apply (proj1 (slug_lookup_needs_membership Sample.store Sample.bob "garden")).
  intros w Hw Hslug _ m Hm [Hws Huser]. simpl in Hw, Hm.
  destruct Hw as [<-|[<-|[]]]; [discriminate Hslug|].
  destruct Hm as [<-|[<-|[<-|[]]]]; discriminate.
Defined.

Lemma withStats_view (st : Store) (mock : nat -> nat * nat) (links : list AffiliateLink) :
  forall (i : nat) (views : list AffiliateLinksRoute.LinkView)
         (v : AffiliateLinksRoute.LinkView),
    AffiliateLinksRoute.withStats st mock i links = ret views ->
    In v views ->
    Prisma.findFirst
      (fun p => (prod_id p =? link_productId (AffiliateLinksRoute.lv_link v))%string)
      (products st) = Some (AffiliateLinksRoute.lv_product v)
    /\ AffiliateLinksRoute.lv_isActive v
       = match prod_activeAffiliateLinkId (AffiliateLinksRoute.lv_product v) with
         | Some active => (active =? link_id (AffiliateLinksRoute.lv_link v))%string
         | None => false
         end.
Proof.
  induction links as [|link rest IH]; intros i views v; simpl.
  - intros Heq. injection Heq as <-. intros [].
  - destruct (Prisma.findFirst _ (products st)) as [product|] eqn:Hfind; [|discriminate].
    destruct (AffiliateLinksRoute.withStats st mock (S i) rest) as [e|tl] eqn:Htl;
      simpl; [discriminate|].
    intros Heq. injection Heq as <-. intros [<-|Hin].
    + simpl. split; [exact Hfind|reflexivity].
    + eapply IH; eassumption.
Qed.

Lemma withStats_complete (st : Store) (mock : nat -> nat * nat)
      (links : list AffiliateLink) :
  forall (i : nat) (views : list AffiliateLinksRoute.LinkView),
    AffiliateLinksRoute.withStats st mock i links = ret views ->
    forall l, In l links ->
              exists v, In v views /\ AffiliateLinksRoute.lv_link v = l.
Proof.
  induction links as [|link rest IH]; intros i views; simpl.
  - intros _ l [].
  - destruct (Prisma.findFirst _ (products st)) as [product|]; [|discriminate].
    destruct (AffiliateLinksRoute.withStats st mock (S i) rest) as [e|tl] eqn:Htl;
      simpl; [discriminate|].
    intros Heq. injection Heq as <-. intros l [<-|Hl].
    + eexists. split; [left; reflexivity|reflexivity].
    + destruct (IH (S i) tl Htl l Hl) as [v [Hv Hvl]].
      exists v. split; [right; exact Hv|exact Hvl].
Qed.

Lemma links_GET_ok (st : Store) (session : Session) (workspaceId : string)
      (mock : nat -> nat * nat) (views : list AffiliateLinksRoute.LinkView) :
  data (AffiliateLinksRoute.GET st session workspaceId mock) = Some views ->
  AffiliateLinksRoute.withStats st mock 0
    (Prisma.orderByDesc link_createdAt
       (Prisma.findMany (fun l => (link_workspaceId l =? workspaceId)%string)
                        (affiliateLinks st)))
  = ret views.
Proof.
  unfold AffiliateLinksRoute.GET.
  destruct session as [user|]; [|no_data].
  destruct (AffiliateLinksRoute.verifyWorkspaceAccess st workspaceId (user_id user))
    as [e|uw]; simpl; [destruct e; no_data|].
  match goal with
  | |- context [AffiliateLinksRoute.withStats st mock 0 ?links] =>
      destruct (AffiliateLinksRoute.withStats st mock 0 links) as [e|vs]
  end; simpl; [destruct e; no_data|].
  intros Hd. injection Hd as <-. reflexivity.
Qed.

(** X29. The listing of affiliate links marks a link active exactly when
    its product names it as its active link, so at most one link id per
    product is marked active. *)
Theorem listing_marks_one_active_link (st : Store) (session : Session)
        (workspaceId : string) (mock : nat -> nat * nat)
        (views : list AffiliateLinksRoute.LinkView)
        (Hdata : data (AffiliateLinksRoute.GET st session workspaceId mock) = Some views) :
  (forall v, In v views ->
             (AffiliateLinksRoute.lv_isActive v = true
              <-> prod_activeAffiliateLinkId (AffiliateLinksRoute.lv_product v)
                  = Some (link_id (AffiliateLinksRoute.lv_link v))))
  /\ (forall v1 v2,
         In v1 views -> In v2 views ->
         link_productId (AffiliateLinksRoute.lv_link v1)
         = link_productId (AffiliateLinksRoute.lv_link v2) ->
         AffiliateLinksRoute.lv_isActive v1 = true ->
         AffiliateLinksRoute.lv_isActive v2 = true ->
         link_id (AffiliateLinksRoute.lv_link v1)
         = link_id (AffiliateLinksRoute.lv_link v2)).
Proof.
  pose proof (links_GET_ok _ _ _ _ _ Hdata) as Hviews.
  assert (Hactive : forall v, In v views ->
                              (AffiliateLinksRoute.lv_isActive v = true
                               <-> prod_activeAffiliateLinkId
                                     (AffiliateLinksRoute.lv_product v)
                                   = Some (link_id (AffiliateLinksRoute.lv_link v)))).
  { intros v Hv. destruct (withStats_view _ _ _ _ _ _ Hviews Hv) as [_ ->].
    destruct (prod_activeAffiliateLinkId (AffiliateLinksRoute.lv_product v)) as [a|].
    - rewrite String.eqb_eq. split; [intros ->; reflexivity|].
      intros H. injection H as ->. reflexivity.
    - split; discriminate. }
  split; [exact Hactive|].
  intros v1 v2 Hv1 Hv2 Hsame H1 H2.
  apply Hactive in H1; [|exact Hv1]. apply Hactive in H2; [|exact Hv2].
  destruct (withStats_view _ _ _ _ _ _ Hviews Hv1) as [Hp1 _].
  destruct (withStats_view _ _ _ _ _ _ Hviews Hv2) as [Hp2 _].
  rewrite Hsame, Hp2 in Hp1. injection Hp1 as Hp. rewrite Hp in H2.
  rewrite H1 in H2. injection H2 as H2. exact H2.
Qed.

(** In [wsA] the lamp has [l1] as its active link. *)
Lemma listing_marks_one_active_link_witness :
  exists views,
    data (AffiliateLinksRoute.GET Sample.store (Some Sample.alice) "wsA" (fun _ => (7, 3)))
    = Some views
    /\ forall v, In v views ->
                 (AffiliateLinksRoute.lv_isActive v = true
                  <-> prod_activeAffiliateLinkId (AffiliateLinksRoute.lv_product v)
                      = Some (link_id (AffiliateLinksRoute.lv_link v))).
Proof.
  eexists. split; [reflexivity|].
  exact (proj1 (listing_marks_one_active_link
                  Sample.store (Some Sample.alice) "wsA" (fun _ => (7, 3)) _ eq_refl)).
Defined.

Lemma set_active_POST_ok (st : Store) (session : Session) (workspaceId linkId : string) :
  status (fst (SetActiveRoute.POST st session workspaceId linkId)) = 200 ->
  exists link,
    In link (affiliateLinks st) /\ link_id link = linkId
    /\ link_workspaceId link = workspaceId
    /\ snd (SetActiveRoute.POST st session workspaceId linkId)
       = with_products st
           (map (fun p => if (prod_id p =? link_productId link)%string
                          then SetActiveRoute.setActive (Some linkId) p else p)
                (products st)).
Proof.
  unfold SetActiveRoute.POST.
  destruct session as [user|]; [|cbn; discriminate].
  destruct (SetActiveRoute.verifyLinkAccess st workspaceId linkId (user_id user))
    as [e|[m [link product]]] eqn:Hverify.
  { destruct e as [msg|]; cbn; [destruct (Js.includes msg "Access denied")|];
      cbn; discriminate. }
  destruct (Prisma.update _ _ (products st)) as [e|rows] eqn:Hupdate.
  { destruct e as [msg|]; cbn; [destruct (Js.includes msg "Access denied")|];
      cbn; discriminate. }
  intros _. cbn [snd].
  apply verifyLinkAccess_inr in Hverify. destruct Hverify as [Hin [Hid [Hws _]]].
  apply update_inr in Hupdate. destruct Hupdate as [-> _].
  exists link. auto.
Qed.

(** X30. After a link has been set active, the listing of the links of the
    workspace marks, among the links of its product, that link and no
    other.  Link ids are unique. *)
Theorem listing_shows_the_link_set_active (st : Store) (session reader : Session)
        (workspaceId linkId : string) (mock : nat -> nat * nat)
        (views : list AffiliateLinksRoute.LinkView)
        (Hkey : NoDup (map link_id (affiliateLinks st)))
        (Hok : status (fst (SetActiveRoute.POST st session workspaceId linkId)) = 200)
        (Hdata : data (AffiliateLinksRoute.GET
                         (snd (SetActiveRoute.POST st session workspaceId linkId))
                         reader workspaceId mock) = Some views) :
  (exists v, In v views /\ link_id (AffiliateLinksRoute.lv_link v) = linkId)
  /\ forall v w,
      In v views -> In w views ->
      link_id (AffiliateLinksRoute.lv_link w) = linkId ->
      link_productId (AffiliateLinksRoute.lv_link v)
      = link_productId (AffiliateLinksRoute.lv_link w) ->
      AffiliateLinksRoute.lv_isActive v
      = (link_id (AffiliateLinksRoute.lv_link v) =? linkId)%string.
Proof.
  destruct (set_active_POST_ok _ _ _ _ Hok) as [link [Hlink [Hid [Hws Hst1]]]].
  rewrite Hst1 in Hdata. clear Hst1 Hok.
  set (rows := map _ (products st)) in Hdata.
  pose proof (links_GET_ok _ _ _ _ _ Hdata) as Hviews.
  cbn [affiliateLinks with_products] in Hviews.
  assert (Hlisted : forall v, In v views ->
                              In (AffiliateLinksRoute.lv_link v) (affiliateLinks st)).
  { intros v Hv. pose proof (withStats_In _ _ _ _ _ _ Hviews Hv) as Hl.
    unfold Prisma.orderByDesc in Hl. apply orderBy_In in Hl.
    apply filter_In in Hl. tauto. }
  split.
  - (* the link is of the workspace, so the listing has it *)
    assert (Hin : In link (Prisma.orderByDesc link_createdAt
                             (Prisma.findMany
                                (fun l => (link_workspaceId l =? workspaceId)%string)
                                (affiliateLinks st)))).
    { unfold Prisma.orderByDesc. apply orderBy_In. apply filter_In.
      split; [exact Hlink|]. apply String.eqb_eq. exact Hws. }
    destruct (withStats_complete _ _ _ _ _ Hviews link Hin) as [v [Hv Hvl]].
    exists v. split; [exact Hv|]. rewrite Hvl. exact Hid.
  - intros v w Hv Hw Hwid Hsame.
    assert (Hwlink : AffiliateLinksRoute.lv_link w = link).
    { apply (key_unique link_id (affiliateLinks st)); auto. congruence. }
    destruct (withStats_view _ _ _ _ _ _ Hviews Hv) as [Hproduct ->].
    apply findFirst_some in Hproduct. destruct Hproduct as [Hin Hpid].
    cbn [products with_products] in Hin. apply String.eqb_eq in Hpid.
    apply in_map_iff in Hin. destruct Hin as [p0 [Hp0 _]].
    rewrite Hsame, Hwlink in Hpid.
    destruct (prod_id p0 =? link_productId link)%string eqn:Hp0id.
    + rewrite <- Hp0. cbn [prod_activeAffiliateLinkId SetActiveRoute.setActive].
      apply String.eqb_sym.
    + exfalso. rewrite <- Hp0 in Hpid. apply String.eqb_neq in Hp0id. contradiction.
Qed.

(** [alice] sets [l1] active in [wsA] and lists the links. *)
Lemma listing_shows_the_link_set_active_witness :
  exists views v,
    data (AffiliateLinksRoute.GET
            (snd (SetActiveRoute.POST Sample.store (Some Sample.alice) "wsA" "l1"))
            (Some Sample.bob) "wsA" (fun _ => (7, 3))) = Some views
    /\ In v views /\ link_id (AffiliateLinksRoute.lv_link v) = "l1".
Proof.
  assert (Hkey : NoDup (map link_id (affiliateLinks Sample.store)))
    by (simpl; repeat constructor; simpl; intuition discriminate).
  assert (Hok : status (fst (SetActiveRoute.POST Sample.store (Some Sample.alice)
                                                 "wsA" "l1")) = 200)
    by reflexivity.
  eexists.
  destruct (listing_shows_the_link_set_active
              Sample.store (Some Sample.alice) (Some Sample.bob) "wsA" "l1"
              (fun _ => (7, 3)) _ Hkey Hok eq_refl) as [[v [Hv Hvid]] _].
  exists v. split; [reflexivity|]. split; [exact Hv|exact Hvid].
Defined.

(* ================================================================== *)
(** ** Workspace isolation of the reads *)

(** The listing of links succeeds when every link has its product. *)
Lemma withStats_total (st : Store) (mock : nat -> nat * nat)
      (links : list AffiliateLink) :
  (forall l, In l links -> hasProduct st (link_productId l) = true) ->
  forall i, exists views, AffiliateLinksRoute.withStats st mock i links = ret views.
Proof.
  induction links as [|link rest IH]; intros Hfk i; simpl.
  - exists []. reflexivity.
  - pose proof (Hfk link (or_introl eq_refl)) as Hlink.
    unfold hasProduct in Hlink. apply existsb_exists in Hlink.
    destruct Hlink as [p [Hp Hid]].
    destruct (findFirst_hit (fun p => (prod_id p =? link_productId link)%string)
                            (products st) p Hp Hid) as [product ->].
    destruct (IH (fun l Hl => Hfk l (or_intror Hl)) (S i)) as [views ->].
    simpl. eexists. reflexivity.
Qed.

(** A member's update of a link of the workspace that names a stored
    product and no affiliate URL is carried out as it is given. *)
Lemma link_PUT_moves (st : Store) (user : SessionUser) (workspaceId : string)
      (role : WorkspaceRole) (link : AffiliateLink) (target : Product)
      (name originalUrl platform : option string) (mock : nat * nat) :
  memberAs st workspaceId (user_id user) role ->
  In link (affiliateLinks st) -> link_workspaceId link = workspaceId ->
  In target (products st) ->
  let validatedData :=
    LinkRoute.mkUpdateData name originalUrl None platform (Some (prod_id target)) in
  let rows := map (fun l => if (link_id l =? link_id link)%string
                            then LinkRoute.applyUpdate validatedData l else l)
                  (affiliateLinks st) in
  LinkRoute.PUT st (Some user) workspaceId (link_id link) (ret validatedData) mock
  = (mkResponse 200 true None (Some "Affiliate link updated successfully")
       (Some (Prisma.findFirst (fun l => (link_id l =? link_id link)%string) rows,
              (fst mock mod 100, snd mock mod 10))),
     with_affiliateLinks st rows).
Proof.
  intros Hrole Hlink Hws Htarget. cbv zeta.
  destruct (member_found _ _ _ _ Hrole) as [m Hm].
  unfold LinkRoute.PUT, LinkRoute.verifyLinkAccess, SetActiveRoute.whereMembership.
  rewrite Hm.
  destruct (findFirst_hit
              (fun l => (link_id l =? link_id link)%string
                        && (link_workspaceId l =? workspaceId)%string)
              (affiliateLinks st) link Hlink) as [found ->].
  { apply andb_true_iff. rewrite !String.eqb_eq. auto. }
  cbn [bind ret LinkRoute.ud_affiliateUrl]. cbv zeta.
  unfold LinkRoute.updateLink.
  rewrite (update_hit (fun l => (link_id l =? link_id link)%string) _
                      (affiliateLinks st) link Hlink (String.eqb_refl _)).
  cbn [bind ret LinkRoute.ud_productId].
  assert (Hfk : hasProduct st (prod_id target) = true).
  { unfold hasProduct. apply existsb_exists. exists target.
    split; [exact Htarget|apply String.eqb_refl]. }
  rewrite Hfk. reflexivity.
Qed.

(** C2. Workspace isolation holds of the rows at the top of a read and
    fails of the rows nested in them.  The rows at the top of what a read
    scoped to a workspace returns are rows of that workspace: every post
    of the listing of posts, every link of the listing of affiliate
    links and the post of the single-post read are stored rows whose
    workspace is the one of the request, for any caller and any query
    string.  The products returned inside them are not: the update of
    an affiliate link stores the product id of the body without the
    lookup of the product in the workspace that the creation of a link
    makes.  So when a member of [A] gives a link of [A] the id of
    [foreign], a product of another workspace [B], the request is
    answered 200, and the listing of the links of [A] then returns, to
    any member of [A], that link of [A] with [foreign], a row whose
    workspace is [B].  The store is any store in which the product ids
    are distinct and every link has its product, as the primary key
    and the foreign key of the database ensure. *)
Theorem link_listing_returns_foreign_product
        (st : Store) (A B : string) (writer reader : SessionUser)
        (writerRole readerRole : WorkspaceRole)
        (link : AffiliateLink) (foreign : Product)
        (name originalUrl platform : option string)
        (draws : nat * nat) (mock : nat -> nat * nat)
        (Hdistinct : A <> B)
        (Hwriter : memberAs st A (user_id writer) writerRole)
        (Hreader : memberAs st A (user_id reader) readerRole)
        (Hpk : NoDup (map prod_id (products st)))
        (Hfk : forall l, In l (affiliateLinks st) ->
                         hasProduct st (link_productId l) = true)
        (Hlink : In link (affiliateLinks st))
        (HlinkA : link_workspaceId link = A)
        (Hforeign : In foreign (products st))
        (HforeignB : prod_workspaceId foreign = B) :
  let validatedData :=
    LinkRoute.mkUpdateData name originalUrl None platform (Some (prod_id foreign)) in
  let st' := snd (LinkRoute.PUT st (Some writer) A (link_id link)
                                (ret validatedData) draws) in
  ((forall s session params result v,
       data (PostsRoute.GET s session A params) = Some result ->
       In v (PostsRoute.pp_posts result) ->
       In (pv_post v) (posts s) /\ post_workspaceId (pv_post v) = A
       /\ post_workspaceId (pv_post v) <> B)
   /\ (forall s session stats views v,
          data (AffiliateLinksRoute.GET s session A stats) = Some views ->
          In v views ->
          In (AffiliateLinksRoute.lv_link v) (affiliateLinks s)
          /\ link_workspaceId (AffiliateLinksRoute.lv_link v) = A
          /\ link_workspaceId (AffiliateLinksRoute.lv_link v) <> B)
   /\ (forall s session postId d,
          data (PostRoute.GET s session A postId) = Some d ->
          In (PostRoute.det_post d) (posts s)
          /\ post_workspaceId (PostRoute.det_post d) = A
          /\ post_workspaceId (PostRoute.det_post d) <> B))
  /\ status (fst (LinkRoute.PUT st (Some writer) A (link_id link)
                                (ret validatedData) draws)) = 200
  /\ exists views v,
      data (AffiliateLinksRoute.GET st' (Some reader) A mock) = Some views
      /\ In v views
      /\ AffiliateLinksRoute.lv_link v = LinkRoute.applyUpdate validatedData link
      /\ link_workspaceId (AffiliateLinksRoute.lv_link v) = A
      /\ AffiliateLinksRoute.lv_product v = foreign
      /\ prod_workspaceId (AffiliateLinksRoute.lv_product v) = B
      /\ prod_workspaceId (AffiliateLinksRoute.lv_product v) <> A.
Proof.
  cbv zeta. split; [|split].
  - split; [|split].
    + intros s session params result v Hdata Hv.
      destruct (listed_post_scope _ _ _ _ _ _ Hdata Hv) as [Hin [Hws _]].
      split; [exact Hin|]. split; [exact Hws|]. rewrite Hws. exact Hdistinct.
    + intros s session stats views v Hdata Hv.
      destruct (listed_link_scope _ _ _ _ _ _ Hdata Hv) as [Hin Hws].
      split; [exact Hin|]. split; [exact Hws|]. rewrite Hws. exact Hdistinct.
    + intros s session postId d Hdata.
      destruct (read_post_scope _ _ _ _ _ Hdata) as [Hin [_ [Hws _]]].
      split; [exact Hin|]. split; [exact Hws|]. rewrite Hws. exact Hdistinct.
  - rewrite (link_PUT_moves st writer A writerRole link foreign name originalUrl
                            platform draws Hwriter Hlink HlinkA Hforeign).
    reflexivity.
  - rewrite (link_PUT_moves st writer A writerRole link foreign name originalUrl
                            platform draws Hwriter Hlink HlinkA Hforeign).
    cbn [snd].
    set (validatedData :=
           LinkRoute.mkUpdateData name originalUrl None platform (Some (prod_id foreign))).
    set (rows := map (fun l => if (link_id l =? link_id link)%string
                               then LinkRoute.applyUpdate validatedData l else l)
                     (affiliateLinks st)).
    set (listed := Prisma.orderByDesc link_createdAt
                     (Prisma.findMany (fun l => (link_workspaceId l =? A)%string) rows)).
    assert (Hmoved : In (LinkRoute.applyUpdate validatedData link) listed).
    { unfold listed, Prisma.orderByDesc, Prisma.findMany.
      apply orderBy_In. apply filter_In. split.
      - unfold rows. apply in_map_iff. exists link.
        rewrite String.eqb_refl. split; [reflexivity|exact Hlink].
      - apply String.eqb_eq. exact HlinkA. }
    assert (Hall : forall l, In l listed ->
                             hasProduct (with_affiliateLinks st rows) (link_productId l)
                             = true).
    { intros l Hl. unfold listed, Prisma.orderByDesc, Prisma.findMany in Hl.
      apply orderBy_In in Hl. apply filter_In in Hl. destruct Hl as [Hl _].
      unfold rows in Hl. apply in_map_iff in Hl. destruct Hl as [l0 [<- Hl0]].
      destruct (link_id l0 =? link_id link)%string.
      - unfold hasProduct. apply existsb_exists. exists foreign.
        split; [exact Hforeign|apply String.eqb_refl].
      - exact (Hfk l0 Hl0). }
    destruct (withStats_total (with_affiliateLinks st rows) mock listed Hall 0)
      as [views Hviews].
    destruct (withStats_complete _ _ _ _ _ Hviews _ Hmoved) as [v [Hv Hvl]].
    destruct (withStats_view _ _ _ _ _ v Hviews Hv) as [Hproduct _].
    rewrite Hvl in Hproduct. apply findFirst_some in Hproduct.
    destruct Hproduct as [Hin Hid]. apply String.eqb_eq in Hid.
    assert (Hsame : AffiliateLinksRoute.lv_product v = foreign)
      by (apply (key_unique prod_id (products st)); assumption).
    exists views, v.
    split.
    { destruct (member_found _ _ _ _ Hreader) as [m Hm].
      unfold AffiliateLinksRoute.GET, AffiliateLinksRoute.verifyWorkspaceAccess,
        AffiliateLinksRoute.whereMembership.
      change (userWorkspaces (with_affiliateLinks st rows)) with (userWorkspaces st).
      rewrite Hm. cbn [bind ret].
      change (affiliateLinks (with_affiliateLinks st rows)) with rows.
      fold listed. rewrite Hviews. reflexivity. }
    split; [exact Hv|]. split; [exact Hvl|].
    split; [rewrite Hvl; exact HlinkA|].
    split; [exact Hsame|].
    rewrite Hsame, HforeignB. split; [reflexivity|].
    intros Heq. apply Hdistinct. symmetry. exact Heq.
Qed.

(** On the sample store [alice], a member of both workspaces, gives the
    link "l1" of [wsA] the product "prodB" of [wsB]; [bob], a member of
    [wsA] only, then lists the links of [wsA]. *)
Lemma link_listing_returns_foreign_product_witness :
  let st' := snd (LinkRoute.PUT Sample.store (Some Sample.alice) "wsA" "l1"
                    (ret (LinkRoute.mkUpdateData None None None None (Some "prodB")))
                    (0, 0)) in
  exists views v,
    data (AffiliateLinksRoute.GET st' (Some Sample.bob) "wsA" (fun _ => (0, 0)))
    = Some views
    /\ In v views
    /\ link_workspaceId (AffiliateLinksRoute.lv_link v) = "wsA"
    /\ prod_workspaceId (AffiliateLinksRoute.lv_product v) = "wsB".
Proof.
  assert (Hdistinct : "wsA" <> "wsB") by discriminate.
  assert (Hwriter : memberAs Sample.store "wsA" (user_id Sample.alice) OWNER).
  { exists Sample.aliceInA. split; reflexivity. }
  assert (Hreader : memberAs Sample.store "wsA" (user_id Sample.bob) ADMIN).
  { exists Sample.bobInA. split; reflexivity. }
  assert (Hpk : NoDup (map prod_id (products Sample.store))).
  { simpl. repeat constructor; simpl; intuition discriminate. }
  assert (Hfk : forall l, In l (affiliateLinks Sample.store) ->
                          hasProduct Sample.store (link_productId l) = true).
  { intros l [<-|[<-|[]]]; reflexivity. }
  assert (Hlink : In Sample.link1 (affiliateLinks Sample.store)) by (simpl; auto).
  assert (Hforeign : In Sample.hoseY (products Sample.store)) by (simpl; auto).
  destruct (link_listing_returns_foreign_product
              Sample.store "wsA" "wsB" Sample.alice Sample.bob OWNER ADMIN
              Sample.link1 Sample.hoseY None None None (0, 0) (fun _ => (0, 0))
              Hdistinct Hwriter Hreader Hpk Hfk Hlink eq_refl Hforeign eq_refl)
    as [_ [_ [views [v [Hdata [Hv [_ [HA [_ [HB _]]]]]]]]]].
  exists views, v. split; [exact Hdata|]. split; [exact Hv|].
  split; [exact HA|exact HB].
Defined.
